(** * EVAQUA: glacier melt, runoff and flood-risk calculator

    Shallow embedding of the hydrological calculator ([src/evaqua.py]), of
    the HRU generator ([src/hru_generator.py]) and of the risk levels and
    statistics of the alert bulletin ([src/ai_alerts.py]).

    Python floats are IEEE-754 binary64 numbers; they are embedded as Rocq's
    primitive [float], so that every arithmetic operation and comparison of
    the source is the same operation here (including NaN, for which every
    ordered comparison is false).  Integer literals that the source mixes
    with floats (0, 1, 24, 50, ...) are written as the floats they are
    converted to. *)

From Stdlib Require Import ZArith Floats Lia.
From stdpp Require Import base option list sorting strings gmap.

Set Warnings "-inexact-float,-register-all".
Local Open Scope float_scope.

(** ** Constants of [evaqua.py] *)

Definition DEGREE_DAY_FACTOR_ICE : float := 8.0.
Definition DEGREE_DAY_FACTOR_SNOW : float := 4.0.
Definition BASE_TEMP_THRESHOLD : float := 0.0.

(** [RUNOFF_COEFFICIENTS]: a dict with four string keys. *)
Definition RUNOFF_COEFFICIENTS : gmap string float :=
  <["muy_baja" := 0.20]> (<["baja" := 0.35]> (<["media" := 0.50]>
    (<["alta" := 0.70]> ∅))).

(** [RISK_LEVELS]: a dict literal; Python dicts iterate in insertion order,
    so the table is the list of its items in the order they are written. *)
Definition RISK_LEVELS : list (string * (float * float * string * string)) :=
  [ ("bajo",    (0.0,  0.25, "#2ecc71", "Bajo"));
    ("medio",   (0.25, 0.50, "#f39c12", "Medio"));
    ("alto",    (0.50, 0.75, "#e67e22", "Alto"));
    ("critico", (0.75, 1.0,  "#e74c3c", "Crítico")) ].

(** ** Python's [max] and [min] on two numbers

    [max(a, b)] returns [b] only if [b > a]; [min(a, b)] returns [b] only if
    [b < a]; in both the first argument wins ties and unordered (NaN)
    comparisons. *)
Definition py_max (a b : float) : float := if a <? b then b else a.
Definition py_min (a b : float) : float := if b <? a then b else a.

(** ** Risk classification *)

(** The loop of [_classify_risk] over the items of a table:
    the first range [min_val <= score < max_val] that holds decides. *)
Fixpoint classify_loop (items : list (string * (float * float * string * string)))
    (score : float) : string :=
  match items with
  | [] => "critico"
  | (risk_level, (min_val, max_val, _, _)) :: rest =>
      if (min_val <=? score) && (score <? max_val) then risk_level
      else classify_loop rest score
  end.

Definition _classify_risk (score : float) : string :=
  classify_loop RISK_LEVELS score.

(** [score] lies in the half-open range [[lo, hi)]. *)
Definition in_range (lo hi score : float) : bool :=
  (lo <=? score) && (score <? hi).

(** No row of the table matches [score]. *)
Definition matches_no_range (score : float) : bool :=
  forallb (fun '(_, (min_val, max_val, _, _)) => negb (in_range min_val max_val score))
          RISK_LEVELS.

(** The critical banner of the dashboard ([app.py]): the number of rows of
    the result table whose [risk_class] equals the literal 'critico'. *)
Definition critical_count (risk_classes : list string) : nat :=
  length (filter (fun c => c = "critico") risk_classes).


(** ** Exceptions and loops

    A computation that may raise is an [option]: [None] means that an
    exception propagates to the caller.  stdpp's option monad ([x ← m; k])
    sequences such computations. *)

(** A [for] loop that appends one record per iteration to a list; the body
    answers [Some None] for [continue] (nothing appended), [Some (Some b)]
    to append [b], and [None] when it raises. *)
Fixpoint for_append {A B : Type} (body : A → option (option B)) (l : list A)
    : option (list B) :=
  match l with
  | [] => Some []
  | a :: l' =>
      r ← body a;
      rest ← for_append body l';
      Some (match r with Some b => b :: rest | None => rest end)
  end.

(** Conversion of a Python [int] to a float (round to nearest even). *)
Definition Z2float (z : Z) : float :=
  SF2Prim (binary_normalize prec emax z 0 false).

(** ** Python values (JSON payloads and the values of a climate dict) *)

Inductive pyval :=
| PNone
| PBool (b : bool)
| PInt (n : Z)
| PNum (x : float)
| PStr (s : string)
| PList (l : list pyval)
| PDict (items : list (string * pyval)).

(** Truth value of a Python value ([if v:], [not v]). *)
Definition truthy (v : pyval) : bool :=
  match v with
  | PNone => false
  | PBool b => b
  | PInt n => negb (n =? 0)%Z
  | PNum x => negb (x =? 0)
  | PStr s => negb (String.eqb s "")
  | PList l => match l with [] => false | _ => true end
  | PDict d => match d with [] => false | _ => true end
  end.

(** Lookup of a key among the items of a dict. *)
Fixpoint assoc (k : string) (items : list (string * pyval)) : option pyval :=
  match items with
  | [] => None
  | (k', v) :: rest => if String.eqb k k' then Some v else assoc k rest
  end.

(** [v.get(k, default)]: only a dict has [get]; on any other value the call
    raises [AttributeError]. *)
Definition py_get (v : pyval) (k : string) (default : pyval) : option pyval :=
  match v with
  | PDict items => Some (match assoc k items with Some x => x | None => default end)
  | _ => None
  end.

(** [v[0]]. *)
Definition py_first (v : pyval) : option pyval :=
  match v with
  | PList (x :: _) => Some x
  | PStr (String c _) => Some (PStr (String c EmptyString))
  | _ => None
  end.

(** [v[:n]]. *)
Definition py_slice (n : nat) (v : pyval) : option pyval :=
  match v with
  | PList l => Some (PList (take n l))
  | PStr s => Some (PStr (String.substring 0 n s))
  | _ => None
  end.

(** A climate record is a Python dict with string keys. *)
Definition _empty_climate_dict : gmap string pyval :=
  list_to_map
    [ ("temp_current", PInt 0); ("temp_avg_today", PInt 0); ("temp_max_today", PInt 0);
      ("precip_24h", PInt 0); ("precip_72h", PInt 0); ("rain_24h", PInt 0);
      ("snow_24h", PInt 0); ("snow_72h", PInt 0); ("radiation_current", PInt 0);
      ("wind_speed_current", PInt 0); ("rain_intensity_max", PInt 0);
      ("temp_series", PList []); ("precip_series", PList []) ].

(** The fields of the climate record, as the regular return of
    [_process_meteo_json] writes them. *)
Definition climate_schema : list string :=
  [ "temp_current"; "temp_avg_today"; "temp_max_today"; "precip_24h"; "precip_72h";
    "rain_24h"; "snow_24h"; "snow_72h"; "radiation_current"; "wind_speed_current";
    "rain_intensity_max"; "elevation"; "temp_series"; "precip_series" ].

(** The value of a defaulted field: zero or the empty list. *)
Definition is_default (v : pyval) : bool :=
  match v with
  | PInt 0 => true
  | PList [] => true
  | _ => false
  end.

(** *** External interfaces of the climate and topography stages

    [np_mean], [np_max] and [np_sum] are numpy's reductions applied to a
    Python value ([None] when numpy raises); [forecast_api lats lons] is the
    decoded JSON body of the weather request, or [None] when the request,
    the status check or the decoding raises; [elevation_api points] is the
    list of elevations that [_fetch_elevation_batch_optimized] returns for
    the sample points (latitude, longitude). *)
Class External := {
  np_mean : pyval → option pyval;
  np_max : pyval → option pyval;
  np_sum : pyval → option pyval;
  forecast_api : list float → list float → option pyval;
  elevation_api : list (float * float) → list float;
}.

Section Climate.
Context `{External}.

(** [f(x) if x else 0] *)
Definition if_truthy (x : pyval) (f : pyval → option pyval) (default : pyval)
    : option pyval :=
  if truthy x then f x else Some default.

(** The [try] block of [_process_meteo_json]: the early return of the empty
    record when the [hourly] block is missing or falsy, the regular record
    otherwise; [None] when a statement of the block raises. *)
Definition process_meteo_try (data : pyval) : option (gmap string pyval) :=
  hourly ← py_get data "hourly" (PDict []);
  daily ← py_get data "daily" (PDict []);
  if negb (truthy hourly) then Some _empty_climate_dict else
  temps_hourly ← py_get hourly "temperature_2m" (PList []);
  temps_daily ← py_get daily "temperature_2m_max" (PList []);
  precip_daily ← py_get daily "precipitation_sum" (PList []);
  snow_daily ← py_get daily "snowfall_sum" (PList []);
  rain_daily ← py_get daily "rain_sum" (PList []);
  radiation_hourly ← py_get hourly "shortwave_radiation" (PList []);
  wind_hourly ← py_get hourly "wind_speed_10m" (PList []);
  temp_current ← if_truthy temps_hourly py_first (PInt 0);
  temp_avg_today ← if_truthy temps_daily np_mean (PInt 0);
  temp_max_today ← if_truthy temps_daily np_max (PInt 0);
  precip_24h ← if_truthy precip_daily (λ v, py_slice 1 v ≫= np_sum) (PInt 0);
  precip_72h ← if_truthy precip_daily (λ v, py_slice 3 v ≫= np_sum) (PInt 0);
  rain_24h ← if_truthy rain_daily (λ v, py_slice 1 v ≫= np_sum) (PInt 0);
  snow_24h ← if_truthy snow_daily (λ v, py_slice 1 v ≫= np_sum) (PInt 0);
  snow_72h ← if_truthy snow_daily (λ v, py_slice 3 v ≫= np_sum) (PInt 0);
  radiation_current ← if_truthy radiation_hourly py_first (PInt 0);
  wind_speed_current ← if_truthy wind_hourly py_first (PInt 0);
  elevation ← py_get data "elevation" (PInt 0);
  temp_series ← if_truthy temps_hourly (py_slice 72) (PList []);
  precip_series ← if_truthy hourly
                    (λ h, py_get h "precipitation" (PList []) ≫= py_slice 72) (PList []);
  Some (list_to_map
    [ ("temp_current", temp_current); ("temp_avg_today", temp_avg_today);
      ("temp_max_today", temp_max_today); ("precip_24h", precip_24h);
      ("precip_72h", precip_72h); ("rain_24h", rain_24h); ("snow_24h", snow_24h);
      ("snow_72h", snow_72h); ("radiation_current", radiation_current);
      ("wind_speed_current", wind_speed_current); ("rain_intensity_max", PInt 0);
      ("elevation", elevation); ("temp_series", temp_series);
      ("precip_series", precip_series) ]).

(** [_process_meteo_json]: the bare [except] turns every exception of the
    [try] block into the empty record. *)
Definition _process_meteo_json (data : pyval) : gmap string pyval :=
  match process_meteo_try data with
  | Some record => record
  | None => _empty_climate_dict
  end.

(** [_fetch_openmeteo_batch]: one record per payload of the response, or,
    when the request raises, one empty record per requested location. *)
Definition _fetch_openmeteo_batch (lats lons : list float) : list (gmap string pyval) :=
  match forecast_api lats lons with
  | Some data =>
      let data := match data with PList l => l | d => [d] end in
      map _process_meteo_json data
  | None => map (λ _, _process_meteo_json (PDict [])) lats
  end.

(** The inner loop of [get_climate_data]: [enumerate(batch_results)], where
    a truthy (non-empty) record gets [batch_ids[j]] as its [grid_id];
    [batch_ids[j]] raises [IndexError] beyond the end of the batch. *)
Fixpoint tag_results (j : nat) (batch_results : list (gmap string pyval))
    (batch_ids : list Z) : option (list (gmap string pyval)) :=
  match batch_results with
  | [] => Some []
  | result :: rest =>
      if decide (size result = 0%nat) then tag_results (S j) rest batch_ids
      else
        id ← batch_ids !! j;
        tagged ← tag_results (S j) rest batch_ids;
        Some (<["grid_id" := PInt id]> result :: tagged)
  end.

(** [range(0, n, batch_size)] *)
Definition range_step (n batch_size : nat) : list nat :=
  map (λ k, k * batch_size)%nat (seq 0 (Nat.div (n + (batch_size - 1)) batch_size)).

(** [l[i:i+batch_size]] *)
Definition slice_from {A : Type} (i batch_size : nat) (l : list A) : list A :=
  take batch_size (drop i l).

Definition batch_size : nat := 50.

(** [get_climate_data] over the centroids [(lat, lon)] and the identifiers
    of the units, in the order of the rows of [grids_gdf]: the list
    [climate_data] from which the climate frame is built. *)
Definition get_climate_records (lats lons : list float) (grid_ids : list Z)
    : option (list (gmap string pyval)) :=
  batches ←
    mapM (λ i,
            let batch_lats := slice_from i batch_size lats in
            let batch_lons := slice_from i batch_size lons in
            let batch_ids := slice_from i batch_size grid_ids in
            tag_results 0 (_fetch_openmeteo_batch batch_lats batch_lons) batch_ids)
         (range_step (length lats) batch_size);
  Some (concat batches).

End Climate.

(** ** The tables of the calculator

    A pandas frame is the list of its rows; a row is a record with the
    columns that the calculator reads or writes.  (The glacier-area column
    that [calculate_melt] only carries through, and the geometries, are left
    out.) *)

(** A row of [grids_gdf] (an HRU).  [load_base_data] always writes the
    [grid_id] column.  The geometry is present through what the calculator
    computes from it: its centroid, its bounds and its area. *)
Record grid := {
  grid_id : Z;
  centroid_x : float;
  centroid_y : float;
  bounds : float * float * float * float;   (* minx, miny, maxx, maxy *)
  area_km2 : float;                         (* column [area_km2] *)
  geometry_area_m2 : float;                 (* area after [to_crs(epsg=32719)] *)
  grid_elevation_mean : float;              (* column [elevation_mean] *)
}.

(** [grids_gdf]: its rows and which of the optional columns it has. *)
Record grids_frame := {
  grid_rows : list grid;
  has_area_km2 : bool;
  has_elevation_mean : bool;
}.

(** The [elevation] cell of a climate row: the frame may have no such
    column, the cell may hold [None], or a number (NaN when missing). *)
Inductive elevation_cell :=
| NoColumn
| NoneCell
| NumCell (x : float).

Record climate_row := {
  climate_grid_id : Z;
  temp_current : float;
  precip_24h : float;
  precip_72h : float;
  snow_24h : float;
  elevation : elevation_cell;
}.

Record topo_row := {
  topo_grid_id : Z;
  elevation_mean : float;
  elevation_min : float;
  elevation_max : float;
  slope_mean : float;
  aspect : string;
  aspect_deg : float;
}.

Record melt_row := {
  melt_grid_id : Z;
  melt_rate_mm_day : float;
  temp_for_melt : float;
  snow_recent : bool;
}.

Record runoff_row := {
  runoff_grid_id : Z;
  runoff_m3s : float;
  runoff_coeff : float;
  slope_percent : float;
  precip_intensity_mm_h : float;
}.

Record risk_row := {
  risk_grid_id : Z;
  risk_score : float;
  risk_class : string;
  melt_component : float;
  runoff_component : float;
  precip_component : float;
}.

Record proj_row := {
  proj_grid_id : Z;
  melt_3d_mm : float;
  precip_3d_mm : float;
  water_total_3d_mm : float;
  risk_score_3d : float;
  risk_class_3d : string;
}.

(** [glaciers_gdf] as far as [calculate_melt] depends on it: whether it has
    the columns [grid_id] and [area_in_grid], and whether the emergency
    assignment of [calculate_melt] (the spatial join with the unit table
    and the projection that computes [area_in_grid]) succeeds on it.  The
    areas themselves only feed the carried-through glacier-area column. *)
Record glaciers_frame := {
  has_grid_id : bool;
  has_area_in_grid : bool;
  emergency_join_succeeds : bool;
}.

(** The state of [EVAQUACalculator] that the model chain uses; [None] is
    Python's [None] (the table has not been loaded, the stage has not
    run). *)
Record calculator := {
  glaciers_gdf : option glaciers_frame;
  grids_gdf : grids_frame;
  climate_data : option (list climate_row);
  topo_data : option (list topo_row);
}.

(** [df[df['grid_id'] == gid]] on a frame built by [pd.DataFrame(records)]:
    subscripting [None] raises, and a frame built from no record has no
    column, so that [df['grid_id']] raises [KeyError]. *)
Definition select {A : Type} (key : A → Z) (df : option (list A)) (gid : Z)
    : option (list A) :=
  match df with
  | Some (r :: rows) => Some (filter (λ x, key x = gid) (r :: rows))
  | _ => None
  end.

(** ** Frames from records *)

(** The value of a cell in the arithmetic of the model chain: a number
    (a [bool] counts as 0 or 1); on any other value ([None], a string, a
    list) the arithmetic raises [TypeError]. *)
Definition cell_float (v : pyval) : option float :=
  match v with
  | PNum x => Some x
  | PInt n => Some (Z2float n)
  | PBool b => Some (if b then 1 else 0)
  | _ => None
  end.

Definition is_number (v : pyval) : bool :=
  match v with
  | PNum _ | PInt _ => true
  | _ => false
  end.

(** [column in df.columns]: the columns of [pd.DataFrame(records)] are the
    union of the keys of the records. *)
Definition has_column (records : list (gmap string pyval)) (column : string) : bool :=
  existsb (λ r, bool_decide (is_Some (r !! column))) records.

(** The column is stored as numbers: some record holds a number, and every
    record holds a number, [None] or nothing.  Any other value (a [bool], a
    string, a list) makes it a column of Python objects. *)
Definition numeric_column (records : list (gmap string pyval)) (column : string) : bool :=
  existsb (λ r, from_option is_number false (r !! column)) records
  && forallb (λ r, match r !! column with
                   | Some (PNum _) | Some (PInt _) | Some PNone | None => true
                   | Some _ => false
                   end) records.

(** The cell [row[column]] of one row of [pd.DataFrame(records)], as the
    stages compute with it.  A record without the key gets NaN; [None]
    becomes NaN in a numeric column and stays [None] in a column of
    objects, where the arithmetic of the stages raises on it, as it does on
    every value that is not a number; reading a column that no record has
    raises [KeyError].  [calculate_melt] reads [temp_current] and [snow_24h]
    of every row, the later stages read the precipitation of the first row
    of each unit; the model raises for such a cell when the frame is
    built. *)
Definition df_cell (records : list (gmap string pyval)) (record : gmap string pyval)
    (column : string) : option float :=
  match record !! column with
  | Some PNone => if numeric_column records column then Some nan else None
  | Some v => cell_float v
  | None => if has_column records column then Some nan else None
  end.

(** [pd.DataFrame(climate_data)] with the cells of the columns that the
    stages read.  [elevation] is read with [climate.get('elevation', 0)],
    which tells a missing column and a [None] cell from a number. *)
Definition climate_frame (records : list (gmap string pyval)) : option (list climate_row) :=
  mapM (λ r,
          id ← match r !! "grid_id" with Some (PInt n) => Some n | _ => None end;
          temp ← df_cell records r "temp_current";
          p24 ← df_cell records r "precip_24h";
          p72 ← df_cell records r "precip_72h";
          snow ← df_cell records r "snow_24h";
          elev ← (if negb (has_column records "elevation") then Some NoColumn
                  else match r !! "elevation" with
                       | None => Some (NumCell nan)
                       | Some PNone =>
                           Some (if numeric_column records "elevation"
                                 then NumCell nan else NoneCell)
                       | Some v => NumCell <$> cell_float v
                       end);
          Some {| climate_grid_id := id; temp_current := temp; precip_24h := p24;
                  precip_72h := p72; snow_24h := snow; elevation := elev |})
       records.

Section Stages.
Context `{External}.

(** *** Step 2: topography *)

(** [_generate_sample_points(bounds, n=1)]: the centre of the bounds, as
    (latitude, longitude). *)
Definition _generate_sample_points (b : float * float * float * float) : float * float :=
  let '(minx, miny, maxx, maxy) := b in
  ((miny + maxy) / 2, (minx + maxx) / 2).

(** [_calculate_topography_metrics_impl] on the 1x1 matrix of one sample:
    mean, minimum and maximum are the sample, and there is no gradient. *)
Definition _calculate_topography_metrics_impl (e : float) (gid : Z) : topo_row :=
  {| topo_grid_id := gid; elevation_mean := e; elevation_min := e; elevation_max := e;
     slope_mean := 0; aspect := "-"; aspect_deg := 0 |}.

(** [get_topography_for_grids]: unit number [i] owns the slice
    [all_elevations[i:i+1]] and gets a row when that slice has one sample. *)
Definition get_topography_for_grids (grids : list grid) : list topo_row :=
  let all_points := map (λ g, _generate_sample_points (bounds g)) grids in
  let all_elevations := elevation_api all_points in
  omap id
    (imap (λ i g,
             match slice_from i 1 all_elevations with
             | [e] => Some (_calculate_topography_metrics_impl e (grid_id g))
             | _ => None
             end)
          grids).

(** *** Step 3: climate *)

Definition get_climate_data (grids : list grid) : option (list climate_row) :=
  records ← get_climate_records (map centroid_y grids) (map centroid_x grids)
                                (map grid_id grids);
  climate_frame records.

End Stages.

(** *** Step 4: melt (degree-day model) *)

Definition lapse_rate : float := -0.0065.

(** [climate.get('elevation', 0)] *)
Definition climate_get_elevation (climate : climate_row) : option float :=
  match elevation climate with
  | NoColumn => Some 0
  | NoneCell => None
  | NumCell x => Some x
  end.

(** The elevation of the HRU: the [elevation_mean] column of [grids_gdf]
    when the frame has one ([iloc[0]] raises on an empty selection), else
    the first matching row of the topography table, else 0. *)
Definition hru_elevation (self : calculator) (grid_row : list grid) (gid : Z)
    : option float :=
  if has_elevation_mean (grids_gdf self) then
    g ← head grid_row; Some (grid_elevation_mean g)
  else
    match topo_data self with
    | Some (t :: topo) =>
        match filter (λ r, topo_grid_id r = gid) (t :: topo) with
        | topo_match :: _ => Some (elevation_mean topo_match)
        | [] => Some 0
        end
    | _ => Some 0
    end.

(** The failsafe of [calculate_melt]: [self.glaciers_gdf.columns] raises on
    [None]; a table without [grid_id] is replaced by the result of the
    emergency assignment, which has the columns [grid_id] and
    [area_in_grid], unless that assignment raises. *)
Definition glaciers_failsafe (self : calculator) : option glaciers_frame :=
  glaciers ← glaciers_gdf self;
  if has_grid_id glaciers then Some glaciers
  else if emergency_join_succeeds glaciers then
    Some {| has_grid_id := true; has_area_in_grid := true;
            emergency_join_succeeds := true |}
  else None.

(** The body of the loop of [calculate_melt] for one climate row, with the
    glacier table that the failsafe left.  For a [grid_id] of no unit the
    glacier area is summed from [glaciers_gdf['area_in_grid']], which
    raises [KeyError] when the table has no such column. *)
Definition melt_of (self : calculator) (glaciers : glaciers_frame)
    (climate : climate_row) : option melt_row :=
  let gid := climate_grid_id climate in
  let grid_row := filter (λ g, grid_id g = gid) (grid_rows (grids_gdf self)) in
  _ ← match grid_row with
      | [] => if has_area_in_grid glaciers then Some () else None
      | _ => Some ()
      end;
  let temp := temp_current climate in
  let model_elev := climate_get_elevation climate in
  hru_elev ← hru_elevation self grid_row gid;
  let temp :=
    match model_elev with
    | Some model_elev =>
        if 0 <? hru_elev then
          let diff_elev := hru_elev - model_elev in
          let adjustment := diff_elev * lapse_rate in
          temp + adjustment
        else temp
    | None => temp
    end in
  let temp_excess := py_max 0 (temp - BASE_TEMP_THRESHOLD) in
  let melt_rate := DEGREE_DAY_FACTOR_ICE * temp_excess in
  let melt_rate :=
    if 0 <? snow_24h climate then DEGREE_DAY_FACTOR_SNOW * temp_excess else melt_rate in
  Some {| melt_grid_id := gid; melt_rate_mm_day := melt_rate; temp_for_melt := temp;
          snow_recent := 0 <? snow_24h climate |}.

(** [calculate_melt]: [Some None] is the early [return] (Python's [None])
    when there is no climate data; [None] is a raised exception.  (The
    table that the failsafe assigns to [self.glaciers_gdf] is read by no
    other stage.) *)
Definition calculate_melt (self : calculator) : option (option (list melt_row)) :=
  match climate_data self with
  | None | Some [] => Some None
  | Some rows =>
      glaciers ← glaciers_failsafe self;
      melt_data ← mapM (melt_of self glaciers) rows;
      Some (Some melt_data)
  end.

(** *** Step 5: runoff (rational method) *)

Definition runoff_of (self : calculator) (g : grid) : option (option runoff_row) :=
  let gid := grid_id g in
  climate_row ← select climate_grid_id (climate_data self) gid;
  let topo_row :=
    match topo_data self with
    | Some (t :: topo) =>
        match filter (λ r, topo_grid_id r = gid) (t :: topo) with
        | [] => None
        | topo_matches => Some topo_matches
        end
    | _ => None
    end in
  match climate_row with
  | [] => Some None
  | climate :: _ =>
      runoff_coeff ←
        match topo_row with
        | Some (t :: _) =>
            let slope := slope_mean t in
            if slope <? 5 then RUNOFF_COEFFICIENTS !! "muy_baja"
            else if slope <? 10 then RUNOFF_COEFFICIENTS !! "baja"
            else if slope <? 20 then RUNOFF_COEFFICIENTS !! "media"
            else RUNOFF_COEFFICIENTS !! "alta"
        | _ => RUNOFF_COEFFICIENTS !! "media"
        end;
      let precip_24h := precip_24h climate in
      let intensity := if 0 <? precip_24h then precip_24h / 24 else 0 in
      let area :=
        if has_area_km2 (grids_gdf self) then area_km2 g
        else geometry_area_m2 g / 1e6 in
      let area := if area <=? 0 then 1.0 else area in
      let runoff := runoff_coeff * intensity * area * 0.278 in
      Some (Some {| runoff_grid_id := gid; runoff_m3s := runoff;
                    runoff_coeff := runoff_coeff;
                    slope_percent :=
                      match topo_row with Some (t :: _) => slope_mean t | _ => 0 end;
                    precip_intensity_mm_h := intensity |})
  end.

(** [calculate_runoff(melt_df)]; the argument is not used by the body. *)
Definition calculate_runoff (self : calculator) (melt_df : option (list melt_row))
    : option (list runoff_row) :=
  for_append (runoff_of self) (grid_rows (grids_gdf self)).

(** [row.iloc[0][column] if not row.empty else 0] *)
Definition first_or_zero {A : Type} (column : A → float) (rows : list A) : float :=
  match rows with
  | r :: _ => column r
  | [] => 0
  end.

(** *** Step 6.5: three-day projection *)

Definition projection_of (self : calculator) (melt_df : option (list melt_row))
    (runoff_df : list runoff_row) (g : grid) : option (option proj_row) :=
  let gid := grid_id g in
  melt_row ← select melt_grid_id melt_df gid;
  runoff_row ← select runoff_grid_id (Some runoff_df) gid;
  climate_row ← select climate_grid_id (climate_data self) gid;
  match climate_row with
  | [] => Some None
  | climate :: _ =>
      let melt_rate_day := first_or_zero melt_rate_mm_day melt_row in
      let runoff := first_or_zero runoff_m3s runoff_row in
      let precip_24h := precip_24h climate in
      let melt_3d := melt_rate_day * 3 in
      let precip_3d := precip_24h * 3 in
      let melt_comp_3d := py_min 1.0 (melt_3d / 150) in
      let precip_comp_3d := py_min 1.0 (precip_3d / 300) in
      let runoff_comp_3d := py_min 1.0 (runoff / 1200) in
      let score := (0.35 * melt_comp_3d) + (0.35 * runoff_comp_3d)
                   + (0.30 * precip_comp_3d) in
      Some (Some {| proj_grid_id := gid; melt_3d_mm := melt_3d;
                    precip_3d_mm := precip_3d;
                    water_total_3d_mm := melt_3d + precip_3d;
                    risk_score_3d := score;
                    risk_class_3d := _classify_risk score |})
  end.

Definition calculate_projected_risk_3d (self : calculator)
    (melt_df : option (list melt_row)) (runoff_df : list runoff_row)
    : option (list proj_row) :=
  for_append (projection_of self melt_df runoff_df) (grid_rows (grids_gdf self)).

(** *** Step 6: flood risk *)

Definition risk_of (self : calculator) (melt_df : option (list melt_row))
    (runoff_df : list runoff_row) (g : grid) : option (option risk_row) :=
  let gid := grid_id g in
  melt_row ← select melt_grid_id melt_df gid;
  runoff_row ← select runoff_grid_id (Some runoff_df) gid;
  climate_row ← select climate_grid_id (climate_data self) gid;
  match climate_row with
  | [] => Some None
  | climate :: _ =>
      let melt_val := first_or_zero melt_rate_mm_day melt_row in
      let runoff_val := first_or_zero runoff_m3s runoff_row in
      let precip_val := precip_72h climate in
      let '(w_melt, w_runoff, w_precip) :=
        if melt_val <? 0.1 then (0.05, 0.55, 0.40) else (0.40, 0.40, 0.20) in
      let melt_c := py_min 1.0 (melt_val / 50) in
      let runoff_c := py_min 1.0 (runoff_val / 1000) in
      let precip_c := py_min 1.0 (precip_val / 300) in
      let score := (w_melt * melt_c) + (w_runoff * runoff_c) + (w_precip * precip_c) in
      Some (Some {| risk_grid_id := gid; risk_score := score;
                    risk_class := _classify_risk score;
                    melt_component := melt_c; runoff_component := runoff_c;
                    precip_component := precip_c |})
  end.

Definition calculate_flood_risk (self : calculator)
    (melt_df : option (list melt_row)) (runoff_df : list runoff_row)
    : option (list risk_row) :=
  for_append (risk_of self melt_df runoff_df) (grid_rows (grids_gdf self)).

(** *** Step 7: the merged result table *)

(** What a left join leaves in the columns of a stage for one row of the
    result table: the columns do not exist (the merge was skipped), the
    stage had no row for this [grid_id] (pandas writes its missing-value
    marker NaN in every column of the stage), or the matching row. *)
Inductive joined (A : Type) :=
| NotMerged
| Unmatched
| Matched (a : A).
Arguments NotMerged {A}.
Arguments Unmatched {A}.
Arguments Matched {A} a.

(** A row of [results_gdf]: the row of [grids_gdf] and the columns of the
    six merged stage tables. *)
Record result_row := {
  base : grid;
  with_climate : joined climate_row;
  with_topo : joined topo_row;
  with_melt : joined melt_row;
  with_runoff : joined runoff_row;
  with_risk : joined risk_row;
  with_proj : joined proj_row;
}.

(** [self.grids_gdf.copy()] *)
Definition initial_row (g : grid) : result_row :=
  {| base := g; with_climate := NotMerged; with_topo := NotMerged;
     with_melt := NotMerged; with_runoff := NotMerged; with_risk := NotMerged;
     with_proj := NotMerged |}.

Definition set_climate (r : result_row) (j : joined climate_row) : result_row :=
  {| base := base r; with_climate := j; with_topo := with_topo r;
     with_melt := with_melt r; with_runoff := with_runoff r;
     with_risk := with_risk r; with_proj := with_proj r |}.
Definition set_topo (r : result_row) (j : joined topo_row) : result_row :=
  {| base := base r; with_climate := with_climate r; with_topo := j;
     with_melt := with_melt r; with_runoff := with_runoff r;
     with_risk := with_risk r; with_proj := with_proj r |}.
Definition set_melt (r : result_row) (j : joined melt_row) : result_row :=
  {| base := base r; with_climate := with_climate r; with_topo := with_topo r;
     with_melt := j; with_runoff := with_runoff r;
     with_risk := with_risk r; with_proj := with_proj r |}.
Definition set_runoff (r : result_row) (j : joined runoff_row) : result_row :=
  {| base := base r; with_climate := with_climate r; with_topo := with_topo r;
     with_melt := with_melt r; with_runoff := j;
     with_risk := with_risk r; with_proj := with_proj r |}.
Definition set_risk (r : result_row) (j : joined risk_row) : result_row :=
  {| base := base r; with_climate := with_climate r; with_topo := with_topo r;
     with_melt := with_melt r; with_runoff := with_runoff r;
     with_risk := j; with_proj := with_proj r |}.
Definition set_proj (r : result_row) (j : joined proj_row) : result_row :=
  {| base := base r; with_climate := with_climate r; with_topo := with_topo r;
     with_melt := with_melt r; with_runoff := with_runoff r;
     with_risk := with_risk r; with_proj := j |}.

(** [results.merge(right, on='grid_id', how='left')]: every row of the left
    table, in order, once per matching row of the right table, and once
    with missing values when no row of the right table matches. *)
Definition left_merge {A : Type} (key : A → Z)
    (set : result_row → joined A → result_row)
    (results : list result_row) (right : list A) : list result_row :=
  flat_map (λ row,
              match filter (λ r, key r = grid_id (base row)) right with
              | [] => [set row Unmatched]
              | matches => map (λ r, set row (Matched r)) matches
              end)
           results.

(** [if right is not None and not right.empty: results = results.merge(...)] *)
Definition merge_if_any {A : Type} (key : A → Z)
    (set : result_row → joined A → result_row)
    (results : list result_row) (right : option (list A)) : list result_row :=
  match right with
  | Some (r :: rows) => left_merge key set results (r :: rows)
  | _ => results
  end.

(** A numeric cell of the merged table. *)
Inductive cell :=
| ColumnAbsent
| MissingValue
| Value (x : float).

Definition cell_of {A : Type} (column : A → float) (j : joined A) : cell :=
  match j with
  | NotMerged => ColumnAbsent
  | Unmatched => MissingValue
  | Matched a => Value (column a)
  end.

(** The three columns of the merged table that the join-integrity property
    names. *)
Definition risk_score_cell (r : result_row) : cell := cell_of risk_score (with_risk r).
Definition melt_rate_cell (r : result_row) : cell := cell_of melt_rate_mm_day (with_melt r).
Definition runoff_cell (r : result_row) : cell := cell_of runoff_m3s (with_runoff r).

(** A cell holds a defined value: a number that is not the missing-value
    marker. *)
Definition is_defined (c : cell) : bool :=
  match c with
  | Value x => x =? x
  | _ => false
  end.

Section Analysis.
Context `{External}.

(** [run_full_analysis] from step 2 on, for the glacier table [glaciers]
    and the unit table [grids] that [load_base_data] has built: the stages
    and the six merges onto [grids_gdf], up to the merge of the projection
    (the table to which [_identify_flood_zones] then adds its two flag
    columns). *)
Definition run_full_analysis (glaciers : glaciers_frame) (grids : grids_frame)
    : option (list result_row) :=
  let topo := get_topography_for_grids (grid_rows grids) in
  climate ← get_climate_data (grid_rows grids);
  let self := {| glaciers_gdf := Some glaciers; grids_gdf := grids;
                 climate_data := Some climate; topo_data := Some topo |} in
  melt_df ← calculate_melt self;
  runoff_df ← calculate_runoff self melt_df;
  risk_df ← calculate_flood_risk self melt_df runoff_df;
  let results := map initial_row (grid_rows grids) in
  let results := merge_if_any climate_grid_id set_climate results (climate_data self) in
  let results := merge_if_any topo_grid_id set_topo results (topo_data self) in
  let results := merge_if_any melt_grid_id set_melt results melt_df in
  let results := merge_if_any runoff_grid_id set_runoff results (Some runoff_df) in
  let results := merge_if_any risk_grid_id set_risk results (Some risk_df) in
  proj_df ← calculate_projected_risk_3d self melt_df runoff_df;
  let results := merge_if_any proj_grid_id set_proj results (Some proj_df) in
  Some results.

End Analysis.
(** ** Streamlit's data cache ([@st.cache_data(ttl=3600)])

    The decorated function keeps a process-wide store.  The key of a call
    is built from the arguments whose names do not start with an
    underscore; an argument with a leading underscore is not part of the
    key.  A stored entry answers every later call with the same key until
    it is [ttl] seconds old, without running the body; a call whose body
    raises stores nothing.  The store is threaded through the calls, with
    the clock reading [now] of each call. *)
Record cache_entry (K V : Type) := {
  entry_key : K;
  entry_expires : float;
  entry_value : V;
}.
Arguments entry_key {K V} _.
Arguments entry_expires {K V} _.
Arguments entry_value {K V} _.

Definition cache_data (K V : Type) : Type := list (cache_entry K V).

Definition ttl : float := 3600.

(** The entry of a key, while it has not expired. *)
Fixpoint cache_read {K V : Type} (key_eqb : K → K → bool) (now : float) (key : K)
    (cache : cache_data K V) : option V :=
  match cache with
  | [] => None
  | e :: rest =>
      if key_eqb (entry_key e) key then
        if now <? entry_expires e then Some (entry_value e) else None
      else cache_read key_eqb now key rest
  end.

(** Storing a value replaces the entry of its key. *)
Definition cache_write {K V : Type} (key_eqb : K → K → bool) (now : float) (key : K)
    (value : V) (cache : cache_data K V) : cache_data K V :=
  {| entry_key := key; entry_expires := now + ttl; entry_value := value |}
  :: filter (λ e, key_eqb (entry_key e) key = false) cache.

(** A call of a cached function whose body would answer [body] ([None]
    when it raises): the result and the store after the call. *)
Definition cache_data_call {K V : Type} (key_eqb : K → K → bool) (body : option V)
    (now : float) (key : K) (cache : cache_data K V) : option V * cache_data K V :=
  match cache_read key_eqb now key cache with
  | Some value => (Some value, cache)
  | None =>
      match body with
      | Some value => (Some value, cache_write key_eqb now key value cache)
      | None => (None, cache)
      end
  end.


(** ** The HRU generator ([hru_generator.py])

    A sub-basin row is modelled by its attributes and by what the generator
    computes from its geometry and from the glacier layer: its projected
    area, the number and the summed projected area of the glaciers that
    intersect it, and, for a division in [n] horizontal bands, whether the
    intersection of the geometry with band [i] is empty. *)
Record subcuenca := {
  COD_SUBC : string;
  NOM_SUBC : string;
  COD_CUEN : string;
  area_m2 : float;                   (* [sub_proj.area.iloc[0]] *)
  glacier_count : nat;               (* [len(g_in_sub)] *)
  glacier_area_m2 : float;           (* [g_proj.geometry.area.sum()] *)
  band_is_empty : nat → nat → bool;  (* [n_div], [i] *)
}.

(** An entry of the statistics dict. *)
Record glacier_stat := {
  count : nat;
  stat_area_km2 : float;
  density : float;
}.

(** The rule that fired, which the source writes as the text [reason]. *)
Inductive reason :=
| Pequena
| MedianaConGlaciares (n : nat)
| MedianaSinGlaciares
| GrandeAltaDensidad
| GrandeConGlaciares
| GrandeSinGlaciares.

(** A generated unit (its geometry left out). *)
Record hru := {
  hru_id : Z;
  subcuenca_cod : string;
  subcuenca_nom : string;
  cuenca_cod : string;
  elevation_band : string;
  n_divisions : nat;
  hru_reason : reason;
}.

(** The entry that [_calculate_glacier_stats] computes for one sub-basin. *)
Definition glacier_stat_of (sub : subcuenca) : glacier_stat :=
  let sub_area_km2 := area_m2 sub / 1e6 in
  let g_area_km2 :=
    if decide (0 < glacier_count sub)%nat then glacier_area_m2 sub / 1e6 else 0 in
  {| count := glacier_count sub;
     stat_area_km2 := g_area_km2;
     density := if 0 <? sub_area_km2 then g_area_km2 / sub_area_km2 * 100 else 0 |}.

(** [_calculate_glacier_stats]: a dict keyed by [COD_SUBC]; a later
    sub-basin with the same code overwrites the entry of an earlier one. *)
Definition _calculate_glacier_stats (subcuencas : list subcuenca)
    : gmap string glacier_stat :=
  foldl (λ stats sub, <[COD_SUBC sub := glacier_stat_of sub]> stats) ∅ subcuencas.

Definition band_names : gmap nat (list string) :=
  <[2%nat := ["Baja"; "Alta"]]> (<[3%nat := ["Baja"; "Media"; "Alta"]]> ∅).

(** [_divide_subcuenca]: one unit for [n_div = 1]; otherwise one unit per
    band whose intersection with the geometry is not empty. *)
Definition _divide_subcuenca (sub : subcuenca) (n_div : nat) (start_id : Z)
    (why : reason) : option (list hru) :=
  if decide (n_div = 1%nat) then
    Some [ {| hru_id := start_id; subcuenca_cod := COD_SUBC sub;
              subcuenca_nom := NOM_SUBC sub; cuenca_cod := COD_CUEN sub;
              elevation_band := "Única"; n_divisions := 1; hru_reason := why |} ]
  else
    for_append
      (λ i : nat,
         if band_is_empty sub n_div i then Some None
         else
           names ← band_names !! n_div;
           name ← names !! i;
           Some (Some {| hru_id := (start_id + Z.of_nat i)%Z;
                         subcuenca_cod := COD_SUBC sub;
                         subcuenca_nom := NOM_SUBC sub; cuenca_cod := COD_CUEN sub;
                         elevation_band := name; n_divisions := n_div;
                         hru_reason := why |}))
      (seq 0 n_div).

(** The decision of [generate_hrus] for one sub-basin: the number of
    divisions and the rule that fired. *)
Definition decide_division (small_km2 medium_km2 glacier_density_threshold : float)
    (area_km2 : float) (stats : glacier_stat) : nat * reason :=
  if area_km2 <? small_km2 then (1%nat, Pequena)
  else if area_km2 <? medium_km2 then
    if decide (0 < count stats)%nat then (2%nat, MedianaConGlaciares (count stats))
    else (1%nat, MedianaSinGlaciares)
  else
    if glacier_density_threshold <? density stats then (3%nat, GrandeAltaDensidad)
    else if decide (0 < count stats)%nat then (2%nat, GrandeConGlaciares)
    else (2%nat, GrandeSinGlaciares).

(** The loop of [generate_hrus], from the running [hru_id] on. *)
Fixpoint generate_loop (small_km2 medium_km2 glacier_density_threshold : float)
    (glacier_stats : gmap string glacier_stat) (hru_id : Z)
    (subcuencas : list subcuenca) : option (list hru) :=
  match subcuencas with
  | [] => Some []
  | sub :: rest =>
      let area_km2 := area_m2 sub / 1e6 in
      let stats :=
        default {| count := 0; stat_area_km2 := 0; density := 0 |}
                (glacier_stats !! COD_SUBC sub) in
      let '(n_div, why) :=
        decide_division small_km2 medium_km2 glacier_density_threshold area_km2 stats in
      units ← _divide_subcuenca sub n_div hru_id why;
      more ← generate_loop small_km2 medium_km2 glacier_density_threshold
                           glacier_stats (hru_id + Z.of_nat n_div)%Z rest;
      Some (units ++ more)
  end.

(** The body of [generate_hrus]: the loop, then
    [gpd.GeoDataFrame(hrus, crs="EPSG:4326")], which raises on an empty
    list of units (a coordinate system without a geometry column). *)
Definition generate_hrus_body (subcuencas : list subcuenca)
    (small_km2 medium_km2 glacier_density_threshold : float) : option (list hru) :=
  hrus ← generate_loop small_km2 medium_km2 glacier_density_threshold
                       (_calculate_glacier_stats subcuencas) 0 subcuencas;
  match hrus with
  | [] => None
  | _ => Some hrus
  end.

(** The key of a call of [generate_hrus]: the three thresholds, which the
    callers pass by keyword; the two tables have underscore names.  Two
    keys are the same when their numbers are the same floats. *)
Definition hrus_key : Type := float * float * float.

Definition hrus_key_eqb (a b : hrus_key) : bool :=
  PrimFloat.Leibniz.eqb a.1.1 b.1.1 && PrimFloat.Leibniz.eqb a.1.2 b.1.2
  && PrimFloat.Leibniz.eqb a.2 b.2.

(** [generate_hrus], the cached function: the sub-basin table (with what
    the glacier table contributes to its rows) is not part of the key. *)
Definition generate_hrus (now : float) (cache : cache_data hrus_key (list hru))
    (_subcuencas_gdf : list subcuenca)
    (small_km2 medium_km2 glacier_density_threshold : float)
    : option (list hru) * cache_data hrus_key (list hru) :=
  cache_data_call hrus_key_eqb
    (generate_hrus_body _subcuencas_gdf small_km2 medium_km2 glacier_density_threshold)
    now (small_km2, medium_km2, glacier_density_threshold) cache.

(** *** Flood zones ([_identify_flood_zones]) *)

(** [row.get(column, 0)] on a row of the merged table, for a column that
    one stage table brings: the default 0 when the merge was skipped (the
    column does not exist), NaN when the stage had no row for the unit,
    else the value. *)
Definition row_get {A : Type} (column : A → float) (j : joined A) : float :=
  match j with
  | NotMerged => 0
  | Unmatched => nan
  | Matched a => column a
  end.

(** [row.get('elevation_mean', 0)]: the column of the unit table when the
    topography was not merged, the column of the topography table when the
    unit table has none; when both tables have the column, the merge
    renames the two with suffixes and the key is absent. *)
Definition get_elevation_mean (grids_have_column : bool) (row : result_row) : float :=
  if grids_have_column then
    match with_topo row with
    | NotMerged => grid_elevation_mean (base row)
    | _ => 0
    end
  else row_get elevation_mean (with_topo row).

Record flood_zone := {
  flood_grid_id : Z;
  flood_prone : bool;
  flood_description : string;
}.

(** The body of the loop of [_identify_flood_zones] for one row. *)
Definition flood_zone_of (grids_have_column : bool) (row : result_row) : flood_zone :=
  let elev_mean := get_elevation_mean grids_have_column row in
  let slope := row_get slope_mean (with_topo row) in
  let runoff := row_get runoff_m3s (with_runoff row) in
  let risk_score := row_get risk_score (with_risk row) in
  let '(is_flood_prone, flood_description) :=
    if (elev_mean <? 500) && (slope <? 5) && (100 <? runoff) then
      (true, "Alto riesgo - Zona baja con alta escorrentía")
    else if (elev_mean <? 800) && (200 <? runoff) then
      (true, "Riesgo medio - Elevación moderada con escorrentía significativa")
    else if 0.5 <? risk_score then
      (true, "Atención - Alto índice de riesgo general")
    else (false, "Bajo riesgo") in
  {| flood_grid_id := grid_id (base row); flood_prone := is_flood_prone;
     flood_description := flood_description |}.

(** [_identify_flood_zones]: nothing happens when [results_gdf] is [None]
    or empty; otherwise the flood table (one row per row of the results)
    is left-joined onto the results on [grid_id].  A row of the outcome is
    a row of the results with its flood columns. *)
Definition _identify_flood_zones (grids_have_column : bool)
    (results_gdf : option (list result_row))
    : option (list (result_row * joined flood_zone)) :=
  match results_gdf with
  | None => None
  | Some [] => Some []
  | Some results =>
      let flood_zones := map (flood_zone_of grids_have_column) results in
      Some (flat_map
              (λ row,
                 match filter (λ z, flood_grid_id z = grid_id (base row)) flood_zones with
                 | [] => [(row, Unmatched)]
                 | matches => map (λ z, (row, Matched z)) matches
                 end)
              results)
  end.

(** ** The alert bulletin ([ai_alerts.py]) *)

Definition _get_risk_level_name (score : float) : string :=
  if 0.8 <=? score then "EXTREMO"
  else if 0.6 <=? score then "ALTO"
  else if 0.4 <=? score then "MEDIO"
  else if 0.2 <=? score then "BAJO"
  else "MUY BAJO".

(** The statistics of [generate_ai_report], from the [risk_score] column of
    the frame [data] that it reads back from its JSON argument: the number
    of rows, and the numbers of rows that the three boolean masks select. *)
Definition total_hrus (risk_scores : list float) : nat := length risk_scores.

Definition riesgo_alto (risk_scores : list float) : nat :=
  length (filter (λ s, (0.6 <=? s) = true) risk_scores).

Definition riesgo_medio (risk_scores : list float) : nat :=
  length (filter (λ s, (0.4 <=? s) && (s <? 0.6) = true) risk_scores).

Definition riesgo_bajo (risk_scores : list float) : nat :=
  length (filter (λ s, (s <? 0.4) = true) risk_scores).

(** *** Glaciers of the units ([assign_glaciers_to_hrus])

    What the function computes from the geometries of a unit and of a
    glacier: the projected area of the unit (after [to_crs(epsg=32719)]),
    whether the glacier intersects the unit, whether the intersection is
    empty, the area of the intersection in the coordinates of the layer,
    and its projected area. *)
Class Geometry (U G : Type) := {
  projected_area_m2 : U → float;
  intersects : G → U → bool;
  intersection_is_empty : G → U → bool;
  intersection_area : G → U → float;
  intersection_projected_area_m2 : G → U → float;
}.

(** A row of the returned table: the unit and the four columns that the
    function writes. *)
Module Assigned.
Record row (U : Type) := {
  hru_row : U;
  glacier_count : nat;
  glacier_area_km2 : float;
  glacier_pct : float;
  area_km2 : float;
}.
Arguments hru_row {U} _.
Arguments glacier_count {U} _.
Arguments glacier_area_km2 {U} _.
Arguments glacier_pct {U} _.
Arguments area_km2 {U} _.
End Assigned.

Section Assign.
Context {U G : Type} `{Geometry U G}.

(** The inner loop: the projected areas (km2) of the intersections that
    are kept. *)
Definition glaciers_within (glaciers : list G) (hru : U) : list float :=
  omap (λ glacier,
          if intersects glacier hru then
            if negb (intersection_is_empty glacier hru)
               && negb (intersection_area glacier hru =? 0) then
              let area_inter_km2 := intersection_projected_area_m2 glacier hru / 1e6 in
              if 0 <? area_inter_km2 then Some area_inter_km2 else None
            else None
          else None)
       glaciers.

(** Python's [sum] of a list of floats. *)
Definition py_sum (l : list float) : float := foldl (λ acc x, acc + x) 0 l.

Definition assign_row (glaciers : list G) (hru : U) : Assigned.row U :=
  let area_km2 := projected_area_m2 hru / 1e6 in
  let glaciers_within := glaciers_within glaciers hru in
  if decide (0 < length glaciers_within)%nat then
    let g_area := py_sum glaciers_within in
    {| Assigned.hru_row := hru;
       Assigned.glacier_count := length glaciers_within;
       Assigned.glacier_area_km2 := g_area;
       Assigned.glacier_pct :=
         if 0 <? area_km2 then py_min (g_area / area_km2 * 100) 100 else 0.0;
       Assigned.area_km2 := area_km2 |}
  else
    {| Assigned.hru_row := hru; Assigned.glacier_count := 0;
       Assigned.glacier_area_km2 := 0.0; Assigned.glacier_pct := 0.0;
       Assigned.area_km2 := area_km2 |}.

(** The body of [assign_glaciers_to_hrus] on a table with the default
    index (the one that [generate_hrus] builds): one row per unit, in
    order. *)
Definition assign_glaciers_to_hrus_body (hrus : list U) (glaciers : list G)
    : list (Assigned.row U) :=
  map (assign_row glaciers) hrus.

(** [assign_glaciers_to_hrus], the cached function: both arguments have
    underscore names, so every call has the same, empty key. *)
Definition assign_glaciers_to_hrus (now : float)
    (cache : cache_data () (list (Assigned.row U)))
    (_hrus_gdf : list U) (_glaciers_gdf : list G)
    : option (list (Assigned.row U)) * cache_data () (list (Assigned.row U)) :=
  cache_data_call (λ _ _, true)
    (Some (assign_glaciers_to_hrus_body _hrus_gdf _glaciers_gdf))
    now () cache.

End Assign.

(** *** Elevation requests ([_fetch_elevation_batch_optimized])

    [topo_api batch] is the answer of the elevation service to the request
    for a batch of points (latitude, longitude): its status code and its
    decoded JSON body ([None] when the decoding raises); it is [None] when
    the request itself raises. *)
Class ElevationService := {
  topo_api : list (float * float) → option (Z * option pyval);
}.

(** Iteration over a Python value ([for r in v]); a value that is not
    iterable raises. *)
Definition py_iter (v : pyval) : option (list pyval) :=
  match v with
  | PList l => Some l
  | PDict items => Some (map (λ kv, PStr kv.1) items)
  | PStr s => Some (map (λ c, PStr (String c EmptyString)) (String.list_ascii_of_string s))
  | _ => None
  end.

(** [status == "OK"] *)
Definition is_ok (status : pyval) : bool :=
  match status with
  | PStr s => String.eqb s "OK"
  | _ => false
  end.

Section Elevation.
Context `{ElevationService}.

(** The [try] block for one batch: the elevations that it appends, or
    [None] when a statement of the block raises. *)
Definition batch_try (batch : list (float * float)) : option (list pyval) :=
  response ← topo_api batch;
  if decide (response.1 = 200%Z) then
    data ← response.2;
    status ← py_get data "status" PNone;
    if is_ok status then
      results ← py_get data "results" (PList []);
      items ← py_iter results;
      batch_elevs ← mapM (λ r, py_get r "elevation" (PInt 0)) items;
      Some (map (λ e, match e with PNone => PInt 0 | _ => e end) batch_elevs)
    else Some (map (λ _, PInt 0) batch)
  else Some (map (λ _, PInt 0) batch).

(** One iteration of the loop: the [except] clause appends one zero per
    point of the batch. *)
Definition batch_elevations (batch : list (float * float)) : list pyval :=
  match batch_try batch with
  | Some elevs => elevs
  | None => map (λ _, PInt 0) batch
  end.

Definition _fetch_elevation_batch_optimized (points : list (float * float)) : list pyval :=
  concat (map (λ i, batch_elevations (slice_from i 100 points))
              (range_step (length points) 100)).

End Elevation.

(** ** The formulas of the specification

    The definitions of this section follow the words of the specification,
    not the code; the properties below compare the code with them. *)

(** Two floats are the same number ([==] of Python). *)
Definition same_number (x y : float) : Prop := (x =? y) = true.

(** [x] is within [eps] of [y]. *)
Definition within (eps x y : float) : Prop := (abs (x - y) <? eps) = true.

(** The records of a unit in the stage tables: the first row with its
    [grid_id]. *)
Definition climate_record_of (self : calculator) (gid : Z) : option climate_row :=
  rows ← climate_data self; head (filter (λ c, climate_grid_id c = gid) rows).

Definition topo_record_of (self : calculator) (gid : Z) : option topo_row :=
  rows ← topo_data self; head (filter (λ t, topo_grid_id t = gid) rows).

(** The mean elevation of a unit: its [elevation_mean] column, else the one
    of its topography record, else 0 (not known). *)
Definition spec_hru_elevation (self : calculator) (gid : Z) : option float :=
  if has_elevation_mean (grids_gdf self) then
    grid_elevation_mean <$> head (filter (λ g, grid_id g = gid) (grid_rows (grids_gdf self)))
  else Some (from_option elevation_mean 0 (topo_record_of self gid)).

(** The model elevation of a climate record: the elevation that the
    weather model reported for the unit; the field defaults to zero in a
    table that has no elevation at all, and a field that holds no value is
    an elevation that is not known. *)
Definition spec_model_elevation (climate : climate_row) : option float :=
  match elevation climate with
  | NumCell reported => Some reported
  | NoneCell => None
  | NoColumn => Some 0
  end.


(** Lapse-rate adjustment: applied when the model elevation is known and
    the HRU elevation is positive. *)
Definition spec_adjusted_temp (forecast_temp : float) (model_elev : option float)
    (hru_elev : float) : float :=
  match model_elev with
  | Some forecast_model_elevation =>
      if 0 <? hru_elev then
        forecast_temp + (hru_elev - forecast_model_elevation) * (-0.0065)
      else forecast_temp
  | None => forecast_temp
  end.

(** The smaller and the larger of two numbers, as the formulas of the
    specification mean them: the order [<=] decides, and the first argument
    is the answer when the two do not compare (NaN). *)
Definition spec_min (a x : float) : float :=
  if a <=? x then a else if x <=? a then x else a.

Definition spec_max (a x : float) : float :=
  if x <=? a then a else if a <=? x then x else a.

(** Degree-day melt: factor 4.0 with recent snow, 8.0 otherwise. *)
Definition spec_melt_rate (adjusted_temp snow_24h : float) : float :=
  if 0 <? snow_24h then 4.0 * spec_max 0 (adjusted_temp - 0.0)
  else 8.0 * spec_max 0 (adjusted_temp - 0.0).

(** The melt rate and the runoff of a unit in the stage tables (0 when the
    table has no row for the unit). *)
Definition unit_melt_rate (melt_df : list melt_row) (gid : Z) : float :=
  from_option melt_rate_mm_day 0 (head (filter (λ m, melt_grid_id m = gid) melt_df)).

Definition unit_runoff (runoff_df : list runoff_row) (gid : Z) : float :=
  from_option runoff_m3s 0 (head (filter (λ r, runoff_grid_id r = gid) runoff_df)).

(** Current-day risk score with its data-dependent weights. *)
Definition spec_risk_score (melt runoff precip_72h : float) : float :=
  if melt <? 0.1 then
    0.05 * spec_min 1 (melt / 50) + 0.55 * spec_min 1 (runoff / 1000)
    + 0.40 * spec_min 1 (precip_72h / 300)
  else
    0.40 * spec_min 1 (melt / 50) + 0.40 * spec_min 1 (runoff / 1000)
    + 0.20 * spec_min 1 (precip_72h / 300).

(** The runoff coefficient [c] is the one that the slope table gives for
    the mean slope of the unit ([None]: no topography record). *)
Definition coefficient_rule (slope : option float) (c : float) : Prop :=
  match slope with
  | None => c = 0.50
  | Some s =>
      ((s <? 5) = true → c = 0.20) ∧
      (in_range 5 10 s = true → c = 0.35) ∧
      (in_range 10 20 s = true → c = 0.50) ∧
      ((20 <=? s) = true → c = 0.70)
  end.

(** Precipitation intensity in mm/h. *)
Definition spec_intensity (precip_24h : float) : float :=
  if 0 <? precip_24h then precip_24h / 24 else 0.

(** The area of a unit in km2, and the area that the runoff uses. *)
Definition unit_area_km2 (self : calculator) (g : grid) : float :=
  if has_area_km2 (grids_gdf self) then area_km2 g else geometry_area_m2 g / 1e6.

Definition spec_area (area : float) : float :=
  if area <=? 0 then 1.0 else area.

(** Three-day projected score. *)
Definition spec_risk_score_3d (melt_3d runoff precip_3d : float) : float :=
  0.35 * spec_min 1 (melt_3d / 150) + 0.35 * spec_min 1 (runoff / 1200)
  + 0.30 * spec_min 1 (precip_3d / 300).

(** The division table of the HRU generator. *)
Definition spec_n_div (area_km2 : float) (glaciers : nat) (density : float) : nat :=
  if area_km2 <? 50 then 1
  else if area_km2 <? 200 then (if decide (0 < glaciers)%nat then 2 else 1)
  else if 5 <? density then 3 else 2.

(** The glacier density of a sub-basin in percent. *)
Definition spec_density (sub : subcuenca) : float :=
  density (glacier_stat_of sub).

(** The units of a sub-basin among the generated ones. *)
Definition units_of (cod : string) (hrus : list hru) : list hru :=
  filter (λ h, subcuenca_cod h = cod) hrus.

(** ** Concrete states for the worked examples *)

Definition example_grid (gid : Z) (area : float) : grid :=
  {| grid_id := gid; centroid_x := -72.0; centroid_y := -45.5;
     bounds := (-72.5, -46.0, -71.5, -45.0); area_km2 := area;
     geometry_area_m2 := area * 1e6; grid_elevation_mean := 0 |}.

Definition example_grids (gs : list grid) : grids_frame :=
  {| grid_rows := gs; has_area_km2 := true; has_elevation_mean := false |}.

Definition example_climate (gid : Z) (temp p24 p72 snow : float)
    (elev : elevation_cell) : climate_row :=
  {| climate_grid_id := gid; temp_current := temp; precip_24h := p24;
     precip_72h := p72; snow_24h := snow; elevation := elev |}.

Definition example_topo (gid : Z) (elev slope : float) : topo_row :=
  {| topo_grid_id := gid; elevation_mean := elev; elevation_min := elev;
     elevation_max := elev; slope_mean := slope; aspect := "-"; aspect_deg := 0 |}.

(** A glacier table as [load_base_data] leaves it: fragments with their
    unit and their area. *)
Definition example_glaciers : glaciers_frame :=
  {| has_grid_id := true; has_area_in_grid := true; emergency_join_succeeds := true |}.

(** One unit (number 7) with a climate record and, optionally, a topography
    record. *)
Definition example_state (area : float) (climate : climate_row)
    (topo : option topo_row) : calculator :=
  {| glaciers_gdf := Some example_glaciers;
     grids_gdf := example_grids [example_grid 7 area];
     climate_data := Some [climate];
     topo_data := option_map (λ t, [t]) topo |}.

Definition example_melt_df (rate : float) : option (list melt_row) :=
  Some [ {| melt_grid_id := 7; melt_rate_mm_day := rate; temp_for_melt := rate / 8;
            snow_recent := false |} ].

Definition example_runoff_df (runoff : float) : list runoff_row :=
  [ {| runoff_grid_id := 7; runoff_m3s := runoff; runoff_coeff := 0.5;
       slope_percent := 0; precip_intensity_mm_h := 0 |} ].

(** The bands of a division in [n] whose intersection with the geometry of
    the sub-basin is not empty. *)
Definition nonempty_bands (sub : subcuenca) (n : nat) : list nat :=
  filter (λ i, band_is_empty sub n i = false) (seq 0 n).

(** The number of divisions that the table gives for a sub-basin. *)
Definition spec_divisions (sub : subcuenca) : nat :=
  spec_n_div (area_m2 sub / 1e6) (glacier_count sub) (spec_density sub).

(** ** External interfaces for the worked examples *)

Definition number_of (v : pyval) : option float :=
  match v with
  | PNum x => Some x
  | PInt n => Some (Z2float n)
  | _ => None
  end.

(** The reductions of numpy on a short list of numbers (fewer than eight
    elements are added from left to right). *)
Definition example_sum (v : pyval) : option pyval :=
  match v with
  | PList l => xs ← mapM number_of l; Some (PNum (foldl PrimFloat.add 0 xs))
  | _ => None
  end.

Definition example_mean (v : pyval) : option pyval :=
  match v with
  | PList l =>
      xs ← mapM number_of l;
      Some (PNum (foldl PrimFloat.add 0 xs / Z2float (Z.of_nat (length xs))))
  | _ => None
  end.

Definition example_max (v : pyval) : option pyval :=
  match v with
  | PList l =>
      xs ← mapM number_of l;
      match xs with
      | [] => None
      | x :: xs => Some (PNum (foldl (λ a b, if a <? b then b else a) x xs))
      end
  | _ => None
  end.

(** A weather service whose every request fails, and an elevation service
    that answers 0 for every point. *)
Definition offline_services : External :=
  {| np_mean := example_mean; np_max := example_max; np_sum := example_sum;
     forecast_api := λ _ _, None;
     elevation_api := λ points, map (λ _, 0) points |}.

(** A well-formed payload of the weather service for one location. *)
Definition example_payload (temp precip snow elev : float) : pyval :=
  PDict
    [ ("elevation", PNum elev);
      ("hourly", PDict [ ("temperature_2m", PList [PNum temp; PNum temp]);
                         ("precipitation", PList [PNum 0; PNum 0]);
                         ("shortwave_radiation", PList [PNum 120; PNum 80]);
                         ("wind_speed_10m", PList [PNum 11; PNum 12]) ]);
      ("daily", PDict [ ("temperature_2m_max", PList [PNum temp; PNum temp]);
                        ("precipitation_sum", PList [PNum precip; PNum 0; PNum 0]);
                        ("rain_sum", PList [PNum precip; PNum 0; PNum 0]);
                        ("snowfall_sum", PList [PNum snow; PNum 0; PNum 0]) ]) ].

(** A weather service that answers a request for several locations with
    the payload of the first one only. *)
Definition short_answer_services : External :=
  {| np_mean := example_mean; np_max := example_max; np_sum := example_sum;
     forecast_api := λ _ _, Some (PList [example_payload 6 48 0 500]);
     elevation_api := λ points, map (λ _, 0) points |}.

(** A sub-basin of 300 km2 in two separate parts (a mainland part and an
    island to the north, as the clip to the region boundary leaves them),
    with two glaciers of 30 km2 in total: of its three horizontal bands the
    middle one meets no part of the geometry. *)
Definition island_subcuenca : subcuenca :=
  {| COD_SUBC := "1130"; NOM_SUBC := "Costeras"; COD_CUEN := "113";
     area_m2 := 300e6; glacier_count := 2; glacier_area_m2 := 30e6;
     band_is_empty := λ n i, bool_decide (n = 3%nat ∧ i = 1%nat) |}.

(** A sub-basin in one piece: no band is empty. *)
Definition example_subcuenca (cod : string) (area_km2 : float) (glaciers : nat)
    (glaciers_km2 : float) : subcuenca :=
  {| COD_SUBC := cod; NOM_SUBC := "Subcuenca"; COD_CUEN := "113";
     area_m2 := area_km2 * 1e6; glacier_count := glaciers;
     glacier_area_m2 := glaciers_km2 * 1e6;
     band_is_empty := λ _ _, false |}.

(** A weather service that answers every request with one payload per
    requested location. *)
Definition full_answer_services : External :=
  {| np_mean := example_mean; np_max := example_max; np_sum := example_sum;
     forecast_api := λ lats _, Some (PList (map (λ _, example_payload 6 48 0 500) lats));
     elevation_api := λ points, map (λ _, 0) points |}.

(** A weather service that answers every request with one payload more
    than the requested locations. *)
Definition long_answer_services : External :=
  {| np_mean := example_mean; np_max := example_max; np_sum := example_sum;
     forecast_api := λ lats _,
       Some (PList (example_payload 6 48 0 500
                    :: map (λ _, example_payload 6 48 0 500) lats));
     elevation_api := λ points, map (λ _, 0) points |}.

(** A weather service that answers every request with an empty list. *)
Definition empty_answer_services : External :=
  {| np_mean := example_mean; np_max := example_max; np_sum := example_sum;
     forecast_api := λ _ _, Some (PList []);
     elevation_api := λ points, map (λ _, 0) points |}.

(** Units given by their projected area, glaciers by the projected area of
    their intersection with any unit. *)
Definition example_geometry : Geometry float float :=
  {| projected_area_m2 := λ u, u; intersects := λ _ _, true;
     intersection_is_empty := λ _ _, false; intersection_area := λ g _, g;
     intersection_projected_area_m2 := λ g _, g |}.

(** An elevation service whose requests all raise, and one that answers
    every batch with a [null] elevation per point. *)
Definition offline_elevations : ElevationService :=
  {| topo_api := λ _, None |}.

Definition null_elevations : ElevationService :=
  {| topo_api := λ batch,
       Some (200%Z, Some (PDict [ ("status", PStr "OK");
                                  ("results",
                                   PList (map (λ _, PDict [("elevation", PNone)]) batch)) ])) |}.

(** ** Predicates for the properties of the HRU generator *)

(** The band names that a division in [n] writes. *)
Definition bands_of (n : nat) : list string :=
  if decide (n = 1%nat) then ["Única"] else default [] (band_names !! n).

(** The number of units that a division in [n] yields: one for [n = 1],
    else one per non-empty band. *)
Definition expected_units (sub : subcuenca) (n : nat) : nat :=
  if decide (n = 1%nat) then 1%nat else length (nonempty_bands sub n).

(** A unit of the division of [sub] in [n] that starts at [start]. *)
Definition unit_of_division (sub : subcuenca) (n : nat) (start : Z) (h : hru) : Prop :=
  subcuenca_cod h = COD_SUBC sub ∧ subcuenca_nom h = NOM_SUBC sub ∧
  cuenca_cod h = COD_CUEN sub ∧ n_divisions h = n ∧
  (start ≤ hru_id h < start + Z.of_nat n)%Z ∧
  elevation_band h ∈ bands_of n.

(** A unit carries the attributes of one of the sub-basins, a number of
    divisions between 1 and 3 and a band name of that division. *)
Definition well_formed_unit (subcuencas : list subcuenca) (h : hru) : Prop :=
  (∃ sub, sub ∈ subcuencas ∧ subcuenca_cod h = COD_SUBC sub ∧
          subcuenca_nom h = NOM_SUBC sub ∧ cuenca_cod h = COD_CUEN sub) ∧
  n_divisions h ∈ [1%nat; 2%nat; 3%nat] ∧
  elevation_band h ∈ bands_of (n_divisions h).

(** The number of divisions that [generate_hrus] decides for a sub-basin
    whose statistics entry is its own. *)
Definition divisions_of (small_km2 medium_km2 glacier_density_threshold : float)
    (sub : subcuenca) : nat :=
  (decide_division small_km2 medium_km2 glacier_density_threshold
                   (area_m2 sub / 1e6) (glacier_stat_of sub)).1.

(** ** Predicates for the properties of the classifier *)

(** The order of the risk classes. *)
Definition class_rank (risk_class : string) : nat :=
  if decide (risk_class = "bajo") then 0%nat
  else if decide (risk_class = "medio") then 1%nat
  else if decide (risk_class = "alto") then 2%nat
  else 3%nat.
(** * Properties *)

(** ** Ordered comparisons of binary64 numbers

    The comparisons [<?] and [<=?] are specified by [SFcompare] on the
    decoded number.  The few order facts the classifier proofs need are
    derived here once. *)

Module FloatOrder.

Ltac cmp_cases :=
  repeat match goal with
  | |- context [Z.compare ?a ?b] =>
      destruct (Z.compare_spec a b); subst
  | |- context [Pos.compare_cont Eq ?a ?b] =>
      change (Pos.compare_cont Eq a b) with (Pos.compare a b);
      destruct (Pos.compare_spec a b); subst
  end.

Ltac sf_cases :=
  unfold SFleb, SFltb, SFcompare;
  repeat match goal with
  | s : bool |- _ => destruct s
  end;
  cmp_cases; simpl; intros; try discriminate; try reflexivity; try lia.

Lemma SFleb_ltb_trans (a b c : spec_float) :
  SFleb a b = true -> SFltb b c = true -> SFltb a c = true.
Proof. destruct a, b, c; sf_cases. Qed.

Lemma SFltb_leb_trans (a b c : spec_float) :
  SFltb a b = true -> SFleb b c = true -> SFltb a c = true.
Proof. destruct a, b, c; sf_cases. Qed.

Lemma SFleb_trans (a b c : spec_float) :
  SFleb a b = true -> SFleb b c = true -> SFleb a c = true.
Proof. destruct a, b, c; sf_cases. Qed.

Lemma SFleb_total (a x c : spec_float) :
  SFleb a x = true -> SFleb c c = true -> SFltb x c = false -> SFleb c x = true.
Proof. destruct a, x, c; sf_cases. Qed.

Lemma SFltb_irrefl (a : spec_float) : SFltb a a = false.
Proof.
  destruct a; unfold SFltb, SFcompare; try reflexivity.
  - destruct s; reflexivity.
  - destruct s; rewrite Z.compare_refl;
      change (Pos.compare_cont Eq m m) with (Pos.compare m m);
      rewrite Pos.compare_refl; reflexivity.
Qed.

(** [a <= b] and [b < c] give [a < c]. *)
Lemma leb_ltb_trans (a b c : float) :
  (a <=? b) = true -> (b <? c) = true -> (a <? c) = true.
Proof. rewrite leb_spec, !ltb_spec. apply SFleb_ltb_trans. Qed.

(** [a < b] and [b <= c] give [a < c]. *)
Lemma ltb_leb_trans (a b c : float) :
  (a <? b) = true -> (b <=? c) = true -> (a <? c) = true.
Proof. rewrite leb_spec, !ltb_spec. apply SFltb_leb_trans. Qed.

Lemma leb_trans (a b c : float) :
  (a <=? b) = true -> (b <=? c) = true -> (a <=? c) = true.
Proof. rewrite !leb_spec. apply SFleb_trans. Qed.

Lemma ltb_irrefl (a : float) : (a <? a) = false.
Proof. rewrite ltb_spec. apply SFltb_irrefl. Qed.

(** A number that is comparable to something (so it is not NaN) and is not
    below the number [c] is at least [c]. *)
Lemma not_ltb_leb (a x c : float) :
  (a <=? x) = true -> (c <=? c) = true -> (x <? c) = false -> (c <=? x) = true.
Proof. rewrite !leb_spec, ltb_spec. apply SFleb_total. Qed.

(** [x < c1] excludes [c2 <= x] as soon as [c1 <= c2]. *)
Lemma ltb_excludes_leb (x c1 c2 : float) :
  (x <? c1) = true -> (c1 <=? c2) = true -> (c2 <=? x) = false.
Proof.
  intros H1 H2. destruct (c2 <=? x) eqn:E; [|reflexivity].
  pose proof (ltb_leb_trans _ _ _ H1 H2) as H3.
  pose proof (leb_ltb_trans _ _ _ E H3) as H4.
  rewrite ltb_irrefl in H4. discriminate.
Qed.

(** [c1 <= x] excludes [x < c2] as soon as [c2 <= c1]. *)
Lemma leb_excludes_ltb (x c1 c2 : float) :
  (c1 <=? x) = true -> (c2 <=? c1) = true -> (x <? c2) = false.
Proof.
  intros H1 H2. destruct (x <? c2) eqn:E; [|reflexivity].
  pose proof (ltb_excludes_leb _ _ _ E H2) as H3. congruence.
Qed.

Lemma SFltb_not_leb (x a : spec_float) : SFltb x a = true -> SFleb a x = false.
Proof. destruct x, a; sf_cases. Qed.

Lemma SFltb_leb (x a : spec_float) : SFltb x a = true -> SFleb x a = true.
Proof. destruct x, a; sf_cases. Qed.

Lemma SFleb_antisym_ltb (x a : spec_float) :
  SFltb x a = false -> SFleb a x = false -> SFleb x a = false.
Proof. destruct x, a; sf_cases. Qed.

(** Python's [min] and [max] on two numbers are the smaller and the larger
    of the two. *)
Lemma py_min_spec (a x : float) : py_min a x = spec_min a x.
Proof.
  unfold py_min, spec_min. rewrite !leb_spec, ltb_spec.
  destruct (SFltb (Prim2SF x) (Prim2SF a)) eqn:E.
  - by rewrite (SFltb_not_leb _ _ E), (SFltb_leb _ _ E).
  - destruct (SFleb (Prim2SF a) (Prim2SF x)) eqn:E'; [reflexivity|].
    by rewrite (SFleb_antisym_ltb _ _ E E').
Qed.

Lemma py_max_spec (a x : float) : py_max a x = spec_max a x.
Proof.
  unfold py_max, spec_max. rewrite !leb_spec, ltb_spec.
  destruct (SFltb (Prim2SF a) (Prim2SF x)) eqn:E.
  - by rewrite (SFltb_not_leb _ _ E), (SFltb_leb _ _ E).
  - destruct (SFleb (Prim2SF x) (Prim2SF a)) eqn:E'; [reflexivity|].
    by rewrite (SFleb_antisym_ltb _ _ E E').
Qed.

End FloatOrder.

Section Classifier.
Import FloatOrder.

Lemma classify_bajo (score : float) :
  in_range 0.0 0.25 score = true -> _classify_risk score = "bajo".
Proof.
  unfold in_range, _classify_risk; simpl. intros ->. reflexivity.
Qed.

Lemma classify_medio (score : float) :
  in_range 0.25 0.50 score = true -> _classify_risk score = "medio".
Proof.
  unfold in_range, _classify_risk; simpl.
  intros [H1 H2]%andb_prop.
  rewrite (leb_excludes_ltb score 0.25 0.25 H1 eq_refl), andb_false_r.
  rewrite H1, H2. reflexivity.
Qed.

Lemma classify_alto (score : float) :
  in_range 0.50 0.75 score = true -> _classify_risk score = "alto".
Proof.
  unfold in_range, _classify_risk; simpl.
  intros [H1 H2]%andb_prop.
  rewrite (leb_excludes_ltb score 0.50 0.25 H1 eq_refl), andb_false_r.
  rewrite (leb_excludes_ltb score 0.50 0.50 H1 eq_refl), andb_false_r.
  rewrite H1, H2. reflexivity.
Qed.

Lemma classify_fallthrough (score : float) :
  matches_no_range score = true -> _classify_risk score = "critico".
Proof.
  unfold matches_no_range, _classify_risk, in_range; simpl.
  intros H. repeat (apply andb_prop in H; destruct H as [?%negb_true_iff H]).
  repeat match goal with E : _ = false |- _ => rewrite E; clear E end.
  reflexivity.
Qed.

(** Every class the classifier returns is 'critico' unless one of the first
    three rows matched. *)
Lemma classify_cases (score : float) :
  _classify_risk score =
    if in_range 0.0 0.25 score then "bajo"
    else if in_range 0.25 0.50 score then "medio"
    else if in_range 0.50 0.75 score then "alto"
    else "critico".
Proof.
  unfold _classify_risk, in_range; simpl.
  repeat match goal with |- context [if ?b then _ else _] => destruct b end;
    reflexivity.
Qed.

Lemma classify_high (score : float) :
  (0.75 <=? score) = true -> _classify_risk score = "critico".
Proof.
  intros H. rewrite classify_cases. unfold in_range.
  rewrite (leb_excludes_ltb score 0.75 0.25 H eq_refl), andb_false_r.
  rewrite (leb_excludes_ltb score 0.75 0.50 H eq_refl), andb_false_r.
  rewrite (leb_excludes_ltb score 0.75 0.75 H eq_refl), andb_false_r.
  reflexivity.
Qed.

Lemma classify_below_zero (score : float) :
  (score <? 0.0) = true -> _classify_risk score = "critico".
Proof.
  intros H. rewrite classify_cases. unfold in_range.
  rewrite (ltb_excludes_leb score 0.0 0.0 H eq_refl).
  rewrite (ltb_excludes_leb score 0.0 0.25 H eq_refl).
  rewrite (ltb_excludes_leb score 0.0 0.50 H eq_refl).
  reflexivity.
Qed.


Lemma classify_top (score : float) :
  (1.0 <=? score) = true -> _classify_risk score = "critico".
Proof.
  intros H. apply classify_high. exact (leb_trans 0.75 1.0 score eq_refl H).
Qed.

Lemma classify_critico_range (score : float) :
  in_range 0.75 1.0 score = true -> _classify_risk score = "critico".
Proof. unfold in_range. intros [H1 _]%andb_prop. by apply classify_high. Qed.

Lemma below_zero_matches_no_range (score : float) :
  (score <? 0.0) = true -> matches_no_range score = true.
Proof.
  intros H. unfold matches_no_range, in_range; simpl.
  rewrite (ltb_excludes_leb score 0.0 0.0 H eq_refl).
  rewrite (ltb_excludes_leb score 0.0 0.25 H eq_refl).
  rewrite (ltb_excludes_leb score 0.0 0.50 H eq_refl).
  rewrite (ltb_excludes_leb score 0.0 0.75 H eq_refl).
  reflexivity.
Qed.

(** A score in [0, 0.75) falls in one of the first three rows. *)
Lemma classify_inside (score : float) :
  in_range 0.0 0.75 score = true ->
  _classify_risk score = "bajo" ∨ _classify_risk score = "medio"
  ∨ _classify_risk score = "alto".
Proof.
  unfold in_range. intros [H0 H75]%andb_prop.
  destruct (score <? 0.25) eqn:E25.
  { left. apply classify_bajo. unfold in_range. by rewrite H0, E25. }
  pose proof (not_ltb_leb 0.0 score 0.25 H0 eq_refl E25) as H25.
  destruct (score <? 0.50) eqn:E50.
  { right; left. apply classify_medio. unfold in_range. by rewrite H25, E50. }
  pose proof (not_ltb_leb 0.0 score 0.50 H0 eq_refl E50) as H50.
  right; right. apply classify_alto. unfold in_range. by rewrite H50, H75.
Qed.

(** A score outside [0, 0.75) matches none of the first three rows. *)
Lemma classify_outside (score : float) :
  in_range 0.0 0.75 score = false -> _classify_risk score = "critico".
Proof.
  intros Hout. rewrite classify_cases.
  assert (Hsub : ∀ lo hi, (0.0 <=? lo) = true → (hi <=? 0.75) = true →
                          in_range lo hi score = false).
  { intros lo hi Hlo Hhi. destruct (in_range lo hi score) eqn:E; [|reflexivity].
    unfold in_range in *. apply andb_prop in E as [E1 E2].
    rewrite (leb_trans 0.0 lo score Hlo E1) in Hout.
    rewrite (ltb_leb_trans score hi 0.75 E2 Hhi) in Hout. discriminate. }
  rewrite (Hsub 0.0 0.25 eq_refl eq_refl), (Hsub 0.25 0.50 eq_refl eq_refl),
    (Hsub 0.50 0.75 eq_refl eq_refl).
  reflexivity.
Qed.

Lemma classify_critico_iff (score : float) :
  _classify_risk score = "critico" ↔ in_range 0.0 0.75 score = false.
Proof.
  split.
  - intros Hc. destruct (in_range 0.0 0.75 score) eqn:E; [|reflexivity].
    destruct (classify_inside score E) as [H|[H|H]]; rewrite H in Hc; discriminate.
  - apply classify_outside.
Qed.

(** C1.  The classifier reads the table in the order bajo [0, 0.25),
    medio [0.25, 0.50), alto [0.50, 0.75), critico [0.75, 1.0); it maps
    every score of a range to the class of that range, and returns critico
    for every score >= 1.0 and for every score that matches no range, NaN
    among them; the nine test scores get the nine expected classes. *)
Theorem classify_risk_table :
  map (λ '(level, (min_val, max_val, _, _)), (level, min_val, max_val)) RISK_LEVELS
    = [ ("bajo", 0.0, 0.25); ("medio", 0.25, 0.50); ("alto", 0.50, 0.75);
        ("critico", 0.75, 1.0) ] ∧
  (∀ score, in_range 0.0 0.25 score = true → _classify_risk score = "bajo") ∧
  (∀ score, in_range 0.25 0.50 score = true → _classify_risk score = "medio") ∧
  (∀ score, in_range 0.50 0.75 score = true → _classify_risk score = "alto") ∧
  (∀ score, in_range 0.75 1.0 score = true → _classify_risk score = "critico") ∧
  (∀ score, (1.0 <=? score) = true → _classify_risk score = "critico") ∧
  (∀ score, matches_no_range score = true → _classify_risk score = "critico") ∧
  (matches_no_range nan = true ∧ _classify_risk nan = "critico") ∧
  map _classify_risk [0.0; 0.24999; 0.25; 0.49999; 0.5; 0.74999; 0.75; 0.99999; 1.2]
    = ["bajo"; "bajo"; "medio"; "medio"; "alto"; "alto"; "critico"; "critico"; "critico"].
Proof.
  split; [reflexivity|].
  split; [exact classify_bajo|].
  split; [exact classify_medio|].
  split; [exact classify_alto|].
  split; [exact classify_critico_range|].
  split; [exact classify_top|].
  split; [exact classify_fallthrough|].
  split; [split; reflexivity|].
  reflexivity.
Qed.

Lemma classify_risk_table_witness : _classify_risk 0.3 = "medio".
Proof.
  apply (proj1 (proj2 (proj2 classify_risk_table))). reflexivity.
Defined.

(** C10.  Every score strictly below 0.0 matches none of the ranges of the
    table and is classified critico. *)
Theorem negative_score_is_critico (score : float) :
  (score <? 0.0) = true →
  matches_no_range score = true ∧ _classify_risk score = "critico".
Proof.
  intros H. split; [by apply below_zero_matches_no_range|by apply classify_below_zero].
Qed.

Lemma negative_score_is_critico_witness :
  matches_no_range (-0.3) = true ∧ _classify_risk (-0.3) = "critico".
Proof. apply negative_score_is_critico. reflexivity. Defined.

(** The banner counts the units whose score is outside [0, 0.75). *)
Lemma critical_count_scores (scores : list float) :
  critical_count (map _classify_risk scores)
  = length (filter (λ s, in_range 0.0 0.75 s = false) scores).
Proof.
  unfold critical_count. induction scores as [|s scores IH]; [reflexivity|].
  simpl. rewrite !filter_cons.
  destruct (decide (_classify_risk s = "critico")) as [Hc|Hc],
           (decide (in_range 0.0 0.75 s = false)) as [Hr|Hr]; simpl;
    try (by rewrite IH).
  - exfalso. apply Hr. by apply classify_critico_iff.
  - exfalso. apply Hc. by apply classify_critico_iff.
Qed.

(** C9, as the specification states it: the classifier would never return
    the literal 'critico'.  It does, for the score 0.8. *)
Lemma classifier_emits_critico : ¬ (∀ score : float, _classify_risk score ≠ "critico").
Proof. intros H. apply (H 0.8). reflexivity. Qed.

(** C9, amended.  The classifier returns the literal 'critico' exactly for
    the scores outside [0, 0.75) (at least 0.75, negative, or NaN) and one
    of bajo, medio, alto for the others; so, among the units whose risk
    class was produced by [_classify_risk], the banner comparison against
    'critico' matches exactly those whose score is outside [0, 0.75). *)
Theorem classifier_critico_exactly :
  (∀ score, _classify_risk score = "critico" ↔ in_range 0.0 0.75 score = false) ∧
  (∀ score, in_range 0.0 0.75 score = true →
            _classify_risk score = "bajo" ∨ _classify_risk score = "medio"
            ∨ _classify_risk score = "alto") ∧
  (∀ scores, critical_count (map _classify_risk scores)
             = length (filter (λ s, in_range 0.0 0.75 s = false) scores)).
Proof.
  split; [exact classify_critico_iff|].
  split; [exact classify_inside|exact critical_count_scores].
Qed.

Lemma classifier_critico_exactly_witness :
  _classify_risk 0.8 = "critico" ∧ critical_count (map _classify_risk [0.1; 0.8; 0.9]) = 2%nat.
Proof.
  split.
  - apply (proj1 classifier_critico_exactly 0.8). reflexivity.
  - rewrite (proj2 (proj2 classifier_critico_exactly)). reflexivity.
Defined.

End Classifier.

(** ** Loops *)

Section Loops.
Context {A B : Type}.
Implicit Types (body : A → option (option B)) (l : list A).

Lemma for_append_elem body l out a b :
  for_append body l = Some out → a ∈ l → body a = Some (Some b) → b ∈ out.
Proof.
  revert out. induction l as [|x l IH]; intros out Hrun Hin Hbody.
  - inversion Hin.
  - simpl in Hrun.
    destruct (body x) as [r|] eqn:Hx; simpl in Hrun; [|discriminate].
    destruct (for_append body l) as [rest|] eqn:Hrest; simpl in Hrun; [|discriminate].
    injection Hrun as <-.
    apply elem_of_cons in Hin as [->|Hin].
    + rewrite Hbody in Hx. injection Hx as <-. left.
    + destruct r; [right|]; eapply IH; eauto.
Qed.

Lemma for_append_total body l :
  (∀ a, a ∈ l → is_Some (body a)) → is_Some (for_append body l).
Proof.
  induction l as [|x l IH]; intros Hall; simpl.
  - eauto.
  - destruct (Hall x) as [r ->]; [left|]. simpl.
    destruct IH as [rest ->]; [intros; apply Hall; by right|].
    simpl. eauto.
Qed.

(** The rows that the loop appends, in order: one for each element whose
    body does not [continue]. *)
Lemma for_append_omap body l out :
  for_append body l = Some out → out = omap (λ a, mjoin (body a)) l.
Proof.
  revert out. induction l as [|x l IH]; intros out Hrun; simpl in *.
  - by injection Hrun as <-.
  - destruct (body x) as [r|] eqn:Hx; simpl in Hrun; [|discriminate].
    destruct (for_append body l) as [rest|] eqn:Hrest; simpl in Hrun; [|discriminate].
    injection Hrun as <-. rewrite (IH rest eq_refl).
    destruct r; reflexivity.
Qed.

End Loops.

Lemma select_head {A : Type} (key : A → Z) (rows : list A) (gid : Z) (r : A) :
  head (filter (λ x, key x = gid) rows) = Some r →
  ∃ rest, select key (Some rows) gid = Some (r :: rest).
Proof.
  intros Hhead. destruct rows as [|x rows]; [discriminate|].
  unfold select. destruct (filter _ (x :: rows)) as [|y rest]; [discriminate|].
  injection Hhead as ->. eauto.
Qed.

Lemma select_Some {A : Type} (key : A → Z) (rows sel : list A) (gid : Z) :
  select key (Some rows) gid = Some sel → sel = filter (λ x, key x = gid) rows.
Proof. destruct rows; simpl; [discriminate|]. by intros [= <-]. Qed.

Lemma for_append_body_Some {A B : Type} (body : A → option (option B)) (l : list A)
    (out : list B) (a : A) :
  for_append body l = Some out → a ∈ l → is_Some (body a).
Proof.
  revert out. induction l as [|x l IH]; intros out Hrun Hin; [inversion Hin|].
  simpl in Hrun.
  destruct (body x) as [r|] eqn:Hx; simpl in Hrun; [|discriminate].
  destruct (for_append body l) as [rest|] eqn:Hrest; simpl in Hrun; [|discriminate].
  apply elem_of_cons in Hin as [->|Hin]; [rewrite Hx; eauto|].
  eapply IH; eauto.
Qed.

Lemma climate_record_select (self : calculator) (gid : Z) (climate : climate_row) :
  climate_record_of self gid = Some climate →
  ∃ rest, select climate_grid_id (climate_data self) gid = Some (climate :: rest).
Proof.
  unfold climate_record_of. destruct (climate_data self) as [rows|]; simpl; [|discriminate].
  apply select_head.
Qed.

Lemma select_unit {A : Type} (key : A → Z) (column : A → float) (df : option (list A))
    (sel : list A) (gid : Z) :
  select key df gid = Some sel →
  first_or_zero column sel
  = from_option column 0 (head (filter (λ x, key x = gid) (default [] df))).
Proof.
  destruct df as [rows|]; [|discriminate]. intros ->%select_Some. simpl.
  destruct (filter _ rows); reflexivity.
Qed.

(** Multiplication of binary64 numbers is commutative. *)
Lemma float_mul_comm (x y : float) : x * y = y * x.
Proof.
  rewrite <- (SF2Prim_Prim2SF (x * y)), <- (SF2Prim_Prim2SF (y * x)).
  rewrite !mul_spec. f_equal. unfold SF64mul.
  destruct (Prim2SF x) as [sx|sx| |sx mx ex], (Prim2SF y) as [sy|sy| |sy my ey];
    simpl; try reflexivity; rewrite ?(xorb_comm sx sy); try reflexivity.
  by rewrite (Pos.mul_comm mx my), (Z.add_comm ex ey).
Qed.
(** ** Melt *)

Lemma hru_elevation_spec (self : calculator) (gid : Z) :
  hru_elevation self (filter (λ g, grid_id g = gid) (grid_rows (grids_gdf self))) gid
  = spec_hru_elevation self gid.
Proof.
  unfold hru_elevation, spec_hru_elevation, topo_record_of.
  destruct (has_elevation_mean (grids_gdf self)).
  - destruct (head _); reflexivity.
  - destruct (topo_data self) as [[|t topo]|]; simpl; try reflexivity.
    destruct (filter _ (t :: topo)); reflexivity.
Qed.

Lemma climate_get_elevation_spec (climate : climate_row) :
  climate_get_elevation climate = spec_model_elevation climate.
Proof.
  unfold climate_get_elevation, spec_model_elevation.
  destruct (elevation climate); reflexivity.
Qed.

Lemma melt_of_spec (self : calculator) (glaciers : glaciers_frame)
    (climate : climate_row) (m : melt_row) :
  melt_of self glaciers climate = Some m →
  melt_grid_id m = climate_grid_id climate ∧
  ∃ hru_elev,
    spec_hru_elevation self (climate_grid_id climate) = Some hru_elev ∧
    temp_for_melt m =
      spec_adjusted_temp (temp_current climate) (spec_model_elevation climate) hru_elev ∧
    melt_rate_mm_day m = spec_melt_rate (temp_for_melt m) (snow_24h climate).
Proof.
  unfold melt_of. rewrite hru_elevation_spec, climate_get_elevation_spec.
  match goal with |- context [match ?g with [] => ?a | _ :: _ => ?b end] =>
    destruct (match g with [] => a | _ :: _ => b end) as [[]|] end;
    simpl; [|discriminate].
  destruct (spec_hru_elevation self (climate_grid_id climate)) as [hru_elev|];
    simpl; [|discriminate].
  intros [= <-]. simpl. split; [reflexivity|].
  exists hru_elev. split; [reflexivity|].
  unfold spec_adjusted_temp, spec_melt_rate, lapse_rate, BASE_TEMP_THRESHOLD,
    DEGREE_DAY_FACTOR_ICE, DEGREE_DAY_FACTOR_SNOW.
  rewrite <- !FloatOrder.py_max_spec.
  split; [reflexivity|].
  destruct (0 <? snow_24h climate); reflexivity.
Qed.

Lemma calculate_melt_rows (self : calculator) (melt_df : list melt_row) :
  calculate_melt self = Some (Some melt_df) →
  ∃ rows glaciers, climate_data self = Some rows ∧
    Forall2 (λ climate m, melt_of self glaciers climate = Some m) rows melt_df.
Proof.
  unfold calculate_melt.
  destruct (climate_data self) as [[|c rows]|]; try discriminate.
  destruct (glaciers_failsafe self) as [glaciers|]; [|discriminate].
  cbn [mbind option_bind].
  destruct (mapM (melt_of self glaciers) (c :: rows)) as [ms|] eqn:Hm;
    [|discriminate].
  cbn [mbind option_bind].
  intros [= <-]. exists (c :: rows), glaciers. split; [reflexivity|].
  by apply mapM_Some.
Qed.





(** ** Runoff *)

Section Runoff.
Import FloatOrder.

Lemma coefficient_muy_baja : RUNOFF_COEFFICIENTS !! "muy_baja" = Some 0.20.
Proof. reflexivity. Qed.
Lemma coefficient_baja : RUNOFF_COEFFICIENTS !! "baja" = Some 0.35.
Proof. reflexivity. Qed.
Lemma coefficient_media : RUNOFF_COEFFICIENTS !! "media" = Some 0.50.
Proof. reflexivity. Qed.
Lemma coefficient_alta : RUNOFF_COEFFICIENTS !! "alta" = Some 0.70.
Proof. reflexivity. Qed.

(** The chain of slope tests selects the coefficient of the slope table. *)
Lemma slope_chain_rule (s : float) :
  coefficient_rule (Some s)
    (if s <? 5 then 0.20 else if s <? 10 then 0.35 else if s <? 20 then 0.50 else 0.70).
Proof.
  unfold coefficient_rule, in_range. repeat split.
  - intros ->. reflexivity.
  - intros [H1 H2]%andb_prop.
    rewrite (leb_excludes_ltb s 5 5 H1 eq_refl), H2. reflexivity.
  - intros [H1 H2]%andb_prop.
    rewrite (leb_excludes_ltb s 10 5 H1 eq_refl), (leb_excludes_ltb s 10 10 H1 eq_refl), H2.
    reflexivity.
  - intros H1.
    rewrite (leb_excludes_ltb s 20 5 H1 eq_refl), (leb_excludes_ltb s 20 10 H1 eq_refl),
      (leb_excludes_ltb s 20 20 H1 eq_refl).
    reflexivity.
Qed.

Lemma coefficient_chain (s : float) :
  (if s <? 5 then RUNOFF_COEFFICIENTS !! "muy_baja"
   else if s <? 10 then RUNOFF_COEFFICIENTS !! "baja"
   else if s <? 20 then RUNOFF_COEFFICIENTS !! "media"
   else RUNOFF_COEFFICIENTS !! "alta")
  = Some (if s <? 5 then 0.20 else if s <? 10 then 0.35
          else if s <? 20 then 0.50 else 0.70).
Proof.
  destruct (s <? 5), (s <? 10), (s <? 20); reflexivity.
Qed.

Lemma runoff_of_spec (self : calculator) (g : grid) (climate : climate_row) :
  climate_record_of self (grid_id g) = Some climate →
  ∃ r, runoff_of self g = Some (Some r) ∧
       runoff_grid_id r = grid_id g ∧
       coefficient_rule (slope_mean <$> topo_record_of self (grid_id g)) (runoff_coeff r) ∧
       precip_intensity_mm_h r = spec_intensity (precip_24h climate) ∧
       runoff_m3s r = runoff_coeff r * spec_intensity (precip_24h climate)
                      * spec_area (unit_area_km2 self g) * 0.278.
Proof.
  intros Hc. destruct (climate_record_select _ _ _ Hc) as [rest Hsel].
  unfold runoff_of. rewrite Hsel. simpl.
  unfold topo_record_of.
  destruct (topo_data self) as [[|t topo]|]; simpl.
  - rewrite coefficient_media. simpl. eexists. split; [reflexivity|]. simpl.
    repeat split; reflexivity.
  - destruct (filter _ (t :: topo)) as [|m ms]; simpl.
    + rewrite coefficient_media. simpl. eexists. split; [reflexivity|]. simpl.
      repeat split; reflexivity.
    + rewrite (coefficient_chain (slope_mean m)). simpl.
      eexists. split; [reflexivity|]. simpl.
      split; [reflexivity|]. split; [exact (slope_chain_rule (slope_mean m))|].
      split; reflexivity.
  - rewrite coefficient_media. simpl. eexists. split; [reflexivity|]. simpl.
    repeat split; reflexivity.
Qed.

Lemma runoff_of_total (self : calculator) (g : grid) (c : climate_row)
    (rows : list climate_row) :
  climate_data self = Some (c :: rows) → is_Some (runoff_of self g).
Proof.
  intros Hc.
  destruct (climate_record_of self (grid_id g)) as [climate|] eqn:Hrec.
  - destruct (runoff_of_spec self g climate Hrec) as [r [-> _]]. eauto.
  - unfold runoff_of, select. unfold climate_record_of in Hrec. rewrite Hc in *.
    simpl in Hrec. simpl.
    destruct (filter _ (c :: rows)); [eauto|discriminate].
Qed.

(** C5.  [calculate_runoff] gives every unit with a climate record the
    runoff C x I x A x 0.278, where C is the coefficient of the slope table
    for the unit's mean slope (slope < 5: 0.20, 5-10: 0.35, 10-20: 0.50,
    >= 20: 0.70, and 0.50 without a topography record), I is precip_24h / 24
    (0 when the precipitation is not positive) and A is the unit's area in
    km2 with a non-positive area replaced by 1.0; the stage produces its
    table whenever there is climate data; and slope 8, 48 mm in 24 h and
    10 km2 give 1.946 m3/s within 1e-6. *)
Theorem calculate_runoff_rational :
  (∀ (self : calculator) melt_df (runoff_df : list runoff_row) (g : grid)
     (climate : climate_row),
     calculate_runoff self melt_df = Some runoff_df →
     g ∈ grid_rows (grids_gdf self) →
     climate_record_of self (grid_id g) = Some climate →
     ∃ r, r ∈ runoff_df ∧ runoff_grid_id r = grid_id g ∧
          coefficient_rule (slope_mean <$> topo_record_of self (grid_id g))
                           (runoff_coeff r) ∧
          precip_intensity_mm_h r = spec_intensity (precip_24h climate) ∧
          runoff_m3s r = runoff_coeff r * spec_intensity (precip_24h climate)
                         * spec_area (unit_area_km2 self g) * 0.278) ∧
  (∀ (self : calculator) melt_df c rows,
     climate_data self = Some (c :: rows) →
     is_Some (calculate_runoff self melt_df)) ∧
  (∃ r, calculate_runoff
          (example_state 10 (example_climate 7 3 48 60 0 NoColumn)
                         (Some (example_topo 7 900 8))) None = Some [r] ∧
        runoff_coeff r = 0.35 ∧ precip_intensity_mm_h r = 2 ∧
        within 1e-6 (runoff_m3s r) 1.946).
Proof.
  split; [|split].
  - intros self melt_df runoff_df g climate Hrun Hg Hc.
    destruct (runoff_of_spec self g climate Hc) as [r [Hbody Hspec]].
    exists r. split; [|exact Hspec].
    eapply for_append_elem; eauto.
  - intros self melt_df c rows Hc. apply for_append_total.
    intros g _. by eapply runoff_of_total.
  - eexists. split; [vm_compute; reflexivity|].
    repeat split; vm_compute; reflexivity.
Qed.

Lemma calculate_runoff_rational_witness :
  ∃ r, r ∈ [ {| runoff_grid_id := 7; runoff_m3s := 0.35 * 2 * 10 * 0.278;
                runoff_coeff := 0.35; slope_percent := 8;
                precip_intensity_mm_h := 2 |} ] ∧
       runoff_grid_id r = 7%Z ∧
       coefficient_rule (Some 8) (runoff_coeff r) ∧
       precip_intensity_mm_h r = spec_intensity 48 ∧
       runoff_m3s r = runoff_coeff r * spec_intensity 48 * spec_area 10 * 0.278.
Proof.
  apply (proj1 calculate_runoff_rational
           (example_state 10 (example_climate 7 3 48 60 0 NoColumn)
                          (Some (example_topo 7 900 8)))
           None _ (example_grid 7 10) (example_climate 7 3 48 60 0 NoColumn)).
  - vm_compute. reflexivity.
  - left.
  - vm_compute. reflexivity.
Defined.

End Runoff.

(** ** Flood risk and three-day projection *)

Lemma risk_of_spec (self : calculator) (melt_df : option (list melt_row))
    (runoff_df : list runoff_row) (g : grid) (climate : climate_row) :
  is_Some (risk_of self melt_df runoff_df g) →
  climate_record_of self (grid_id g) = Some climate →
  ∃ r, risk_of self melt_df runoff_df g = Some (Some r) ∧
       risk_grid_id r = grid_id g ∧
       risk_score r = spec_risk_score (unit_melt_rate (default [] melt_df) (grid_id g))
                                      (unit_runoff runoff_df (grid_id g))
                                      (precip_72h climate) ∧
       risk_class r = _classify_risk (risk_score r).
Proof.
  intros Hsome Hc. destruct (climate_record_select _ _ _ Hc) as [rest Hsel].
  revert Hsome. unfold risk_of. rewrite Hsel.
  destruct (select melt_grid_id melt_df (grid_id g)) as [ms|] eqn:Hm;
    [|by intros [? ?]].
  destruct (select runoff_grid_id (Some runoff_df) (grid_id g)) as [rs|] eqn:Hr;
    [|by intros [? ?]].
  intros _. cbn [mbind option_bind].
  rewrite (select_unit _ melt_rate_mm_day _ _ _ Hm).
  rewrite (select_unit _ runoff_m3s _ _ _ Hr). simpl.
  fold (unit_melt_rate (default [] melt_df) (grid_id g)).
  fold (unit_runoff runoff_df (grid_id g)).
  unfold spec_risk_score. rewrite <- !FloatOrder.py_min_spec.
  destruct (unit_melt_rate (default [] melt_df) (grid_id g) <? 0.1);
    (eexists; split; [reflexivity|]); simpl; repeat split; reflexivity.
Qed.

Lemma risk_of_total (self : calculator) (m : melt_row) (ms : list melt_row)
    (r : runoff_row) (rs : list runoff_row) (c : climate_row) (cs : list climate_row)
    (g : grid) :
  climate_data self = Some (c :: cs) →
  is_Some (risk_of self (Some (m :: ms)) (r :: rs) g).
Proof.
  intros Hc. unfold risk_of, select. rewrite Hc. simpl.
  destruct (filter _ (c :: cs)); [eauto|].
  destruct (first_or_zero _ _ <? 0.1); eauto.
Qed.

(** C4.  [calculate_flood_risk] gives every unit with a climate record the
    score 0.05 min(1, melt/50) + 0.55 min(1, runoff/1000)
    + 0.40 min(1, precip_72h/300) when the unit's melt rate is below
    0.1 mm/day, and 0.40 min(1, melt/50) + 0.40 min(1, runoff/1000)
    + 0.20 min(1, precip_72h/300) otherwise, classified by
    [_classify_risk]; the stage produces its table whenever the three
    tables it reads have rows; melt 0.05, runoff 500 and precip_72h 150
    score 0.4751 within 1e-4, and melt 5 with the same runoff and
    precipitation scores 0.34; each component is capped at 1: melt 100,
    runoff 2000 and precip_72h 600 give the three components 1 and the
    score 0.40 + 0.40 + 0.20, and melt 0.05 with the same runoff and
    precipitation gives 0.05 x 0.001 + 0.55 + 0.40.  (min(1, x) is the
    smaller of 1 and x in the order of the numbers, [spec_min].) *)
Theorem calculate_flood_risk_weights :
  (∀ (self : calculator) (melt_df : option (list melt_row))
     (runoff_df : list runoff_row) (risk_df : list risk_row) (g : grid)
     (climate : climate_row),
     calculate_flood_risk self melt_df runoff_df = Some risk_df →
     g ∈ grid_rows (grids_gdf self) →
     climate_record_of self (grid_id g) = Some climate →
     ∃ r, r ∈ risk_df ∧ risk_grid_id r = grid_id g ∧
          risk_score r
          = spec_risk_score (unit_melt_rate (default [] melt_df) (grid_id g))
                            (unit_runoff runoff_df (grid_id g))
                            (precip_72h climate) ∧
          risk_class r = _classify_risk (risk_score r)) ∧
  (∀ (self : calculator) m ms r rs c cs,
     climate_data self = Some (c :: cs) →
     is_Some (calculate_flood_risk self (Some (m :: ms)) (r :: rs))) ∧
  (∃ r, calculate_flood_risk
          (example_state 10 (example_climate 7 1 20 150 0 NoColumn) None)
          (example_melt_df 0.05) (example_runoff_df 500) = Some [r] ∧
        within 1e-4 (risk_score r) 0.4751 ∧
        risk_score r = 0.05 * (0.05 / 50) + 0.55 * (500 / 1000) + 0.40 * (150 / 300)) ∧
  (∃ r, calculate_flood_risk
          (example_state 10 (example_climate 7 1 20 150 0 NoColumn) None)
          (example_melt_df 5) (example_runoff_df 500) = Some [r] ∧
        risk_score r = 0.34 ∧
        risk_score r = 0.40 * (5 / 50) + 0.40 * (500 / 1000) + 0.20 * (150 / 300)) ∧
  (∃ r, calculate_flood_risk
          (example_state 10 (example_climate 7 1 20 600 0 NoColumn) None)
          (example_melt_df 100) (example_runoff_df 2000) = Some [r] ∧
        melt_component r = 1 ∧ runoff_component r = 1 ∧ precip_component r = 1 ∧
        risk_score r = 0.40 * 1 + 0.40 * 1 + 0.20 * 1 ∧
        risk_score r = 1) ∧
  (∃ r, calculate_flood_risk
          (example_state 10 (example_climate 7 1 20 600 0 NoColumn) None)
          (example_melt_df 0.05) (example_runoff_df 2000) = Some [r] ∧
        melt_component r = 0.05 / 50 ∧ runoff_component r = 1 ∧
        precip_component r = 1 ∧
        risk_score r = 0.05 * (0.05 / 50) + 0.55 * 1 + 0.40 * 1).
Proof.
  split; [|split; [|split; [|split; [|split]]]].
  - intros self melt_df runoff_df risk_df g climate Hrun Hg Hc.
    pose proof (for_append_body_Some _ _ _ _ Hrun Hg) as Hsome.
    destruct (risk_of_spec self melt_df runoff_df g climate Hsome Hc)
      as [r [Hbody Hspec]].
    exists r. split; [|exact Hspec].
    eapply for_append_elem; eauto.
  - intros self m ms r rs c cs Hc. apply for_append_total.
    intros g _. by eapply risk_of_total.
  - eexists. split; [vm_compute; reflexivity|].
    split; vm_compute; reflexivity.
  - eexists. split; [vm_compute; reflexivity|].
    split; vm_compute; reflexivity.
  - eexists. split; [vm_compute; reflexivity|].
    repeat split; vm_compute; reflexivity.
  - eexists. split; [vm_compute; reflexivity|].
    repeat split; vm_compute; reflexivity.
Qed.

Lemma calculate_flood_risk_weights_witness :
  ∃ r, r ∈ [ {| risk_grid_id := 7; risk_score := 0.34; risk_class := "medio";
                melt_component := 5 / 50; runoff_component := 0.5;
                precip_component := 0.5 |} ] ∧
       risk_grid_id r = 7%Z ∧
       risk_score r = spec_risk_score 5 500 150 ∧
       risk_class r = _classify_risk (risk_score r).
Proof.
  apply (proj1 calculate_flood_risk_weights
           (example_state 10 (example_climate 7 1 20 150 0 NoColumn) None)
           (example_melt_df 5) (example_runoff_df 500) _ (example_grid 7 10)
           (example_climate 7 1 20 150 0 NoColumn)).
  - vm_compute. reflexivity.
  - left.
  - vm_compute. reflexivity.
Defined.

Lemma projection_of_spec (self : calculator) (melt_df : option (list melt_row))
    (runoff_df : list runoff_row) (g : grid) (climate : climate_row) :
  is_Some (projection_of self melt_df runoff_df g) →
  climate_record_of self (grid_id g) = Some climate →
  ∃ r, projection_of self melt_df runoff_df g = Some (Some r) ∧
       proj_grid_id r = grid_id g ∧
       melt_3d_mm r = 3 * unit_melt_rate (default [] melt_df) (grid_id g) ∧
       precip_3d_mm r = 3 * precip_24h climate ∧
       water_total_3d_mm r = melt_3d_mm r + precip_3d_mm r ∧
       risk_score_3d r = spec_risk_score_3d (melt_3d_mm r)
                                            (unit_runoff runoff_df (grid_id g))
                                            (precip_3d_mm r) ∧
       risk_class_3d r = _classify_risk (risk_score_3d r).
Proof.
  intros Hsome Hc. destruct (climate_record_select _ _ _ Hc) as [rest Hsel].
  revert Hsome. unfold projection_of. rewrite Hsel.
  destruct (select melt_grid_id melt_df (grid_id g)) as [ms|] eqn:Hm;
    [|by intros [? ?]].
  destruct (select runoff_grid_id (Some runoff_df) (grid_id g)) as [rs|] eqn:Hr;
    [|by intros [? ?]].
  intros _. cbn [mbind option_bind].
  rewrite (select_unit _ melt_rate_mm_day _ _ _ Hm).
  rewrite (select_unit _ runoff_m3s _ _ _ Hr). simpl.
  fold (unit_melt_rate (default [] melt_df) (grid_id g)).
  fold (unit_runoff runoff_df (grid_id g)).
  eexists. split; [reflexivity|]. simpl.
  split; [reflexivity|]. split; [apply float_mul_comm|].
  split; [apply float_mul_comm|].
  unfold spec_risk_score_3d. rewrite <- !FloatOrder.py_min_spec.
  repeat split; reflexivity.
Qed.

Lemma projection_of_total (self : calculator) (m : melt_row) (ms : list melt_row)
    (r : runoff_row) (rs : list runoff_row) (c : climate_row) (cs : list climate_row)
    (g : grid) :
  climate_data self = Some (c :: cs) →
  is_Some (projection_of self (Some (m :: ms)) (r :: rs) g).
Proof.
  intros Hc. unfold projection_of, select. rewrite Hc. simpl.
  destruct (filter _ (c :: cs)); eauto.
Qed.

(** C7.  [calculate_projected_risk_3d] gives every unit with a climate
    record melt_3d_mm = 3 x the unit's current melt rate and
    precip_3d_mm = 3 x the unit's 24 h precipitation, exactly, with
    water_total_3d_mm their sum, and the projected score
    0.35 min(1, melt_3d/150) + 0.35 min(1, runoff_m3s/1200)
    + 0.30 min(1, precip_3d/300), classified by [_classify_risk]; the
    result is a function of the tables alone, and the stage produces its
    table whenever the three tables it reads have rows; each component is
    capped at 1: a melt rate of 60, a runoff of 1500 and 120 mm of
    precipitation give 180 mm and 360 mm in three days and the score
    0.35 + 0.35 + 0.30, class critico, while a melt rate of 5, a runoff of
    500 and 20 mm stay below the caps.  (min(1, x) is the smaller of 1 and
    x in the order of the numbers, [spec_min].) *)
Theorem calculate_projected_risk_3d_persistence :
  (∀ (self : calculator) (melt_df : option (list melt_row))
     (runoff_df : list runoff_row) (proj_df : list proj_row) (g : grid)
     (climate : climate_row),
     calculate_projected_risk_3d self melt_df runoff_df = Some proj_df →
     g ∈ grid_rows (grids_gdf self) →
     climate_record_of self (grid_id g) = Some climate →
     ∃ r, r ∈ proj_df ∧ proj_grid_id r = grid_id g ∧
          melt_3d_mm r = 3 * unit_melt_rate (default [] melt_df) (grid_id g) ∧
          precip_3d_mm r = 3 * precip_24h climate ∧
          water_total_3d_mm r = melt_3d_mm r + precip_3d_mm r ∧
          risk_score_3d r = spec_risk_score_3d (melt_3d_mm r)
                                               (unit_runoff runoff_df (grid_id g))
                                               (precip_3d_mm r) ∧
          risk_class_3d r = _classify_risk (risk_score_3d r)) ∧
  (∀ (self : calculator) m ms r rs c cs,
     climate_data self = Some (c :: cs) →
     is_Some (calculate_projected_risk_3d self (Some (m :: ms)) (r :: rs))) ∧
  calculate_projected_risk_3d
    (example_state 10 (example_climate 7 1 120 600 0 NoColumn) None)
    (example_melt_df 60) (example_runoff_df 1500)
  = Some [ {| proj_grid_id := 7; melt_3d_mm := 180; precip_3d_mm := 360;
              water_total_3d_mm := 540;
              risk_score_3d := 0.35 * 1 + 0.35 * 1 + 0.30 * 1;
              risk_class_3d := "critico" |} ] ∧
  0.35 * 1 + 0.35 * 1 + 0.30 * 1 = 1 ∧
  calculate_projected_risk_3d
    (example_state 10 (example_climate 7 1 20 150 0 NoColumn) None)
    (example_melt_df 5) (example_runoff_df 500)
  = Some [ {| proj_grid_id := 7; melt_3d_mm := 15; precip_3d_mm := 60;
              water_total_3d_mm := 75;
              risk_score_3d := 0.35 * (15 / 150) + 0.35 * (500 / 1200)
                               + 0.30 * (60 / 300);
              risk_class_3d := "bajo" |} ].
Proof.
  split; [|split; [|split; [|split]]].
  - intros self melt_df runoff_df proj_df g climate Hrun Hg Hc.
    pose proof (for_append_body_Some _ _ _ _ Hrun Hg) as Hsome.
    destruct (projection_of_spec self melt_df runoff_df g climate Hsome Hc)
      as [r [Hbody Hspec]].
    exists r. split; [|exact Hspec].
    eapply for_append_elem; eauto.
  - intros self m ms r rs c cs Hc. apply for_append_total.
    intros g _. by eapply projection_of_total.
  - vm_compute. reflexivity.
  - vm_compute. reflexivity.
  - vm_compute. reflexivity.
Qed.

Lemma calculate_projected_risk_3d_persistence_witness :
  ∃ r, r ∈ [ {| proj_grid_id := 7; melt_3d_mm := 15; precip_3d_mm := 60;
                water_total_3d_mm := 75;
                risk_score_3d := spec_risk_score_3d 15 500 60;
                risk_class_3d := "bajo" |} ] ∧
       proj_grid_id r = 7%Z ∧
       melt_3d_mm r = 3 * 5 ∧
       precip_3d_mm r = 3 * 20 ∧
       water_total_3d_mm r = melt_3d_mm r + precip_3d_mm r ∧
       risk_score_3d r = spec_risk_score_3d (melt_3d_mm r) 500 (precip_3d_mm r) ∧
       risk_class_3d r = _classify_risk (risk_score_3d r).
Proof.
  apply (proj1 calculate_projected_risk_3d_persistence
           (example_state 10 (example_climate 7 1 20 150 0 NoColumn) None)
           (example_melt_df 5) (example_runoff_df 500) _ (example_grid 7 10)
           (example_climate 7 1 20 150 0 NoColumn)).
  - vm_compute. reflexivity.
  - left.
  - vm_compute. reflexivity.
Defined.

(** ** Climate records *)

Section ClimateRecords.
Context `{External}.

(** The three failures of the claim give the record of
    [_empty_climate_dict]: a payload without [hourly] block (or with a falsy
    one), a payload on which the [try] block raises, a failed request. *)
Lemma process_missing_hourly (items : list (string * pyval)) :
  from_option truthy false (assoc "hourly" items) = false →
  _process_meteo_json (PDict items) = _empty_climate_dict.
Proof.
  intros Hh. unfold _process_meteo_json, process_meteo_try. simpl.
  destruct (assoc "hourly" items) as [h|]; simpl in *.
  - rewrite Hh. reflexivity.
  - reflexivity.
Qed.

Lemma process_raises (data : pyval) :
  process_meteo_try data = None → _process_meteo_json data = _empty_climate_dict.
Proof. unfold _process_meteo_json. by intros ->. Qed.

Lemma fetch_failure (lats lons : list float) :
  forecast_api lats lons = None →
  _fetch_openmeteo_batch lats lons = map (λ _, _empty_climate_dict) lats.
Proof. unfold _fetch_openmeteo_batch. by intros ->. Qed.

(** The regular return of [_process_meteo_json] has the [elevation] key. *)
Lemma process_regular_has_elevation (data : pyval) (record : gmap string pyval) :
  process_meteo_try data = Some record →
  record = _empty_climate_dict ∨ is_Some (record !! "elevation").
Proof.
  unfold process_meteo_try. intros Hrun.
  repeat match type of Hrun with
  | (mbind _ ?m) = Some _ =>
      let E := fresh "E" in destruct m eqn:E; simpl in Hrun; [|discriminate]
  | (if ?b then _ else _) = Some _ => destruct b; [injection Hrun as <-; by left|]
  end.
  injection Hrun as <-. right. by eexists.
Qed.

(** *** The batches of [get_climate_data] *)

Lemma tag_results_all (record : gmap string pyval) (l : list float) (ids : list Z) (j : nat) :
  size record ≠ 0%nat →
  (j + length l ≤ length ids)%nat →
  tag_results j (map (λ _, record) l) ids
  = Some (map (λ id, <["grid_id" := PInt id]> record) (take (length l) (drop j ids))).
Proof.
  intros Hne. revert j. induction l as [|x l IH]; intros j Hlen; simpl in *.
  - reflexivity.
  - destruct (decide (size record = 0%nat)) as [|_]; [done|].
    destruct (ids !! j) as [id|] eqn:Hid.
    2:{ apply lookup_ge_None in Hid. lia. }
    simpl. rewrite (IH (S j)) by lia. simpl.
    rewrite (drop_S _ _ _ Hid). reflexivity.
Qed.

Lemma concat_slices {A : Type} (l : list A) (n k : nat) :
  (0 < n)%nat → (length l ≤ k * n)%nat →
  concat (map (λ i, slice_from i n l) (map (λ j, j * n)%nat (seq 0 k))) = l.
Proof.
  intros Hn. revert l. induction k as [|k IH]; intros l Hlen.
  - destruct l; [reflexivity|simpl in Hlen; lia].
  - simpl seq. rewrite <- seq_shift. simpl. unfold slice_from at 1. simpl.
    rewrite !map_map.
    rewrite (map_ext _ (λ j, slice_from (j * n) n (drop n l))).
    2:{ intros j. unfold slice_from. rewrite drop_drop. reflexivity. }
    rewrite <- (map_map (λ j, (j * n)%nat) (λ i, slice_from i n (drop n l))).
    rewrite IH; [rewrite drop_0; apply take_drop|].
    rewrite length_drop. lia.
Qed.

Lemma range_step_covers (n : nat) :
  (n ≤ Nat.div (n + (batch_size - 1)) batch_size * batch_size)%nat.
Proof.
  unfold batch_size.
  pose proof (Nat.div_mod_eq (n + (50 - 1)) 50) as Hd.
  pose proof (Nat.mod_upper_bound (n + (50 - 1)) 50 ltac:(lia)) as Hm.
  lia.
Qed.

Lemma mapM_ext_Some {A B : Type} (f : A → option B) (g : A → B) (l : list A) :
  (∀ x, x ∈ l → f x = Some (g x)) → mapM f l = Some (map g l).
Proof.
  intros Hall. apply mapM_Some. induction l as [|x l IH]; simpl; constructor.
  - apply Hall. left.
  - apply IH. intros y Hy. apply Hall. by right.
Qed.

(** When every request of the weather service fails, every unit gets the
    empty record with its own [grid_id]: no unit is left out. *)
Lemma get_climate_records_failure (lats lons : list float) (ids : list Z) :
  length lats = length ids →
  (∀ la lo, forecast_api la lo = None) →
  get_climate_records lats lons ids
  = Some (map (λ id, <["grid_id" := PInt id]> _empty_climate_dict) ids).
Proof.
  intros Hlen Hfail. unfold get_climate_records.
  rewrite (mapM_ext_Some _
             (λ i, map (λ id, <["grid_id" := PInt id]> _empty_climate_dict)
                       (slice_from i batch_size ids))).
  - simpl. f_equal. unfold range_step.
    rewrite <- (map_map (λ i, slice_from i batch_size ids)
                        (map (λ id, <["grid_id" := PInt id]> _empty_climate_dict))).
    rewrite <- concat_map.
    rewrite concat_slices; [reflexivity|unfold batch_size; lia|].
    rewrite <- Hlen. apply range_step_covers.
  - intros i _. rewrite fetch_failure by apply Hfail.
    rewrite tag_results_all.
    + f_equal. unfold slice_from. rewrite drop_0.
      rewrite take_take, length_take, length_drop.
      destruct (decide (batch_size ≤ length lats - i)%nat).
      * do 2 f_equal. lia.
      * rewrite !take_ge by (rewrite length_drop; unfold batch_size in *; lia).
        reflexivity.
    + vm_compute. discriminate.
    + unfold slice_from. rewrite !length_take, !length_drop. lia.
Qed.

End ClimateRecords.

(** C8, evaluated.  Two units whose weather request fails both get a
    climate record (no unit is left out), and every field of that record
    except [elevation] is present and zero or the empty list; the
    [elevation] field, which the regular return of [_process_meteo_json]
    writes, is absent from the record of [_empty_climate_dict]. *)
Theorem failed_fetch_record_lacks_elevation :
  get_climate_records (H := offline_services) [-45.5; -46.0] [-72.0; -72.5] [3; 4]%Z
    = Some [ <["grid_id" := PInt 3]> _empty_climate_dict;
             <["grid_id" := PInt 4]> _empty_climate_dict ] ∧
  _process_meteo_json (H := offline_services) (PDict []) = _empty_climate_dict ∧
  _process_meteo_json (H := offline_services) (PStr "error") = _empty_climate_dict ∧
  _empty_climate_dict !! "elevation" = None ∧
  filter (λ k, _empty_climate_dict !! k = None) climate_schema = ["elevation"] ∧
  map_Forall (λ _ v, is_default v = true) _empty_climate_dict ∧
  _process_meteo_json (H := offline_services) (example_payload 6 48 0 500) !! "elevation"
    = Some (PNum 500).
Proof.
  split; [vm_compute; reflexivity|].
  split; [reflexivity|].
  split; [reflexivity|].
  split; [reflexivity|].
  split; [vm_compute; reflexivity|].
  split; [|vm_compute; reflexivity].
  intros k v Hk.
  apply elem_of_list_to_map_2 in Hk.
  repeat (apply elem_of_cons in Hk as [[= -> ->]|Hk]; [reflexivity|]).
  inversion Hk.
Qed.

(** ** The merged result table *)

Section Keys.
Context {A : Type} (key : A → Z).

Lemma sublist_map {B C : Type} (f : B → C) (l1 l2 : list B) :
  l1 `sublist_of` l2 → map f l1 `sublist_of` map f l2.
Proof. induction 1; simpl; by constructor. Qed.

(** With distinct keys, at most one row of a table has a given key. *)
Lemma filter_key_unique (l : list A) (k : Z) :
  NoDup (map key l) →
  filter (λ r, key r = k) l = [] ∨ ∃ r, filter (λ r, key r = k) l = [r].
Proof.
  induction l as [|x l IH]; intros Hnd; [by left|].
  simpl in Hnd. apply NoDup_cons in Hnd as [Hx Hnd].
  rewrite filter_cons. destruct (decide (key x = k)) as [Hk|Hk]; [|by apply IH].
  right. exists x. f_equal.
  destruct (filter (λ r, key r = k) l) as [|y ys] eqn:Hf; [reflexivity|].
  exfalso. apply Hx.
  assert (Hy : y ∈ filter (λ r, key r = k) l) by (rewrite Hf; left).
  apply list_elem_of_filter in Hy as [Hky Hy].
  rewrite Hk, <- Hky. apply list_elem_of_In, in_map, list_elem_of_In, Hy.
Qed.

(** A left join with a table of distinct keys keeps the rows of the left
    table: each once, in order. *)
Lemma left_merge_rows (set : result_row → joined A → result_row)
    (results : list result_row) (right : list A) :
  (∀ r j, base (set r j) = base r) →
  NoDup (map key right) →
  map base (left_merge key set results right) = map base results.
Proof.
  intros Hset Hnd.
  induction results as [|row results IH]; [reflexivity|].
  change (left_merge key set (row :: results) right)
    with (match filter (λ r, key r = grid_id (base row)) right with
          | [] => [set row Unmatched]
          | matches => map (λ r, set row (Matched r)) matches
          end ++ left_merge key set results right).
  rewrite map_app, IH. simpl. f_equal.
  destruct (filter_key_unique right (grid_id (base row)) Hnd) as [->|[r ->]];
    simpl; by rewrite Hset.
Qed.

Lemma merge_if_any_rows (set : result_row → joined A → result_row)
    (results : list result_row) (right : option (list A)) :
  (∀ r j, base (set r j) = base r) →
  NoDup (map key (default [] right)) →
  map base (merge_if_any key set results right) = map base results.
Proof.
  intros Hset Hnd. destruct right as [[|r rows]|]; try reflexivity.
  by apply left_merge_rows.
Qed.

(** The keys of the rows that a loop over the units appends form a sublist
    of the keys of the units. *)
Lemma for_append_keys {G : Type} (gkey : G → Z) (body : G → option (option A))
    (l : list G) (out : list A) :
  (∀ g r, body g = Some (Some r) → key r = gkey g) →
  for_append body l = Some out →
  map key out `sublist_of` map gkey l.
Proof.
  intros Hkey. revert out. induction l as [|g l IH]; intros out Hrun; simpl in *.
  - injection Hrun as <-. constructor.
  - destruct (body g) as [r|] eqn:Hg; simpl in Hrun; [|discriminate].
    destruct (for_append body l) as [rest|]; simpl in Hrun; [|discriminate].
    injection Hrun as <-. destruct r as [r|]; simpl.
    + rewrite (Hkey g r Hg). constructor. by apply IH.
    + constructor. by apply IH.
Qed.

End Keys.

Lemma runoff_of_key (self : calculator) (g : grid) (r : runoff_row) :
  runoff_of self g = Some (Some r) → runoff_grid_id r = grid_id g.
Proof.
  unfold runoff_of. intros Hrun.
  destruct (select climate_grid_id (climate_data self) (grid_id g)) as [[|c cs]|];
    simpl in Hrun; try discriminate.
  match type of Hrun with
  | (mbind _ ?m) = Some _ => destruct m; simpl in Hrun; [|discriminate]
  end.
  by injection Hrun as <-.
Qed.

Lemma risk_of_key (self : calculator) melt_df runoff_df (g : grid) (r : risk_row) :
  risk_of self melt_df runoff_df g = Some (Some r) → risk_grid_id r = grid_id g.
Proof.
  unfold risk_of. intros Hrun.
  destruct (select melt_grid_id melt_df (grid_id g)); [|discriminate].
  destruct (select runoff_grid_id (Some runoff_df) (grid_id g)); [|discriminate].
  destruct (select climate_grid_id (climate_data self) (grid_id g)) as [[|c cs]|];
    simpl in Hrun; try discriminate.
  destruct (first_or_zero melt_rate_mm_day _ <? 0.1); by injection Hrun as <-.
Qed.

Lemma projection_of_key (self : calculator) melt_df runoff_df (g : grid) (r : proj_row) :
  projection_of self melt_df runoff_df g = Some (Some r) → proj_grid_id r = grid_id g.
Proof.
  unfold projection_of. intros Hrun.
  destruct (select melt_grid_id melt_df (grid_id g)); [|discriminate].
  destruct (select runoff_grid_id (Some runoff_df) (grid_id g)); [|discriminate].
  destruct (select climate_grid_id (climate_data self) (grid_id g)) as [[|c cs]|];
    simpl in Hrun; try discriminate.
  by injection Hrun as <-.
Qed.

Lemma calculate_melt_keys (self : calculator) (melt_df : option (list melt_row)) :
  calculate_melt self = Some melt_df →
  map melt_grid_id (default [] melt_df)
  `sublist_of` map climate_grid_id (default [] (climate_data self)).
Proof.
  destruct melt_df as [melt_df|]; [|intros _; apply sublist_nil_l].
  intros Hrun.
  destruct (calculate_melt_rows self melt_df Hrun) as [rows [glaciers [-> Hall]]].
  simpl. assert (map melt_grid_id melt_df = map climate_grid_id rows) as ->; [|done].
  clear Hrun. induction Hall as [|c m rows ms Hm _ IH]; [reflexivity|].
  simpl. f_equal; [|exact IH].
  by destruct (melt_of_spec self glaciers c m Hm) as [-> _].
Qed.

Section Fetchers.
Context `{External}.

Lemma topography_keys_aux (f : nat → grid → option topo_row) (grids : list grid) :
  (∀ i g t, f i g = Some t → topo_grid_id t = grid_id g) →
  map topo_grid_id (omap id (imap f grids)) `sublist_of` map grid_id grids.
Proof.
  revert f. induction grids as [|g grids IH]; intros f Hf; [constructor|].
  rewrite imap_cons. simpl. destruct (f 0%nat g) as [t|] eqn:Ht; simpl.
  - rewrite (Hf _ _ _ Ht). constructor. apply IH. intros i g' t'. apply Hf.
  - constructor. apply IH. intros i g' t'. apply Hf.
Qed.

Lemma get_topography_keys (grids : list grid) :
  map topo_grid_id (get_topography_for_grids grids) `sublist_of` map grid_id grids.
Proof.
  unfold get_topography_for_grids. apply topography_keys_aux.
  intros i g t. destruct (slice_from i 1 _) as [|e [|? ?]]; try discriminate.
  by intros [= <-].
Qed.

(** The records that one batch contributes carry, in order, identifiers of
    the batch. *)
Lemma tag_results_keys (results : list (gmap string pyval)) (ids : list Z) (j : nat)
    (out : list (gmap string pyval)) :
  tag_results j results ids = Some out →
  ∃ ks, Forall2 (λ r k, r !! "grid_id" = Some (PInt k)) out ks
        ∧ ks `sublist_of` drop j ids.
Proof.
  revert j out. induction results as [|r results IH]; intros j out Hrun; simpl in Hrun.
  - injection Hrun as <-. exists []. split; [constructor|apply sublist_nil_l].
  - assert (Hnext : drop (S j) ids `sublist_of` drop j ids).
    { replace (S j) with (j + 1)%nat by lia. rewrite <- drop_drop. apply sublist_drop. }
    destruct (decide (size r = 0%nat)).
    + destruct (IH _ _ Hrun) as [ks [Hks Hsub]]. exists ks. split; [done|].
      by etrans.
    + destruct (ids !! j) as [k|] eqn:Hk; simpl in Hrun; [|discriminate].
      destruct (tag_results (S j) results ids) as [tagged|] eqn:Ht; simpl in Hrun;
        [|discriminate].
      injection Hrun as <-. destruct (IH _ _ Ht) as [ks [Hks Hsub]].
      exists (k :: ks). split.
      * constructor; [apply lookup_insert_eq|done].
      * rewrite (drop_S _ _ _ Hk). by constructor.
Qed.

Lemma get_climate_records_keys (lats lons : list float) (ids : list Z)
    (records : list (gmap string pyval)) :
  length lats = length ids →
  get_climate_records lats lons ids = Some records →
  ∃ ks, Forall2 (λ r k, r !! "grid_id" = Some (PInt k)) records ks
        ∧ ks `sublist_of` ids.
Proof.
  intros Hlen. unfold get_climate_records.
  destruct (mapM _ _) as [batches|] eqn:Hm; simpl; [|discriminate].
  intros [= <-]. apply mapM_Some in Hm.
  assert (Hall : ∀ starts bs,
            Forall2 (λ i b, tag_results 0
                       (_fetch_openmeteo_batch (slice_from i batch_size lats)
                                               (slice_from i batch_size lons))
                       (slice_from i batch_size ids) = Some b) starts bs →
            ∃ ks, Forall2 (λ r k, r !! "grid_id" = Some (PInt k)) (concat bs) ks
                  ∧ ks `sublist_of`
                      concat (map (λ i, slice_from i batch_size ids) starts)).
  { induction 1 as [|i b starts bs Hb _ [ks [Hks Hsub]]]; simpl.
    - exists []. split; constructor.
    - destruct (tag_results_keys _ _ _ _ Hb) as [ks0 [Hks0 Hsub0]].
      exists (ks0 ++ ks). split; [by apply Forall2_app|].
      apply sublist_app; [|done]. by rewrite drop_0 in Hsub0. }
  destruct (Hall _ _ Hm) as [ks [Hks Hsub]]. exists ks. split; [done|].
  unfold range_step in Hsub. rewrite concat_slices in Hsub; [done|unfold batch_size; lia|].
  rewrite <- Hlen. apply range_step_covers.
Qed.

Lemma climate_frame_keys (records : list (gmap string pyval)) (rows : list climate_row)
    (ks : list Z) :
  climate_frame records = Some rows →
  Forall2 (λ r k, r !! "grid_id" = Some (PInt k)) records ks →
  map climate_grid_id rows = ks.
Proof.
  unfold climate_frame. intros Hm%mapM_Some Hks.
  revert ks Hks. induction Hm as [|r row records' rows' Hr _ IH]; intros ks Hks.
  - by inversion Hks.
  - inversion Hks as [|? k ? ks' Hk Hks']; subst. simpl. f_equal; [|by apply IH].
    rewrite Hk in Hr. simpl in Hr.
    repeat match type of Hr with
    | (mbind _ ?m) = Some _ => destruct m; simpl in Hr; [|discriminate]
    end.
    by injection Hr as <-.
Qed.

Lemma get_climate_data_keys (grids : list grid) (rows : list climate_row) :
  get_climate_data grids = Some rows →
  map climate_grid_id rows `sublist_of` map grid_id grids.
Proof.
  unfold get_climate_data.
  destruct (get_climate_records _ _ _) as [records|] eqn:Hrec; simpl; [|discriminate].
  intros Hframe.
  assert (Hlen : length (map centroid_y grids) = length (map grid_id grids))
    by (by rewrite !length_map).
  destruct (get_climate_records_keys _ _ _ _ Hlen Hrec)
    as [ks [Hks Hsub]].
  by rewrite (climate_frame_keys _ _ _ Hframe Hks).
Qed.

(** Join integrity, first half: when the unit table has distinct
    [grid_id]s, the merged table has exactly the rows of the unit table,
    each once and in the same order; no join duplicates or drops a row. *)
Lemma merged_rows_exactly_once (glaciers : glaciers_frame) (grids : grids_frame)
    (results : list result_row) :
  NoDup (map grid_id (grid_rows grids)) →
  run_full_analysis glaciers grids = Some results →
  map base results = grid_rows grids.
Proof.
  intros Hnd. unfold run_full_analysis.
  destruct (get_climate_data (grid_rows grids)) as [climate|] eqn:Hc;
    cbn [mbind option_bind]; [|discriminate].
  set (self := {| glaciers_gdf := Some glaciers; grids_gdf := grids;
                  climate_data := Some climate;
                  topo_data := Some (get_topography_for_grids (grid_rows grids)) |}).
  destruct (calculate_melt self) as [melt_df|] eqn:Hmelt;
    cbn [mbind option_bind]; [|discriminate].
  destruct (calculate_runoff self melt_df) as [runoff_df|] eqn:Hrunoff;
    cbn [mbind option_bind]; [|discriminate].
  destruct (calculate_flood_risk self melt_df runoff_df) as [risk_df|] eqn:Hrisk;
    cbn [mbind option_bind]; [|discriminate].
  destruct (calculate_projected_risk_3d self melt_df runoff_df) as [proj_df|] eqn:Hproj;
    cbn [mbind option_bind]; [|discriminate].
  intros Heq. apply (inj Some) in Heq. subst results.
  pose proof (get_climate_data_keys _ _ Hc) as Kc.
  pose proof (get_topography_keys (grid_rows grids)) as Kt.
  pose proof (calculate_melt_keys self melt_df Hmelt) as Km. simpl in Km.
  pose proof (for_append_keys runoff_grid_id grid_id _ _ _ (runoff_of_key self) Hrunoff)
    as Kr.
  pose proof (for_append_keys risk_grid_id grid_id _ _ _
                (risk_of_key self melt_df runoff_df) Hrisk) as Kk.
  pose proof (for_append_keys proj_grid_id grid_id _ _ _
                (projection_of_key self melt_df runoff_df) Hproj) as Kp.
  rewrite !merge_if_any_rows; try (intros; reflexivity); simpl.
  - rewrite map_map. simpl. apply map_id.
  - eapply sublist_NoDup; [exact Hnd|exact Kc].
  - eapply sublist_NoDup; [exact Hnd|exact Kt].
  - eapply sublist_NoDup; [exact Hnd|]. etrans; [exact Km|exact Kc].
  - eapply sublist_NoDup; [exact Hnd|exact Kr].
  - eapply sublist_NoDup; [exact Hnd|exact Kk].
  - eapply sublist_NoDup; [exact Hnd|exact Kp].
Qed.

End Fetchers.

(** C2, evaluated.  Two units, numbers 3 and 4; the weather service answers
    the request for both with one payload, so only unit 3 gets a climate
    record.  Both units appear once in the merged table, but the columns
    risk_score, melt_rate_mm_day and runoff_m3s of unit 4 hold the
    missing-value marker that the left joins write: no default fills
    them. *)
Theorem merged_columns_missing_without_climate :
  ∃ row3 row4,
    run_full_analysis (H := short_answer_services) example_glaciers
      (example_grids [example_grid 3 10; example_grid 4 20]) = Some [row3; row4] ∧
    grid_id (base row3) = 3%Z ∧ grid_id (base row4) = 4%Z ∧
    is_defined (risk_score_cell row3) = true ∧
    is_defined (melt_rate_cell row3) = true ∧
    is_defined (runoff_cell row3) = true ∧
    risk_score_cell row4 = MissingValue ∧
    melt_rate_cell row4 = MissingValue ∧
    runoff_cell row4 = MissingValue ∧
    is_defined (risk_score_cell row4) = false.
Proof.
  do 2 eexists. split; [vm_compute; reflexivity|].
  repeat split; vm_compute; reflexivity.
Qed.

(** ** The data cache *)

Lemma cache_data_call_miss {K V : Type} (key_eqb : K → K → bool) (body : option V)
    (now : float) (key : K) (cache : cache_data K V) :
  cache_read key_eqb now key cache = None →
  cache_data_call key_eqb body now key cache
  = (body, match body with
           | Some value => cache_write key_eqb now key value cache
           | None => cache
           end).
Proof. intros Hmiss. unfold cache_data_call. rewrite Hmiss. by destruct body. Qed.

Lemma cache_read_write {K V : Type} (key_eqb : K → K → bool) (now later : float)
    (key : K) (value : V) (cache : cache_data K V) :
  key_eqb key key = true →
  cache_read key_eqb later key (cache_write key_eqb now key value cache)
  = if later <? now + ttl then Some value else None.
Proof. intros Hrefl. unfold cache_write. simpl. by rewrite Hrefl. Qed.

(** A stored value answers the calls with its key until it expires, and
    the body runs again afterwards. *)
Lemma cache_data_call_after_write {K V : Type} (key_eqb : K → K → bool)
    (body : option V) (now later : float) (key : K) (value : V)
    (cache : cache_data K V) :
  key_eqb key key = true →
  let cache' := cache_write key_eqb now key value cache in
  ((later <? now + ttl) = true →
     cache_data_call key_eqb body later key cache' = (Some value, cache')) ∧
  ((later <? now + ttl) = false →
     (cache_data_call key_eqb body later key cache').1 = body).
Proof.
  intros Hrefl cache'. unfold cache_data_call, cache'.
  rewrite (cache_read_write key_eqb now later key value cache Hrefl).
  split; intros ->; [reflexivity|]. by destruct body.
Qed.

Lemma hrus_key_eqb_refl (key : hrus_key) : hrus_key_eqb key key = true.
Proof.
  destruct key as [[s m] t]. unfold hrus_key_eqb. simpl.
  by rewrite !(proj2 (FloatAxioms.Leibniz.eqb_spec _ _) eq_refl).
Qed.

(** ** The HRU generator *)

Section Generator.
Implicit Types (sub : subcuenca) (subs : list subcuenca) (h : hru) (hrus : list hru).

(** The decision table gives one, two or three divisions. *)
Lemma decide_division_range (s m t a : float) (st : glacier_stat) :
  (decide_division s m t a st).1 ∈ [1%nat; 2%nat; 3%nat].
Proof.
  unfold decide_division.
  repeat match goal with |- context [if ?b then _ else _] => destruct b end;
    simpl; set_solver.
Qed.

Lemma bands_of_1 : bands_of 1 = ["Única"].
Proof. reflexivity. Qed.
Lemma bands_of_2 : bands_of 2 = ["Baja"; "Alta"].
Proof. reflexivity. Qed.
Lemma bands_of_3 : bands_of 3 = ["Baja"; "Media"; "Alta"].
Proof. reflexivity. Qed.

Lemma filter_band_cons sub (n i : nat) (l : list nat) :
  filter (λ i, band_is_empty sub n i = false) (i :: l)
  = if band_is_empty sub n i then filter (λ i, band_is_empty sub n i = false) l
    else i :: filter (λ i, band_is_empty sub n i = false) l.
Proof. rewrite filter_cons. destruct (band_is_empty sub n i); by case_decide. Qed.

(** [_divide_subcuenca] with one, two or three divisions does not raise:
    the band names are defined for every band it can append. *)
Lemma divide_subcuenca_spec sub (n : nat) (start : Z) (why : reason) :
  n ∈ [1%nat; 2%nat; 3%nat] →
  ∃ units, _divide_subcuenca sub n start why = Some units ∧
           length units = expected_units sub n ∧
           Forall (unit_of_division sub n start) units ∧
           Forall (λ h, hru_reason h = why) units ∧
           StronglySorted Z.lt (map hru_id units).
Proof.
  intros Hn.
  apply elem_of_cons in Hn as [-> | Hn]; [|apply elem_of_cons in Hn as [-> | Hn];
    [|apply elem_of_cons in Hn as [-> | Hn]; [|by apply elem_of_nil in Hn]]].
  - eexists. split; [reflexivity|]. split; [reflexivity|].
    split; [|split]; repeat constructor; simpl; try lia.
  - unfold _divide_subcuenca, expected_units, nonempty_bands. simpl.
    rewrite !filter_band_cons, filter_nil.
    destruct (band_is_empty sub 2 0), (band_is_empty sub 2 1); simpl;
      (eexists; split; [reflexivity|]); (split; [reflexivity|]);
      (split; [|split]); repeat constructor; simpl; try lia;
      rewrite bands_of_2; set_solver.
  - unfold _divide_subcuenca, expected_units, nonempty_bands. simpl.
    rewrite !filter_band_cons, filter_nil.
    destruct (band_is_empty sub 3 0), (band_is_empty sub 3 1),
      (band_is_empty sub 3 2); simpl;
      (eexists; split; [reflexivity|]); (split; [reflexivity|]);
      (split; [|split]); repeat constructor; simpl; try lia;
      rewrite bands_of_3; set_solver.
Qed.

(** The loop of [generate_hrus] from any running identifier: it does not
    raise, and the units it appends carry increasing identifiers from the
    running one on. *)
Lemma generate_loop_spec (s m t : float) (stats : gmap string glacier_stat)
    (start : Z) subs :
  ∃ hrus, generate_loop s m t stats start subs = Some hrus ∧
          (length hrus ≤ 3 * length subs)%nat ∧
          Forall (λ h, (start ≤ hru_id h < start + 3 * Z.of_nat (length subs))%Z) hrus ∧
          Forall (well_formed_unit subs) hrus ∧
          StronglySorted Z.lt (map hru_id hrus).
Proof.
  revert start. induction subs as [|sub subs IH]; intros start.
  - exists []. repeat split; constructor.
  - simpl.
    pose proof (decide_division_range s m t (area_m2 sub / 1e6)
                  (default {| count := 0; stat_area_km2 := 0; density := 0 |}
                           (stats !! COD_SUBC sub))) as Hn.
    destruct (decide_division _ _ _ _ _) as [n why]. simpl in Hn.
    destruct (divide_subcuenca_spec sub n start why Hn)
      as (units & -> & Hlen & Hunits & _ & Hsorted).
    destruct (IH (start + Z.of_nat n)%Z) as (more & -> & Hlen' & Hids & Hwf & Hsorted').
    assert (n ≤ 3)%nat as Hn3.
    { repeat (apply elem_of_cons in Hn as [-> | Hn]); [lia..|by apply elem_of_nil in Hn]. }
    assert (length units ≤ n)%nat as Hle.
    { rewrite Hlen. unfold expected_units, nonempty_bands. case_decide; [lia|].
      etrans; [apply length_filter|]. by rewrite length_seq. }
    simpl. eexists. split; [reflexivity|].
    rewrite length_app, map_app, !Forall_app. repeat split.
    + lia.
    + eapply Forall_impl; [exact Hunits|]. intros h (_ & _ & _ & _ & Hid & _). lia.
    + eapply Forall_impl; [exact Hids|]. simpl. intros h Hid. lia.
    + eapply Forall_impl; [exact Hunits|].
      intros h (Hc & Hnom & Hcu & Hdiv & _ & Hband). repeat split.
      * exists sub. repeat split; [left|done..].
      * by rewrite Hdiv.
      * by rewrite Hdiv.
    + eapply Forall_impl; [exact Hwf|].
      intros h ((sub' & Hin & Hrest) & Hdiv). split; [|done].
      exists sub'. split; [by right|done].
    + apply StronglySorted_app_2; [|done..].
      intros x1 x2 Hx1 Hx2.
      apply list_elem_of_fmap in Hx1 as (h1 & -> & Hh1).
      apply list_elem_of_fmap in Hx2 as (h2 & -> & Hh2).
      rewrite Forall_forall in Hunits, Hids.
      destruct (Hunits h1 Hh1) as (_ & _ & _ & _ & Hid1 & _).
      specialize (Hids h2 Hh2). simpl in Hids. lia.
Qed.

(** The statistics dict: the entry of a code is the one of the last
    sub-basin with that code. *)
Lemma glacier_stats_lookup subs (cod : string) :
  _calculate_glacier_stats subs !! cod
  = glacier_stat_of <$> last (filter (λ sub, COD_SUBC sub = cod) subs).
Proof.
  unfold _calculate_glacier_stats.
  induction subs as [|sub subs IH] using rev_ind; [reflexivity|].
  rewrite foldl_snoc, filter_app, last_app, filter_cons, filter_nil.
  case_decide as Hc; simpl.
  - by rewrite <- Hc, lookup_insert_eq.
  - by rewrite lookup_insert_ne.
Qed.

Lemma filter_all {A : Type} (P : A → Prop) `{∀ x, Decision (P x)} (l : list A) :
  Forall P l → filter P l = l.
Proof.
  induction 1 as [|x l Hx _ IH]; [reflexivity|].
  by rewrite filter_cons_True, IH.
Qed.

Lemma filter_none {A : Type} (P : A → Prop) `{∀ x, Decision (P x)} (l : list A) :
  Forall (λ x, ¬ P x) l → filter P l = [].
Proof.
  induction 1 as [|x l Hx _ IH]; [reflexivity|].
  by rewrite filter_cons_False.
Qed.

Lemma filter_unique_key {A K : Type} `{EqDecision K} (key : A → K) (l : list A) (a : A) :
  NoDup (map key l) → a ∈ l → filter (λ x, key x = key a) l = [a].
Proof.
  induction l as [|x l IH]; intros Hnd Hin; [by apply elem_of_nil in Hin|].
  simpl in Hnd. apply NoDup_cons in Hnd as [Hx Hnd].
  apply elem_of_cons in Hin as [-> | Hin].
  - rewrite filter_cons_True by done. f_equal.
    apply filter_none, Forall_forall. intros y Hy Heq.
    apply Hx. rewrite <- Heq. by apply (list_elem_of_fmap_2 key).
  - rewrite filter_cons_False; [by apply IH|].
    intros Heq. apply Hx. rewrite Heq. by apply (list_elem_of_fmap_2 key).
Qed.

Lemma glacier_stats_own subs sub :
  NoDup (map COD_SUBC subs) → sub ∈ subs →
  _calculate_glacier_stats subs !! COD_SUBC sub = Some (glacier_stat_of sub).
Proof.
  intros Hnd Hin. by rewrite glacier_stats_lookup, filter_unique_key.
Qed.

(** With distinct codes, the units of a sub-basin in the output are the
    list that [_divide_subcuenca] returned for it. *)
Lemma generate_loop_units (s m t : float) (stats : gmap string glacier_stat)
    (start : Z) subs hrus sub :
  NoDup (map COD_SUBC subs) → sub ∈ subs →
  generate_loop s m t stats start subs = Some hrus →
  ∃ start' : Z,
    (start ≤ start')%Z ∧
    let d := decide_division s m t (area_m2 sub / 1e6)
               (default {| count := 0; stat_area_km2 := 0; density := 0 |}
                        (stats !! COD_SUBC sub)) in
    _divide_subcuenca sub d.1 start' d.2 = Some (units_of (COD_SUBC sub) hrus).
Proof.
  revert start hrus. induction subs as [|x subs IH]; intros start hrus Hnd Hin;
    [by apply elem_of_nil in Hin|].
  simpl in Hnd. apply NoDup_cons in Hnd as [Hx Hnd]. simpl.
  pose proof (decide_division_range s m t (area_m2 x / 1e6)
                (default {| count := 0; stat_area_km2 := 0; density := 0 |}
                         (stats !! COD_SUBC x))) as Hn.
  destruct (decide_division s m t (area_m2 x / 1e6) _) as [n why] eqn:Hd.
  simpl in Hn.
  destruct (divide_subcuenca_spec x n start why Hn)
    as (units & Hunits & _ & Hcod & _).
  rewrite Hunits.
  destruct (generate_loop_spec s m t stats (start + Z.of_nat n) subs)
    as (more & Hmore & _ & _ & Hwf & _).
  rewrite Hmore. simpl. intros [= <-].
  unfold units_of. rewrite filter_app.
  apply elem_of_cons in Hin as [-> | Hin].
  - exists start. split; [lia|]. simpl. rewrite Hd. simpl.
    rewrite filter_all, (filter_none _ more), app_nil_r; [done| |].
    + eapply Forall_impl; [exact Hwf|].
      intros h ((sub' & Hin' & Hc & _) & _) Heq. apply Hx.
      rewrite <- Heq, Hc. by apply (list_elem_of_fmap_2 COD_SUBC).
    + eapply Forall_impl; [exact Hcod|]. by intros h (Hc & _).
  - destruct (IH (start + Z.of_nat n)%Z more Hnd Hin Hmore) as (start' & Hle & Hdiv).
    exists start'. split; [lia|]. simpl in *.
    rewrite filter_none; [exact Hdiv|].
    eapply Forall_impl; [exact Hcod|].
    intros h (Hc & _) Heq. apply Hx. rewrite <- Hc, Heq.
    by apply (list_elem_of_fmap_2 COD_SUBC).
Qed.

Lemma StronglySorted_lt_NoDup (l : list Z) : StronglySorted Z.lt l → NoDup l.
Proof.
  induction 1 as [|x l _ IH Hx]; constructor; [|done].
  intros Hin. rewrite Forall_forall in Hx. specialize (Hx x Hin). lia.
Qed.

(** A NaN compares below nothing. *)
Lemma nan_ltb (a c : float) : (a =? a) = false → (a <? c) = false.
Proof.
  rewrite FloatAxioms.eqb_spec, FloatAxioms.ltb_spec.
  destruct (Prim2SF a) as [sa|sa| |sa ma ea]; unfold SFeqb, SFltb, SFcompare.
  - destruct sa; discriminate.
  - destruct sa; discriminate.
  - reflexivity.
  - destruct sa; rewrite Z.compare_refl;
      change (Pos.compare_cont Eq ma ma) with (Pos.compare ma ma);
      rewrite Pos.compare_refl; discriminate.
Qed.

(** A sub-basin below the small threshold always yields its one unit. *)
Lemma generate_loop_small (s m t : float) (stats : gmap string glacier_stat)
    (start : Z) subs hrus sub :
  sub ∈ subs → (area_m2 sub / 1e6 <? s) = true →
  generate_loop s m t stats start subs = Some hrus → hrus ≠ [].
Proof.
  revert start hrus. induction subs as [|x subs IH]; intros start hrus Hin Hsmall;
    [by apply elem_of_nil in Hin|].
  simpl.
  destruct (decide_division s m t (area_m2 x / 1e6) _) as [n why] eqn:Hd.
  destruct (_divide_subcuenca x n start why) as [units|] eqn:Hunits;
    cbn [mbind option_bind]; [|discriminate].
  destruct (generate_loop s m t stats (start + Z.of_nat n) subs) as [more|] eqn:Hmore;
    cbn [mbind option_bind]; [|discriminate].
  intros [= <-]. apply elem_of_cons in Hin as [-> | Hin].
  - unfold decide_division in Hd. rewrite Hsmall in Hd. injection Hd as <- <-.
    unfold _divide_subcuenca in Hunits. rewrite decide_True in Hunits by done.
    by injection Hunits as <-.
  - intros [_ Hnil]%app_eq_nil. by apply (IH _ _ Hin Hsmall Hmore).
Qed.

(** A call of [generate_hrus] that finds no entry runs the body. *)
Lemma generate_hrus_miss (now : float) (cache : cache_data hrus_key (list hru))
    subs (s m t : float) hrus cache' :
  cache_read hrus_key_eqb now (s, m, t) cache = None →
  generate_hrus now cache subs s m t = (Some hrus, cache') →
  generate_loop s m t (_calculate_glacier_stats subs) 0 subs = Some hrus ∧
  hrus ≠ [] ∧
  cache' = cache_write hrus_key_eqb now (s, m, t) hrus cache.
Proof.
  intros Hmiss. unfold generate_hrus. rewrite cache_data_call_miss by done.
  unfold generate_hrus_body.
  destruct (generate_loop s m t (_calculate_glacier_stats subs) 0 subs) as [[|h l]|];
    cbn [mbind option_bind]; intros [= <- <-]; done.
Qed.

(** X1.  A call of [generate_hrus] that finds no entry in the cache runs
    the generator.  On an empty sub-basin table it raises (the final table
    cannot be built from no unit) and stores nothing.  It returns a table
    as soon as one sub-basin is below the small threshold, and stores it.
    A returned table has at least one unit and at most three per
    sub-basin; until the entry is an hour old, every call with the same
    thresholds returns that table, whatever sub-basin and glacier tables
    it is given; afterwards the generator runs again. *)
Theorem generate_hrus_first_call (now : float)
    (cache : cache_data hrus_key (list hru)) subs (s m t : float) :
  cache_read hrus_key_eqb now (s, m, t) cache = None →
  (subs = [] → generate_hrus now cache subs s m t = (None, cache)) ∧
  ((∃ sub, sub ∈ subs ∧ (area_m2 sub / 1e6 <? s) = true) →
     ∃ hrus, generate_hrus now cache subs s m t
             = (Some hrus, cache_write hrus_key_eqb now (s, m, t) hrus cache)) ∧
  (∀ hrus cache',
     generate_hrus now cache subs s m t = (Some hrus, cache') →
     (1 ≤ length hrus ≤ 3 * length subs)%nat ∧
     cache' = cache_write hrus_key_eqb now (s, m, t) hrus cache ∧
     ∀ (later : float) subs',
       ((later <? now + ttl) = true →
          generate_hrus later cache' subs' s m t = (Some hrus, cache')) ∧
       ((later <? now + ttl) = false →
          (generate_hrus later cache' subs' s m t).1 = generate_hrus_body subs' s m t)).
Proof.
  intros Hmiss. split; [|split].
  - intros ->. unfold generate_hrus. by rewrite cache_data_call_miss.
  - intros (sub & Hin & Hsmall). unfold generate_hrus.
    rewrite cache_data_call_miss by done. unfold generate_hrus_body.
    destruct (generate_loop_spec s m t (_calculate_glacier_stats subs) 0 subs)
      as (hrus & Hrun & _).
    rewrite Hrun. cbn [mbind option_bind].
    pose proof (generate_loop_small _ _ _ _ _ _ _ _ Hin Hsmall Hrun) as Hne.
    destruct hrus as [|h l]; [done|]. by eexists.
  - intros hrus cache' Hcall.
    destruct (generate_hrus_miss _ _ _ _ _ _ _ _ Hmiss Hcall) as (Hrun & Hne & ->).
    destruct (generate_loop_spec s m t (_calculate_glacier_stats subs) 0 subs)
      as (hrus' & Hrun' & Hlen & _).
    rewrite Hrun in Hrun'. injection Hrun' as <-.
    split; [|split; [reflexivity|]].
    + destruct hrus; [done|]. simpl in *. lia.
    + intros later subs'. unfold generate_hrus.
      apply cache_data_call_after_write, hrus_key_eqb_refl.
Qed.

Lemma generate_hrus_first_call_witness :
  ([example_subcuenca "1110" 30 0 0; island_subcuenca] = [] →
   generate_hrus 0 [] [example_subcuenca "1110" 30 0 0; island_subcuenca] 50 200 5
   = (None, [])) ∧
  ((∃ sub, sub ∈ [example_subcuenca "1110" 30 0 0; island_subcuenca] ∧
           (area_m2 sub / 1e6 <? 50) = true) →
   ∃ hrus,
     generate_hrus 0 [] [example_subcuenca "1110" 30 0 0; island_subcuenca] 50 200 5
     = (Some hrus, cache_write hrus_key_eqb 0 (50, 200, 5) hrus [])) ∧
  (∀ hrus cache',
     generate_hrus 0 [] [example_subcuenca "1110" 30 0 0; island_subcuenca] 50 200 5
     = (Some hrus, cache') →
     (1 ≤ length hrus ≤ 3 * 2)%nat ∧
     cache' = cache_write hrus_key_eqb 0 (50, 200, 5) hrus [] ∧
     ∀ (later : float) subs',
       ((later <? 0 + ttl) = true →
          generate_hrus later cache' subs' 50 200 5 = (Some hrus, cache')) ∧
       ((later <? 0 + ttl) = false →
          (generate_hrus later cache' subs' 50 200 5).1
          = generate_hrus_body subs' 50 200 5)).
Proof.
  apply (generate_hrus_first_call 0 []
           [example_subcuenca "1110" 30 0 0; island_subcuenca] 50 200 5).
  reflexivity.
Defined.

(** X2.  The identifiers of the units that a call of [generate_hrus]
    generates (a call that finds no entry in the cache) are strictly
    increasing in table order, hence pairwise distinct, and lie between 0
    and three times the number of sub-basins, also when empty bands are
    dropped. *)
Theorem generate_hrus_ids_increasing (now : float)
    (cache cache' : cache_data hrus_key (list hru)) subs (s m t : float) hrus :
  cache_read hrus_key_eqb now (s, m, t) cache = None →
  generate_hrus now cache subs s m t = (Some hrus, cache') →
  StronglySorted Z.lt (map hru_id hrus) ∧
  NoDup (map hru_id hrus) ∧
  Forall (λ h, (0 ≤ hru_id h < 3 * Z.of_nat (length subs))%Z) hrus.
Proof.
  intros Hmiss Hcall.
  destruct (generate_hrus_miss _ _ _ _ _ _ _ _ Hmiss Hcall) as (Hrun & _).
  destruct (generate_loop_spec s m t (_calculate_glacier_stats subs) 0 subs)
    as (hrus' & Hrun' & _ & Hids & _ & Hsorted).
  rewrite Hrun' in Hrun. injection Hrun as <-.
  split; [done|]. split; [by apply StronglySorted_lt_NoDup|].
  eapply Forall_impl; [exact Hids|]. simpl. intros h Hid. lia.
Qed.

Lemma generate_hrus_ids_increasing_witness :
  let call := generate_hrus 0 [] [example_subcuenca "1110" 120 1 1; island_subcuenca]
                            50 200 5 in
  StronglySorted Z.lt (map hru_id (default [] call.1)) ∧
  NoDup (map hru_id (default [] call.1)) ∧
  Forall (λ h, (0 ≤ hru_id h < 3 * Z.of_nat 2)%Z) (default [] call.1).
Proof.
  apply (generate_hrus_ids_increasing 0 []
           (generate_hrus 0 [] [example_subcuenca "1110" 120 1 1; island_subcuenca]
                          50 200 5).2
           [example_subcuenca "1110" 120 1 1; island_subcuenca] 50 200 5).
  - reflexivity.
  - vm_compute. reflexivity.
Defined.

(** X3.  Every unit that a call of [generate_hrus] generates (a call that
    finds no entry in the cache) carries the code, the name and the basin
    code of one of the sub-basins of the call, a number of divisions
    between 1 and 3, and a band name of that division: [Única] for one
    division, [Baja] or [Alta] for two, [Baja], [Media] or [Alta] for
    three. *)
Theorem generate_hrus_units_well_formed (now : float)
    (cache cache' : cache_data hrus_key (list hru)) subs (s m t : float) hrus :
  cache_read hrus_key_eqb now (s, m, t) cache = None →
  generate_hrus now cache subs s m t = (Some hrus, cache') →
  Forall (well_formed_unit subs) hrus.
Proof.
  intros Hmiss Hcall.
  destruct (generate_hrus_miss _ _ _ _ _ _ _ _ Hmiss Hcall) as (Hrun & _).
  destruct (generate_loop_spec s m t (_calculate_glacier_stats subs) 0 subs)
    as (hrus' & Hrun' & _ & _ & Hwf & _).
  rewrite Hrun' in Hrun. by injection Hrun as <-.
Qed.

Lemma generate_hrus_units_well_formed_witness :
  Forall (well_formed_unit [example_subcuenca "1110" 120 1 1; island_subcuenca])
    (default [] (generate_hrus 0 [] [example_subcuenca "1110" 120 1 1;
                                     island_subcuenca] 50 200 5).1).
Proof.
  apply (generate_hrus_units_well_formed 0 []
           (generate_hrus 0 [] [example_subcuenca "1110" 120 1 1; island_subcuenca]
                          50 200 5).2
           [example_subcuenca "1110" 120 1 1; island_subcuenca] 50 200 5).
  - reflexivity.
  - vm_compute. reflexivity.
Defined.

(** With distinct codes, the units of a sub-basin in a generated table. *)
Lemma generate_hrus_units_aux (now : float)
    (cache cache' : cache_data hrus_key (list hru)) subs (s m t : float) hrus sub :
  cache_read hrus_key_eqb now (s, m, t) cache = None →
  NoDup (map COD_SUBC subs) → sub ∈ subs →
  generate_hrus now cache subs s m t = (Some hrus, cache') →
  length (units_of (COD_SUBC sub) hrus) = expected_units sub (divisions_of s m t sub) ∧
  (length (units_of (COD_SUBC sub) hrus) ≤ divisions_of s m t sub)%nat ∧
  Forall (λ h, n_divisions h = divisions_of s m t sub) (units_of (COD_SUBC sub) hrus).
Proof.
  intros Hmiss Hnd Hin Hcall.
  destruct (generate_hrus_miss _ _ _ _ _ _ _ _ Hmiss Hcall) as (Hrun & _).
  destruct (generate_loop_units s m t _ 0 subs hrus sub Hnd Hin Hrun)
    as (start & _ & Hdiv).
  rewrite (glacier_stats_own subs sub Hnd Hin) in Hdiv. simpl in Hdiv.
  fold (divisions_of s m t sub) in Hdiv.
  destruct (divide_subcuenca_spec sub (divisions_of s m t sub) start
              (decide_division s m t (area_m2 sub / 1e6) (glacier_stat_of sub)).2)
    as (units & Hunits & Hlen & Hu & _).
  { apply decide_division_range. }
  rewrite Hdiv in Hunits. injection Hunits as <-.
  split; [done|]. split.
  - rewrite Hlen. unfold expected_units, nonempty_bands.
    pose proof (decide_division_range s m t (area_m2 sub / 1e6) (glacier_stat_of sub)) as Hn.
    fold (divisions_of s m t sub) in Hn.
    case_decide as H1; [lia|].
    etrans; [apply length_filter|]. by rewrite length_seq.
  - eapply Forall_impl; [exact Hu|]. by intros h (_ & _ & _ & Hn & _).
Qed.


(** X4.  When the sub-basins have distinct codes and a call of
    [generate_hrus] generates the table (it finds no entry in the cache),
    the units of a sub-basin in the table all carry the number of
    divisions that the decision table gives for it, and there is one unit
    for one division, else one unit per band that meets the geometry:
    never more units than divisions, and fewer when a band is empty. *)
Theorem generate_hrus_units_of_subcuenca (now : float)
    (cache cache' : cache_data hrus_key (list hru)) subs (s m t : float) hrus sub :
  cache_read hrus_key_eqb now (s, m, t) cache = None →
  NoDup (map COD_SUBC subs) → sub ∈ subs →
  generate_hrus now cache subs s m t = (Some hrus, cache') →
  length (units_of (COD_SUBC sub) hrus) = expected_units sub (divisions_of s m t sub) ∧
  (length (units_of (COD_SUBC sub) hrus) ≤ divisions_of s m t sub)%nat ∧
  Forall (λ h, n_divisions h = divisions_of s m t sub) (units_of (COD_SUBC sub) hrus).
Proof. apply generate_hrus_units_aux. Qed.

Lemma generate_hrus_units_of_subcuenca_witness :
  let hrus := default [] (generate_hrus 0 [] [example_subcuenca "1110" 120 1 1;
                                              island_subcuenca] 50 200 5).1 in
  length (units_of "1130" hrus)
    = expected_units island_subcuenca (divisions_of 50 200 5 island_subcuenca) ∧
  (length (units_of "1130" hrus) ≤ divisions_of 50 200 5 island_subcuenca)%nat ∧
  Forall (λ h, n_divisions h = divisions_of 50 200 5 island_subcuenca)
    (units_of "1130" hrus).
Proof.
  apply (generate_hrus_units_of_subcuenca 0 []
           (generate_hrus 0 [] [example_subcuenca "1110" 120 1 1; island_subcuenca]
                          50 200 5).2
           [example_subcuenca "1110" 120 1 1; island_subcuenca] 50 200 5 _
           island_subcuenca).
  - reflexivity.
  - apply (bool_decide_unpack _). vm_compute. exact I.
  - right. left.
  - vm_compute. reflexivity.
Defined.

(** The decision of the code is the decision table of the specification. *)
Lemma divisions_of_spec sub : divisions_of 50 200 5 sub = spec_divisions sub.
Proof.
  unfold divisions_of, spec_divisions, spec_n_div, spec_density, decide_division.
  change (count (glacier_stat_of sub)) with (glacier_count sub).
  destruct (area_m2 sub / 1e6 <? 50); [reflexivity|].
  destruct (area_m2 sub / 1e6 <? 200).
  - by case_decide.
  - destruct (5 <? density (glacier_stat_of sub)); [reflexivity|]. by case_decide.
Qed.

(** A division in two or three bands that are all met by the geometry
    yields one unit per band. *)
Lemma expected_units_full sub (n : nat) :
  (∀ i, (i < n)%nat → band_is_empty sub n i = false) →
  n ∈ [1%nat; 2%nat; 3%nat] → expected_units sub n = n.
Proof.
  intros Hfull Hn. unfold expected_units, nonempty_bands.
  case_decide as H1; [done|].
  rewrite filter_all; [by rewrite length_seq|].
  apply Forall_forall. intros i Hi%elem_of_seq. rewrite Hfull by lia. done.
Qed.

(** C6, as the specification states it: a sub-basin of 300 km2 with a
    glacier density above 5% would yield 3 units.  [island_subcuenca] has
    300 km2 and a glacier density of 10%, and yields 2 units: its middle
    band meets no part of the geometry and is dropped. *)
Lemma generate_hrus_drops_empty_band :
  ¬ (∀ sub hrus cache',
       (200 <=? area_m2 sub / 1e6) = true → (5 <? spec_density sub) = true →
       generate_hrus 0 [] [sub] 50 200 5 = (Some hrus, cache') →
       length hrus = 3%nat).
Proof.
  intros H.
  pose proof (H island_subcuenca
                (default [] (generate_hrus 0 [] [island_subcuenca] 50 200 5).1)
                (generate_hrus 0 [] [island_subcuenca] 50 200 5).2) as Hthree.
  assert (length (default [] (generate_hrus 0 [] [island_subcuenca] 50 200 5).1)
          = 3%nat) as Hlen.
  { apply Hthree; vm_compute; reflexivity. }
  vm_compute in Hlen. discriminate.
Qed.

(** C6, amended.  When [generate_hrus] generates the table (the call finds
    no entry in the cache) with the default thresholds and the sub-basins
    have distinct codes, every sub-basin gets the number of divisions of
    the decision table: 1 below 50 km2 whatever the glaciers; from 50 to
    200 km2, 1 without intersecting glaciers and 2 with at least one; from
    200 km2 on, 3 when the glacier density exceeds 5% and 2 otherwise.  Its
    units in the table all carry that number, and there is one unit per
    division whose band meets the geometry: as many units as divisions
    when no band is empty, fewer otherwise.  So, for sub-basins in one
    piece, 40 km2 with glaciers yields 1 unit, 120 km2 without glaciers 1,
    120 km2 with a glacier 2, 300 km2 with density 10% yields 3, and
    300 km2 with density 1% or without glaciers 2. *)
Theorem generate_hrus_decision_table :
  (∀ (now : float) (cache cache' : cache_data hrus_key (list hru)) subs hrus sub,
     cache_read hrus_key_eqb now (50, 200, 5) cache = None →
     NoDup (map COD_SUBC subs) → sub ∈ subs →
     generate_hrus now cache subs 50 200 5 = (Some hrus, cache') →
     let units := units_of (COD_SUBC sub) hrus in
     Forall (λ h, n_divisions h = spec_divisions sub) units ∧
     length units = length (if decide (spec_divisions sub = 1%nat) then [0%nat]
                            else nonempty_bands sub (spec_divisions sub)) ∧
     (length units ≤ spec_divisions sub)%nat ∧
     ((∀ i, (i < spec_divisions sub)%nat →
            band_is_empty sub (spec_divisions sub) i = false) →
      length units = spec_divisions sub)) ∧
  length <$> (generate_hrus 0 [] [example_subcuenca "1110" 40 2 1] 50 200 5).1
    = Some 1%nat ∧
  length <$> (generate_hrus 0 [] [example_subcuenca "1110" 120 0 0] 50 200 5).1
    = Some 1%nat ∧
  length <$> (generate_hrus 0 [] [example_subcuenca "1110" 120 1 1] 50 200 5).1
    = Some 2%nat ∧
  length <$> (generate_hrus 0 [] [example_subcuenca "1110" 300 2 30] 50 200 5).1
    = Some 3%nat ∧
  length <$> (generate_hrus 0 [] [example_subcuenca "1110" 300 2 3] 50 200 5).1
    = Some 2%nat ∧
  length <$> (generate_hrus 0 [] [example_subcuenca "1110" 300 0 0] 50 200 5).1
    = Some 2%nat.
Proof.
  split; [|repeat split; vm_compute; reflexivity].
  intros now cache cache' subs hrus sub Hmiss Hnd Hin Hcall units.
  destruct (generate_hrus_units_aux now cache cache' subs 50 200 5 hrus sub
              Hmiss Hnd Hin Hcall) as (Hlen & Hle & Hdiv).
  rewrite divisions_of_spec in Hlen, Hle, Hdiv.
  pose proof (decide_division_range 50 200 5 (area_m2 sub / 1e6) (glacier_stat_of sub))
    as Hrange.
  fold (divisions_of 50 200 5 sub) in Hrange. rewrite divisions_of_spec in Hrange.
  split; [exact Hdiv|]. split; [|split; [exact Hle|]].
  - unfold units. rewrite Hlen. unfold expected_units. by case_decide.
  - intros Hfull. unfold units. rewrite Hlen. by apply expected_units_full.
Qed.

Lemma generate_hrus_decision_table_witness :
  let hrus := default [] (generate_hrus 0 [] [example_subcuenca "1110" 120 1 1;
                                              island_subcuenca] 50 200 5).1 in
  let units := units_of (COD_SUBC island_subcuenca) hrus in
  Forall (λ h, n_divisions h = spec_divisions island_subcuenca) units ∧
  length units = length (if decide (spec_divisions island_subcuenca = 1%nat) then [0%nat]
                         else nonempty_bands island_subcuenca
                                (spec_divisions island_subcuenca)) ∧
  (length units ≤ spec_divisions island_subcuenca)%nat ∧
  ((∀ i, (i < spec_divisions island_subcuenca)%nat →
         band_is_empty island_subcuenca (spec_divisions island_subcuenca) i = false) →
   length units = spec_divisions island_subcuenca).
Proof.
  apply (proj1 generate_hrus_decision_table 0 []
           (generate_hrus 0 [] [example_subcuenca "1110" 120 1 1; island_subcuenca]
                          50 200 5).2
           [example_subcuenca "1110" 120 1 1; island_subcuenca] _ island_subcuenca).
  - reflexivity.
  - apply (bool_decide_unpack _). vm_compute. exact I.
  - right. left.
  - vm_compute. reflexivity.
Defined.

(** X5.  [_calculate_glacier_stats] keeps one entry per sub-basin code: the
    entry of a code is computed from the last sub-basin of the table with
    that code (a later row overwrites an earlier one), and a code of no
    sub-basin has no entry. *)
Theorem calculate_glacier_stats_last_wins subs (cod : string) :
  _calculate_glacier_stats subs !! cod
  = glacier_stat_of <$> last (filter (λ sub, COD_SUBC sub = cod) subs).
Proof. apply glacier_stats_lookup. Qed.

(** X6.  The decision of [generate_hrus] with the default thresholds
    (50 km2, 200 km2, 5 %): an area below 50 gives one division whatever
    the glaciers; an area in [50, 200) gives two divisions with at least
    one glacier and one without; an area of 200 or more gives three
    divisions when the glacier density exceeds 5 % and two otherwise; an
    area that is not a number is treated like an area of 200 or more. *)
Theorem decide_division_table (area : float) (stats : glacier_stat) :
  ((area <? 50) = true → (decide_division 50 200 5 area stats).1 = 1%nat) ∧
  (in_range 50 200 area = true →
     (decide_division 50 200 5 area stats).1
     = if decide (0 < count stats)%nat then 2%nat else 1%nat) ∧
  ((200 <=? area) = true →
     (decide_division 50 200 5 area stats).1
     = if 5 <? density stats then 3%nat else 2%nat) ∧
  ((area =? area) = false →
     (decide_division 50 200 5 area stats).1
     = if 5 <? density stats then 3%nat else 2%nat).
Proof.
  unfold decide_division, in_range. repeat split.
  - by intros ->.
  - intros [H1 H2]%andb_prop.
    rewrite (FloatOrder.leb_excludes_ltb area 50 50 H1 eq_refl), H2.
    by case_decide.
  - intros H1.
    rewrite (FloatOrder.leb_excludes_ltb area 200 50 H1 eq_refl),
      (FloatOrder.leb_excludes_ltb area 200 200 H1 eq_refl).
    destruct (5 <? density stats); [done|]. by case_decide.
  - intros Hnan. rewrite !(nan_ltb area _ Hnan).
    destruct (5 <? density stats); [done|]. by case_decide.
Qed.

Lemma decide_division_table_witness :
  (decide_division 50 200 5 120 (glacier_stat_of (example_subcuenca "1110" 120 1 1))).1
  = 2%nat.
Proof.
  apply (proj1 (proj2 (decide_division_table 120
                         (glacier_stat_of (example_subcuenca "1110" 120 1 1))))).
  vm_compute. reflexivity.
Defined.

End Generator.

(** ** The records of the weather service *)

Section Records.
Context `{External}.

Lemma empty_climate_dict_keys (k : string) :
  k ∈ climate_schema → k ≠ "elevation" → is_Some (_empty_climate_dict !! k).
Proof.
  intros Hk Hne. unfold climate_schema in Hk.
  repeat (apply elem_of_cons in Hk as [-> | Hk]; [by (eexists; reflexivity) || done|]).
  by apply elem_of_nil in Hk.
Qed.

Lemma nonempty_record (record : gmap string pyval) (k : string) :
  is_Some (record !! k) → size record ≠ 0%nat.
Proof.
  intros [v Hv] Hsize. apply map_size_empty_iff in Hsize. subst record.
  by rewrite lookup_empty in Hv.
Qed.

(** The regular return of the [try] block has exactly the keys of the
    schema. *)
Lemma process_regular_keys (data : pyval) (record : gmap string pyval) :
  process_meteo_try data = Some record →
  record = _empty_climate_dict ∨
  (dom record = list_to_set climate_schema ∧
   ∀ k, k ∈ climate_schema → is_Some (record !! k)).
Proof.
  unfold process_meteo_try. intros Hrun.
  repeat match type of Hrun with
  | (mbind _ ?m) = Some _ =>
      let E := fresh "E" in destruct m eqn:E; simpl in Hrun; [|discriminate]
  | (if ?b then _ else _) = Some _ => destruct b; [injection Hrun as <-; by left|]
  end.
  injection Hrun as <-. right. split.
  - rewrite ?dom_insert_L, ?dom_empty_L. reflexivity.
  - intros k Hk. unfold climate_schema in Hk.
    repeat (apply elem_of_cons in Hk as [-> | Hk]; [by (eexists; reflexivity)|]).
    by apply elem_of_nil in Hk.
Qed.

(** X7.  [_process_meteo_json] returns, for every payload, either the
    empty record or a record whose keys are exactly the fourteen fields of
    the schema; either way every field but [elevation] is present and the
    record is not an empty dict, so that the test [if result:] of
    [get_climate_data] never drops a record. *)
Theorem process_meteo_json_keys (data : pyval) :
  (_process_meteo_json data = _empty_climate_dict ∨
   dom (_process_meteo_json data) = list_to_set climate_schema) ∧
  (∀ k, k ∈ climate_schema → k ≠ "elevation" →
        is_Some (_process_meteo_json data !! k)) ∧
  size (_process_meteo_json data) ≠ 0%nat.
Proof.
  unfold _process_meteo_json.
  destruct (process_meteo_try data) as [record|] eqn:Hrun.
  - destruct (process_regular_keys data record Hrun) as [-> | [Hdom Hall]].
    + split; [by left|]. split; [apply empty_climate_dict_keys|].
      by apply (nonempty_record _ "temp_current").
    + split; [by right|]. split; [by auto|].
      apply (nonempty_record _ "temp_current"), Hall. left.
  - split; [by left|]. split; [apply empty_climate_dict_keys|].
    by apply (nonempty_record _ "temp_current").
Qed.

Lemma process_meteo_json_nonempty (data : pyval) :
  size (_process_meteo_json data) ≠ 0%nat.
Proof.
  unfold _process_meteo_json.
  destruct (process_meteo_try data) as [record|] eqn:Hrun.
  - destruct (process_regular_keys data record Hrun) as [-> | [Hdom Hall]].
    + by apply (nonempty_record _ "temp_current").
    + apply (nonempty_record _ "temp_current"), Hall. left.
  - by apply (nonempty_record _ "temp_current").
Qed.

Lemma fetch_batch_nonempty (lats lons : list float) :
  Forall (λ r, size r ≠ 0%nat) (_fetch_openmeteo_batch lats lons).
Proof.
  unfold _fetch_openmeteo_batch.
  destruct (forecast_api lats lons) as [data|];
    apply Forall_fmap, Forall_forall; intros; apply process_meteo_json_nonempty.
Qed.

(** The inner loop of [get_climate_data] on records that are all kept:
    the records get the identifiers in order, and [batch_ids[j]] raises
    when the records outnumber the identifiers. *)
Lemma tag_results_zip (results : list (gmap string pyval)) (ids : list Z) (j : nat) :
  Forall (λ r, size r ≠ 0%nat) results → (j ≤ length ids)%nat →
  tag_results j results ids
  = if decide (j + length results ≤ length ids)%nat
    then Some (zip_with (λ r id, <["grid_id" := PInt id]> r) results (drop j ids))
    else None.
Proof.
  intros Hall. revert j. induction Hall as [|r results Hr _ IH]; intros j Hj; simpl.
  - rewrite decide_True by lia. reflexivity.
  - destruct (decide (size r = 0%nat)) as [|_]; [done|].
    destruct (ids !! j) as [id|] eqn:Hid; simpl.
    + apply lookup_lt_Some in Hid as Hlt. rewrite IH by lia.
      rewrite (drop_S _ _ _ Hid).
      destruct (decide (S j + length results ≤ length ids)%nat).
      * rewrite decide_True by lia. reflexivity.
      * rewrite decide_False by lia. reflexivity.
    + apply lookup_ge_None in Hid. rewrite decide_False by lia. reflexivity.
Qed.

Lemma zip_with_tagged (results : list (gmap string pyval)) (ids : list Z) :
  length results = length ids →
  Forall2 (λ r k, r !! "grid_id" = Some (PInt k))
          (zip_with (λ r id, <["grid_id" := PInt id]> r) results ids) ids.
Proof.
  revert ids. induction results as [|r results IH]; intros [|id ids] Hlen;
    try discriminate; simpl; constructor.
  - apply lookup_insert_eq.
  - apply IH. simpl in Hlen. lia.
Qed.

(** X8.  One request of [get_climate_data] (at most 50 units): when the
    weather service returns more records than there are units, the stage
    raises ([batch_ids[j]] is out of range); otherwise the records are
    given, in order, to the first units, and the units beyond the end of
    the answer get no climate record. *)
Theorem get_climate_records_one_batch (lats lons : list float) (ids : list Z) :
  (0 < length lats ≤ 50)%nat → length lons = length lats → length ids = length lats →
  get_climate_records lats lons ids
  = if decide (length (_fetch_openmeteo_batch lats lons) ≤ length ids)%nat
    then Some (zip_with (λ r id, <["grid_id" := PInt id]> r)
                        (_fetch_openmeteo_batch lats lons) ids)
    else None.
Proof.
  intros [Hpos Hle] Hlons Hids. unfold get_climate_records, range_step, batch_size.
  replace (Nat.div (length lats + (50 - 1)) 50) with 1%nat.
  2:{ apply (Nat.div_unique _ 50 1 (length lats - 1)); lia. }
  simpl. unfold slice_from. rewrite !drop_0, !take_ge by lia.
  rewrite tag_results_zip by (apply fetch_batch_nonempty || lia).
  rewrite drop_0. simpl.
  destruct (decide _); simpl; [by rewrite app_nil_r|done].
Qed.

(** X9.  When every answer of the weather service holds as many records
    as the request has locations, every unit gets a climate record, in the
    order of the unit table, whatever the number of units: cutting the
    requests in batches of 50 loses and reorders nothing. *)
Theorem get_climate_records_complete (lats lons : list float) (ids : list Z) :
  length lats = length ids →
  (∀ la lo, length (_fetch_openmeteo_batch la lo) = length la) →
  ∃ records, get_climate_records lats lons ids = Some records ∧
             Forall2 (λ r k, r !! "grid_id" = Some (PInt k)) records ids.
Proof.
  intros Hlen Hfull. unfold get_climate_records.
  assert (Hslice : ∀ i, length (_fetch_openmeteo_batch (slice_from i batch_size lats)
                                                       (slice_from i batch_size lons))
                        = length (slice_from i batch_size ids)).
  { intros i. rewrite Hfull. unfold slice_from.
    by rewrite !length_take, !length_drop, Hlen. }
  rewrite (mapM_ext_Some _
             (λ i, zip_with (λ r id, <["grid_id" := PInt id]> r)
                     (_fetch_openmeteo_batch (slice_from i batch_size lats)
                                             (slice_from i batch_size lons))
                     (slice_from i batch_size ids))).
  - simpl. eexists. split; [reflexivity|].
    assert (Hgen : ∀ starts,
              Forall2 (λ r k, r !! "grid_id" = Some (PInt k))
                (concat (map (λ i, zip_with (λ r id, <["grid_id" := PInt id]> r)
                                     (_fetch_openmeteo_batch
                                        (slice_from i batch_size lats)
                                        (slice_from i batch_size lons))
                                     (slice_from i batch_size ids)) starts))
                (concat (map (λ i, slice_from i batch_size ids) starts))).
    { induction starts as [|i starts IH]; simpl; [constructor|].
      apply Forall2_app; [|exact IH]. apply zip_with_tagged, Hslice. }
    specialize (Hgen (range_step (length lats) batch_size)).
    unfold range_step in Hgen at 2.
    rewrite concat_slices in Hgen; [exact Hgen|unfold batch_size; lia|].
    rewrite <- Hlen. apply range_step_covers.
  - intros i _. rewrite tag_results_zip by (apply fetch_batch_nonempty || lia).
    rewrite drop_0, decide_True; [reflexivity|]. rewrite Hslice. lia.
Qed.

Lemma stages_without_climate_aux (self : calculator) (melt_df : option (list melt_row))
    (runoff_df : list runoff_row) :
  grid_rows (grids_gdf self) ≠ [] →
  climate_data self = None ∨ climate_data self = Some [] →
  calculate_melt self = Some None ∧
  calculate_runoff self melt_df = None ∧
  calculate_flood_risk self melt_df runoff_df = None ∧
  calculate_projected_risk_3d self melt_df runoff_df = None.
Proof.
  intros Hgrids Hclimate.
  unfold calculate_melt, calculate_runoff, calculate_flood_risk,
    calculate_projected_risk_3d.
  destruct (grid_rows (grids_gdf self)) as [|g grids]; [done|]. simpl.
  unfold runoff_of, risk_of, projection_of.
  destruct (select melt_grid_id melt_df (grid_id g)),
    (select runoff_grid_id (Some runoff_df) (grid_id g));
    destruct Hclimate as [-> | ->]; done.
Qed.

(** X11.  The stages after the climate stage rely on its table: when
    [climate_data] is [None] or an empty frame and there is at least one
    unit, [calculate_melt] returns [None] (no table), while
    [calculate_runoff], [calculate_flood_risk] and
    [calculate_projected_risk_3d] raise on the selection of the unit's
    climate rows. *)
Theorem stages_without_climate (self : calculator) (melt_df : option (list melt_row))
    (runoff_df : list runoff_row) :
  grid_rows (grids_gdf self) ≠ [] →
  climate_data self = None ∨ climate_data self = Some [] →
  calculate_melt self = Some None ∧
  calculate_runoff self melt_df = None ∧
  calculate_flood_risk self melt_df runoff_df = None ∧
  calculate_projected_risk_3d self melt_df runoff_df = None.
Proof. apply stages_without_climate_aux. Qed.

(** X12.  When the weather service answers every request with an empty
    list, the climate table is an empty frame and the full analysis raises
    for every non-empty unit table: no unit gets default values. *)
Theorem empty_answer_analysis_raises (glaciers : glaciers_frame) (grids : grids_frame) :
  grid_rows grids ≠ [] →
  (∀ la lo, forecast_api la lo = Some (PList [])) →
  get_climate_data (grid_rows grids) = Some [] ∧
  run_full_analysis glaciers grids = None.
Proof.
  intros Hgrids Hempty.
  assert (get_climate_data (grid_rows grids) = Some []) as Hclimate.
  { unfold get_climate_data, get_climate_records.
    rewrite (mapM_ext_Some _ (λ _, [])).
    - simpl. induction (range_step _ _) as [|i l IH]; [reflexivity|exact IH].
    - intros i _. unfold _fetch_openmeteo_batch. by rewrite Hempty. }
  split; [done|]. unfold run_full_analysis. rewrite Hclimate.
  cbn [mbind option_bind].
  set (self := {| glaciers_gdf := Some glaciers; grids_gdf := grids;
                  climate_data := Some [];
                  topo_data := Some (get_topography_for_grids (grid_rows grids)) |}).
  destruct (stages_without_climate_aux self None [] Hgrids (or_intror eq_refl)) as (-> & Hrunoff & _).
  cbn [mbind option_bind]. by rewrite Hrunoff.
Qed.

End Records.

Lemma get_climate_records_one_batch_witness :
  let results := _fetch_openmeteo_batch (H := short_answer_services)
                   [-45.5; -46.0] [-72.0; -72.5] in
  let ids := [3; 4]%Z in
  get_climate_records (H := short_answer_services) [-45.5; -46.0] [-72.0; -72.5] ids
  = if decide (length results ≤ length ids)%nat
    then Some (zip_with (λ r id, <["grid_id" := PInt id]> r) results ids)
    else None.
Proof.
  apply (get_climate_records_one_batch (H := short_answer_services)
           [-45.5; -46.0] [-72.0; -72.5] [3; 4]%Z).
  - simpl. lia.
  - reflexivity.
  - reflexivity.
Defined.

Lemma get_climate_records_complete_witness :
  ∃ records,
    get_climate_records (H := full_answer_services) [-45.5; -46.0] [-72.0; -72.5] [3; 4]%Z
      = Some records ∧
    Forall2 (λ r k, r !! "grid_id" = Some (PInt k)) records [3; 4]%Z.
Proof.
  apply (get_climate_records_complete (H := full_answer_services)
           [-45.5; -46.0] [-72.0; -72.5] [3; 4]%Z).
  - reflexivity.
  - intros la lo. unfold _fetch_openmeteo_batch. simpl. by rewrite !length_map.
Defined.

(** X10.  When every request of the weather service fails, every unit
    still gets a record, in the order of the unit table: the empty record
    with the unit's own [grid_id]. *)
Theorem failed_requests_keep_every_unit `{External} (lats lons : list float)
    (ids : list Z) :
  length lats = length ids →
  (∀ la lo, forecast_api la lo = None) →
  get_climate_records lats lons ids
  = Some (map (λ id, <["grid_id" := PInt id]> _empty_climate_dict) ids).
Proof. apply get_climate_records_failure. Qed.

Lemma failed_requests_keep_every_unit_witness :
  get_climate_records (H := offline_services) [-45.5; -46.0] [-72.0; -72.5] [3; 4]%Z
  = Some (map (λ id, <["grid_id" := PInt id]> _empty_climate_dict) [3; 4]%Z).
Proof.
  apply (failed_requests_keep_every_unit (H := offline_services)
           [-45.5; -46.0] [-72.0; -72.5] [3; 4]%Z).
  - reflexivity.
  - reflexivity.
Defined.

Lemma stages_without_climate_witness :
  calculate_melt {| glaciers_gdf := None; grids_gdf := example_grids [example_grid 7 10];
                    climate_data := None; topo_data := None |} = Some None ∧
  calculate_runoff {| glaciers_gdf := None; grids_gdf := example_grids [example_grid 7 10];
                      climate_data := None; topo_data := None |} None = None ∧
  calculate_flood_risk {| glaciers_gdf := None; grids_gdf := example_grids [example_grid 7 10];
                          climate_data := None; topo_data := None |} None [] = None ∧
  calculate_projected_risk_3d {| glaciers_gdf := None; grids_gdf := example_grids [example_grid 7 10];
                                 climate_data := None; topo_data := None |} None []
    = None.
Proof.
  apply (stages_without_climate
           {| glaciers_gdf := None; grids_gdf := example_grids [example_grid 7 10];
              climate_data := None; topo_data := None |} None []).
  - discriminate.
  - left. reflexivity.
Defined.

Lemma empty_answer_analysis_raises_witness :
  get_climate_data (H := empty_answer_services)
    (grid_rows (example_grids [example_grid 3 10; example_grid 4 20])) = Some [] ∧
  run_full_analysis (H := empty_answer_services) example_glaciers
    (example_grids [example_grid 3 10; example_grid 4 20]) = None.
Proof.
  apply (empty_answer_analysis_raises (H := empty_answer_services) example_glaciers
           (example_grids [example_grid 3 10; example_grid 4 20])).
  - discriminate.
  - reflexivity.
Defined.

(** ** Topography and the stages that read it *)

Section Topography.
Context `{External}.

Lemma slice_from_S {A : Type} (i n : nat) (x : A) (l : list A) :
  slice_from (S i) n (x :: l) = slice_from i n l.
Proof. reflexivity. Qed.

Lemma slice_from_nil {A : Type} (i n : nat) : slice_from i n (@nil A) = [].
Proof. unfold slice_from. by rewrite drop_nil, take_nil. Qed.

Lemma imap_slices {A : Type} (f : float → grid → A) (grids : list grid) (l : list float) :
  omap id (imap (λ i g, match slice_from i 1 l with
                        | [e] => Some (f e g)
                        | _ => None
                        end) grids)
  = zip_with (λ g e, f e g) grids l.
Proof.
  revert l. induction grids as [|g grids IH]; intros l; [reflexivity|].
  rewrite imap_cons. destruct l as [|e l].
  - rewrite (imap_ext _ (λ i g, match slice_from i 1 [] with
                                | [e] => Some (f e g)
                                | _ => None
                                end)).
    + simpl. rewrite IH. by destruct grids.
    + intros i g' _. simpl. by rewrite !slice_from_nil.
  - rewrite (imap_ext _ (λ i g, match slice_from i 1 l with
                                | [e] => Some (f e g)
                                | _ => None
                                end)).
    + simpl. by rewrite IH.
    + intros i g' _. reflexivity.
Qed.

(** The topography table, row by row: unit number [i] gets a row exactly
    when the elevation list has an entry number [i], and the row holds
    that elevation. *)
Lemma get_topography_zip (grids : list grid) :
  get_topography_for_grids grids
  = zip_with (λ g e, _calculate_topography_metrics_impl e (grid_id g)) grids
             (elevation_api (map (λ g, _generate_sample_points (bounds g)) grids)).
Proof. unfold get_topography_for_grids. apply imap_slices. Qed.

Lemma get_topography_flat (grids : list grid) (t : topo_row) :
  t ∈ get_topography_for_grids grids →
  slope_mean t = 0 ∧ aspect t = "-" ∧ aspect_deg t = 0 ∧
  elevation_min t = elevation_mean t ∧ elevation_max t = elevation_mean t.
Proof.
  rewrite get_topography_zip. intros Hin.
  apply elem_of_lookup_zip_with in Hin as (i & g & e & -> & _ & _).
  by repeat split.
Qed.

(** X13.  [get_topography_for_grids] pairs the units with the elevations
    that the elevation service returned, in order: unit number [i] gets a
    topography row exactly when the answer has an entry number [i]; the row
    holds that elevation as mean, minimum and maximum, with slope 0 and
    aspect [-]; units beyond the end of a short answer get no row. *)
Theorem get_topography_for_grids_rows (grids : list grid) :
  get_topography_for_grids grids
  = zip_with (λ g e, {| topo_grid_id := grid_id g; elevation_mean := e;
                        elevation_min := e; elevation_max := e; slope_mean := 0;
                        aspect := "-"; aspect_deg := 0 |})
             grids
             (elevation_api (map (λ g, _generate_sample_points (bounds g)) grids)).
Proof. apply get_topography_zip. Qed.

(** X14.  In the analysis chain, where the topography table comes from
    [get_topography_for_grids] (one sample per unit, so no gradient), the
    runoff stage never uses the slope classes [baja] and [alta]: every
    runoff row has slope 0 and the coefficient 0.20 (the unit has a
    topography row) or 0.50 (it has none). *)
Theorem chain_runoff_coefficient (glaciers : option glaciers_frame)
    (grids : grids_frame) (climate : option (list climate_row))
    (melt_df : option (list melt_row)) (runoff_df : list runoff_row) :
  calculate_runoff {| glaciers_gdf := glaciers; grids_gdf := grids;
                      climate_data := climate;
                      topo_data := Some (get_topography_for_grids (grid_rows grids)) |}
                   melt_df = Some runoff_df →
  Forall (λ r, slope_percent r = 0 ∧ (runoff_coeff r = 0.2 ∨ runoff_coeff r = 0.5))
         runoff_df.
Proof.
  intros Hrun. unfold calculate_runoff in Hrun.
  apply for_append_omap in Hrun as ->.
  apply Forall_forall. intros r Hr.
  apply list_elem_of_omap in Hr as (g & _ & Hg). simpl in Hg.
  unfold runoff_of in Hg. simpl in Hg.
  destruct (select climate_grid_id climate (grid_id g)) as [[|c cs]|];
    simpl in Hg; try discriminate.
  destruct (get_topography_for_grids (grid_rows grids)) as [|t0 topo] eqn:Htopo.
  - simpl in Hg. injection Hg as <-. simpl. auto.
  - destruct (filter (λ r, topo_grid_id r = grid_id g) (t0 :: topo)) as [|t ts] eqn:Hf.
    + simpl in Hg. injection Hg as <-. simpl. auto.
    + assert (t ∈ get_topography_for_grids (grid_rows grids)) as Ht.
      { rewrite Htopo. eapply list_elem_of_filter. rewrite Hf. left. }
      destruct (get_topography_flat _ _ Ht) as (Hslope & _).
      rewrite Hslope in Hg. simpl in Hg. injection Hg as <-. simpl. auto.
Qed.

End Topography.

Lemma chain_runoff_coefficient_witness :
  Forall (λ r, slope_percent r = 0 ∧ (runoff_coeff r = 0.2 ∨ runoff_coeff r = 0.5))
    (default [] (calculate_runoff
       {| glaciers_gdf := Some example_glaciers;
          grids_gdf := example_grids [example_grid 7 10];
          climate_data := Some [example_climate 7 1 20 150 0 NoColumn];
          topo_data := Some (get_topography_for_grids (H := offline_services)
                               (grid_rows (example_grids [example_grid 7 10]))) |}
       None)).
Proof.
  apply (chain_runoff_coefficient (H := offline_services) (Some example_glaciers)
           (example_grids [example_grid 7 10])
           (Some [example_climate 7 1 20 150 0 NoColumn]) None).
  vm_compute. reflexivity.
Defined.

(** ** Edge behaviour of the stages *)

Lemma melt_of_is_Some_column (self : calculator) (glaciers : glaciers_frame)
    (climate : climate_row) :
  has_elevation_mean (grids_gdf self) = true →
  is_Some (melt_of self glaciers climate) ↔
  climate_grid_id climate ∈ map grid_id (grid_rows (grids_gdf self)).
Proof.
  intros Hcol. unfold melt_of, hru_elevation. rewrite Hcol.
  destruct (filter (λ g, grid_id g = climate_grid_id climate)
                   (grid_rows (grids_gdf self))) as [|g gs] eqn:Hf; simpl.
  - split; [by destruct (has_area_in_grid glaciers); intros [? ?]|]. intros Hin.
    apply list_elem_of_fmap in Hin as (g & Hid & Hg).
    by destruct (filter_nil_not_elem_of _ _ g Hf (eq_sym Hid)).
  - split; [|by eauto]. intros _.
    assert (g ∈ filter (λ g, grid_id g = climate_grid_id climate)
                       (grid_rows (grids_gdf self))) as Hg by (rewrite Hf; left).
    apply list_elem_of_filter in Hg as [<- Hg]. by apply (list_elem_of_fmap_2 grid_id).
Qed.

Lemma glaciers_failsafe_is_Some (self : calculator) :
  is_Some (glaciers_failsafe self) ↔
  ∃ glaciers, glaciers_gdf self = Some glaciers ∧
              (has_grid_id glaciers = true ∨ emergency_join_succeeds glaciers = true).
Proof.
  unfold glaciers_failsafe. destruct (glaciers_gdf self) as [glaciers|]; simpl.
  - destruct (has_grid_id glaciers) eqn:Hid.
    + split; [|by eauto]. intros _. exists glaciers. by rewrite Hid; auto.
    + destruct (emergency_join_succeeds glaciers) eqn:Hjoin.
      * split; [|by eauto]. intros _. exists glaciers. by rewrite Hjoin; auto.
      * split; [by intros [? ?]|]. intros (g & [= <-] & [H|H]); congruence.
  - split; [by intros [? ?]|]. by intros (g & ? & _).
Qed.

(** X15.  When the unit table has the [elevation_mean] column,
    [calculate_melt] reads it with [grid_row.iloc[0]] for every climate row:
    the stage returns exactly when the glacier table is loaded and has the
    column [grid_id] (or the emergency assignment of the stage succeeds on
    it) and every climate row belongs to a unit of the table; it raises
    without a glacier table, when the emergency assignment fails, and as
    soon as one climate row has a [grid_id] that no unit carries. *)
Theorem calculate_melt_elevation_column (self : calculator) (c : climate_row)
    (rows : list climate_row) :
  climate_data self = Some (c :: rows) →
  has_elevation_mean (grids_gdf self) = true →
  is_Some (calculate_melt self) ↔
  (∃ glaciers, glaciers_gdf self = Some glaciers ∧
               (has_grid_id glaciers = true ∨ emergency_join_succeeds glaciers = true)) ∧
  Forall (λ r, climate_grid_id r ∈ map grid_id (grid_rows (grids_gdf self))) (c :: rows).
Proof.
  intros Hc Hcol. rewrite <- glaciers_failsafe_is_Some.
  unfold calculate_melt. rewrite Hc.
  destruct (glaciers_failsafe self) as [glaciers|]; cbn [mbind option_bind].
  - split.
    + intros Hsome. split; [by eauto|].
      assert (is_Some (mapM (melt_of self glaciers) (c :: rows))) as Hm.
      { destruct (mapM (melt_of self glaciers) (c :: rows)); [by eauto|by destruct Hsome]. }
      apply mapM_is_Some in Hm. eapply Forall_impl; [exact Hm|].
      intros r Hr. by eapply melt_of_is_Some_column.
    + intros [_ Hall].
      assert (is_Some (mapM (melt_of self glaciers) (c :: rows))) as [ms ->];
        [|by simpl; eauto].
      apply mapM_is_Some. eapply Forall_impl; [exact Hall|].
      intros r Hr. by apply melt_of_is_Some_column.
  - split; [by intros [? ?]|]. by intros [[? ?] _].
Qed.

Lemma calculate_melt_elevation_column_witness :
  is_Some (calculate_melt
             {| glaciers_gdf := Some {| has_grid_id := false; has_area_in_grid := false;
                                        emergency_join_succeeds := false |};
                grids_gdf := {| grid_rows := [example_grid 7 10]; has_area_km2 := true;
                                has_elevation_mean := true |};
                climate_data := Some [example_climate 7 1 20 150 0 NoColumn];
                topo_data := None |}) ↔
  (∃ glaciers,
     Some {| has_grid_id := false; has_area_in_grid := false;
             emergency_join_succeeds := false |} = Some glaciers ∧
     (has_grid_id glaciers = true ∨ emergency_join_succeeds glaciers = true)) ∧
  Forall (λ r, climate_grid_id r ∈ map grid_id [example_grid 7 10])
         [example_climate 7 1 20 150 0 NoColumn].
Proof.
  apply (calculate_melt_elevation_column
           {| glaciers_gdf := Some {| has_grid_id := false; has_area_in_grid := false;
                                      emergency_join_succeeds := false |};
              grids_gdf := {| grid_rows := [example_grid 7 10]; has_area_km2 := true;
                              has_elevation_mean := true |};
              climate_data := Some [example_climate 7 1 20 150 0 NoColumn];
              topo_data := None |}).
  - reflexivity.
  - reflexivity.
Defined.

(** X16.  Join integrity of [run_full_analysis]: when the units have
    distinct [grid_id]s, the merged table has exactly the rows of the unit
    table, each once and in the same order; none of the six left joins
    duplicates or drops a unit. *)
Theorem merged_table_keeps_units `{External} (glaciers : glaciers_frame)
    (grids : grids_frame) (results : list result_row) :
  NoDup (map grid_id (grid_rows grids)) →
  run_full_analysis glaciers grids = Some results →
  map base results = grid_rows grids.
Proof. apply merged_rows_exactly_once. Qed.

Lemma merged_table_keeps_units_witness :
  map base (default [] (run_full_analysis (H := short_answer_services) example_glaciers
                          (example_grids [example_grid 3 10; example_grid 4 20])))
  = grid_rows (example_grids [example_grid 3 10; example_grid 4 20]).
Proof.
  apply (merged_table_keeps_units (H := short_answer_services) example_glaciers
           (example_grids [example_grid 3 10; example_grid 4 20])).
  - apply (bool_decide_unpack _). vm_compute. exact I.
  - vm_compute. reflexivity.
Defined.

(** ** Flood zones *)

Section FloodZones.
Import FloatOrder.

Lemma ltb_trans_const (x c1 c2 : float) :
  (c1 <=? c2) = true → (c2 <? x) = true → (c1 <? x) = true.
Proof. apply leb_ltb_trans. Qed.

(** X17.  What [_identify_flood_zones] needs to flag a unit: the flag is
    set exactly when the description is not [Bajo riesgo]; a risk score
    above 0.5 always sets it; and it is never set unless the runoff is
    above 100 m3/s or the risk score is above 0.5.  In particular a unit
    for which the chain produced no runoff and no risk row (missing values
    in the merged table) is reported as [Bajo riesgo], whatever its
    elevation and slope. *)
Theorem flood_zone_conditions (grids_have_column : bool) (row : result_row) :
  let zone := flood_zone_of grids_have_column row in
  (flood_prone zone = true ↔ flood_description zone ≠ "Bajo riesgo") ∧
  ((0.5 <? row_get risk_score (with_risk row)) = true → flood_prone zone = true) ∧
  (flood_prone zone = true →
     (100 <? row_get runoff_m3s (with_runoff row)) = true ∨
     (0.5 <? row_get risk_score (with_risk row)) = true) ∧
  (with_runoff row = Unmatched → with_risk row = Unmatched →
     flood_prone zone = false ∧ flood_description zone = "Bajo riesgo").
Proof.
  unfold flood_zone_of.
  destruct (get_elevation_mean grids_have_column row <? 500),
    (row_get slope_mean (with_topo row) <? 5),
    (get_elevation_mean grids_have_column row <? 800),
    (100 <? row_get runoff_m3s (with_runoff row)) eqn:H100,
    (200 <? row_get runoff_m3s (with_runoff row)) eqn:H200,
    (0.5 <? row_get risk_score (with_risk row)) eqn:Hrisk; simpl;
    (split; [split; [done || (intros _; discriminate) | done || (by intros [])]|]);
    (split; [done|]);
    (split; [try (by auto);
             try (by rewrite (ltb_trans_const _ 100 200 eq_refl H200) in H100)|]);
    intros Hr Hk; rewrite Hr in H100, H200; rewrite Hk in Hrisk; simpl in *;
    try discriminate; done.
Qed.

Lemma flood_zone_conditions_witness :
  flood_prone (flood_zone_of false
                 (set_risk (set_runoff (initial_row (example_grid 4 20)) Unmatched)
                           Unmatched)) = false ∧
  flood_description (flood_zone_of false
                       (set_risk (set_runoff (initial_row (example_grid 4 20)) Unmatched)
                                 Unmatched)) = "Bajo riesgo".
Proof.
  apply (proj2 (proj2 (proj2 (flood_zone_conditions false
           (set_risk (set_runoff (initial_row (example_grid 4 20)) Unmatched)
                     Unmatched))))).
  - reflexivity.
  - reflexivity.
Defined.

Lemma filter_fmap {A B : Type} (f : A → B) (P : B → Prop) `{∀ y, Decision (P y)}
    (l : list A) :
  filter P (map f l) = map f (filter (λ x, P (f x)) l).
Proof.
  induction l as [|x l IH]; [reflexivity|].
  simpl. rewrite !filter_cons, IH. by destruct (decide (P (f x))).
Qed.

Lemma flat_map_singletons {A B : Type} (f : A → list B) (g : A → B) (l : list A) :
  (∀ x, x ∈ l → f x = [g x]) → flat_map f l = map g l.
Proof.
  induction l as [|x l IH]; intros Hall; [reflexivity|].
  simpl. rewrite Hall by left. simpl. f_equal. apply IH.
  intros y Hy. apply Hall. by right.
Qed.

Lemma flood_zone_grid_id (grids_have_column : bool) (row : result_row) :
  flood_grid_id (flood_zone_of grids_have_column row) = grid_id (base row).
Proof. unfold flood_zone_of. by repeat case_match. Qed.

(** X18.  The join of the flood table onto the results: when the rows of
    the results have distinct [grid_id]s, every row appears once, in
    order, with the flood columns computed from that same row. *)
Theorem identify_flood_zones_rows (grids_have_column : bool)
    (results : list result_row) :
  NoDup (map (λ r, grid_id (base r)) results) →
  _identify_flood_zones grids_have_column (Some results)
  = Some (map (λ r, (r, Matched (flood_zone_of grids_have_column r))) results).
Proof.
  intros Hnd. destruct results as [|r0 rs]; [reflexivity|].
  unfold _identify_flood_zones. f_equal.
  apply flat_map_singletons. intros row Hrow.
  rewrite (filter_fmap (flood_zone_of grids_have_column)
             (λ z, flood_grid_id z = grid_id (base row))).
  assert (filter (λ x, flood_grid_id (flood_zone_of grids_have_column x)
                       = grid_id (base row)) (r0 :: rs) = [row]) as ->; [|reflexivity].
  rewrite <- (filter_unique_key (λ r, grid_id (base r)) (r0 :: rs) row Hnd Hrow).
  apply list_filter_iff. intros r. by rewrite flood_zone_grid_id.
Qed.

Lemma identify_flood_zones_rows_witness :
  _identify_flood_zones false
    (Some [initial_row (example_grid 3 10); initial_row (example_grid 4 20)])
  = Some (map (λ r, (r, Matched (flood_zone_of false r)))
              [initial_row (example_grid 3 10); initial_row (example_grid 4 20)]).
Proof.
  apply (identify_flood_zones_rows false
           [initial_row (example_grid 3 10); initial_row (example_grid 4 20)]).
  apply (bool_decide_unpack _). vm_compute. exact I.
Defined.

End FloodZones.

(** ** The alert bulletin and the classifier *)

Section Alerts.
Import FloatOrder.

Lemma SFeqb_refl (x : spec_float) : x ≠ S754_nan → SFeqb x x = true.
Proof.
  destruct x as [s|s| |s m e]; intros Hx; [| |done|]; unfold SFeqb, SFcompare.
  - by destruct s.
  - by destruct s.
  - destruct s; rewrite Z.compare_refl;
      change (Pos.compare_cont Eq m m) with (Pos.compare m m);
      by rewrite Pos.compare_refl.
Qed.

(** A number that compares with something is not NaN. *)
Lemma ltb_number (x c : float) : (x <? c) = true → (x =? x) = true.
Proof.
  rewrite FloatAxioms.eqb_spec, FloatAxioms.ltb_spec. intros Hlt.
  apply SFeqb_refl. intros Hx. by rewrite Hx in Hlt.
Qed.

Lemma leb_number (c x : float) : (c <=? x) = true → (x =? x) = true.
Proof.
  rewrite FloatAxioms.eqb_spec, FloatAxioms.leb_spec. intros Hle.
  apply SFeqb_refl. intros Hx. rewrite Hx in Hle.
  by destruct (Prim2SF c) as [[]|[]| |[]].
Qed.

Lemma number_leb (x : float) : (x =? x) = true → (x <=? x) = true.
Proof.
  rewrite FloatAxioms.eqb_spec, FloatAxioms.leb_spec.
  unfold SFeqb, SFleb. by destruct (SFcompare _ _) as [[]|].
Qed.

(** A number is below a constant or at least that constant. *)
Lemma number_split (x c : float) :
  (x =? x) = true → (c <=? c) = true → (x <? c) = false → (c <=? x) = true.
Proof. intros Hx. apply not_ltb_leb with (a := x). by apply number_leb. Qed.

(** X19.  The level that the bulletin prints and the class of the
    calculator, for the same score: the level [EXTREMO] implies the class
    [critico]; the classes [bajo], [medio] and [alto] imply a level among
    [MUY BAJO]/[BAJO], [BAJO]/[MEDIO] and [MEDIO]/[ALTO]; the class
    [critico] of a non-negative score implies [ALTO] or [EXTREMO]. *)
Theorem risk_level_and_class (score : float) :
  (_get_risk_level_name score = "EXTREMO" → _classify_risk score = "critico") ∧
  (_classify_risk score = "bajo" →
     _get_risk_level_name score ∈ ["MUY BAJO"; "BAJO"]) ∧
  (_classify_risk score = "medio" →
     _get_risk_level_name score ∈ ["BAJO"; "MEDIO"]) ∧
  (_classify_risk score = "alto" →
     _get_risk_level_name score ∈ ["MEDIO"; "ALTO"]) ∧
  (_classify_risk score = "critico" → (0 <=? score) = true →
     _get_risk_level_name score ∈ ["ALTO"; "EXTREMO"]).
Proof.
  split; [|split; [|split; [|split]]];
    [rewrite classify_cases; unfold _get_risk_level_name, in_range..|].
  - destruct (0.8 <=? score) eqn:H8.
    + intros _.
      pose proof (leb_trans 0.75 0.8 score eq_refl H8) as H75.
      rewrite (leb_excludes_ltb score 0.75 0.25 H75 eq_refl), andb_false_r.
      rewrite (leb_excludes_ltb score 0.75 0.50 H75 eq_refl), andb_false_r.
      by rewrite (leb_excludes_ltb score 0.75 0.75 H75 eq_refl), andb_false_r.
    + by repeat case_match.
  - destruct ((0.0 <=? score) && (score <? 0.25)) eqn:E; [|by repeat case_match].
    apply andb_prop in E as [H0 H25]. intros _.
    rewrite (ltb_excludes_leb score 0.25 0.8 H25 eq_refl),
      (ltb_excludes_leb score 0.25 0.6 H25 eq_refl),
      (ltb_excludes_leb score 0.25 0.4 H25 eq_refl).
    destruct (0.2 <=? score); set_solver.
  - destruct ((0.0 <=? score) && (score <? 0.25)); [discriminate|].
    destruct ((0.25 <=? score) && (score <? 0.50)) eqn:E; [|by repeat case_match].
    apply andb_prop in E as [H25 H50]. intros _.
    rewrite (ltb_excludes_leb score 0.50 0.8 H50 eq_refl),
      (ltb_excludes_leb score 0.50 0.6 H50 eq_refl).
    rewrite (leb_trans 0.2 0.25 score eq_refl H25).
    destruct (0.4 <=? score); set_solver.
  - destruct ((0.0 <=? score) && (score <? 0.25)); [discriminate|].
    destruct ((0.25 <=? score) && (score <? 0.50)); [discriminate|].
    destruct ((0.50 <=? score) && (score <? 0.75)) eqn:E; [|discriminate].
    apply andb_prop in E as [H50 H75]. intros _.
    rewrite (ltb_excludes_leb score 0.75 0.8 H75 eq_refl).
    rewrite (leb_trans 0.4 0.50 score eq_refl H50).
    destruct (0.6 <=? score); set_solver.
  - intros Hc H0. unfold _get_risk_level_name.
    apply classify_critico_iff in Hc. unfold in_range in Hc.
    rewrite H0 in Hc. simpl in Hc.
    pose proof (not_ltb_leb 0 score 0.75 H0 eq_refl Hc) as H75.
    rewrite (leb_trans 0.6 0.75 score eq_refl H75).
    destruct (0.8 <=? score); set_solver.
Qed.

Lemma risk_level_and_class_witness : _classify_risk 0.9 = "critico".
Proof.
  apply (proj1 (risk_level_and_class 0.9)). reflexivity.
Defined.

(** X20.  The statistics of the bulletin: the rows counted as high
    (score >= 0.6), medium (0.4 <= score < 0.6) and low (score < 0.4) are
    together the rows whose score is a number; a row whose score is the
    missing-value marker is counted in none of the three. *)
Theorem bulletin_counts (risk_scores : list float) :
  (riesgo_alto risk_scores + riesgo_medio risk_scores + riesgo_bajo risk_scores)%nat
  = length (filter (λ s, (s =? s) = true) risk_scores).
Proof.
  unfold riesgo_alto, riesgo_medio, riesgo_bajo.
  induction risk_scores as [|s l IH]; [reflexivity|].
  rewrite !filter_cons.
  destruct (s =? s) eqn:Hs.
  - destruct (s <? 0.4) eqn:H4.
    + rewrite (ltb_excludes_leb s 0.4 0.6 H4 eq_refl),
        (ltb_excludes_leb s 0.4 0.4 H4 eq_refl).
      repeat case_decide; try done; simpl in *; lia.
    + rewrite (number_split s 0.4 Hs eq_refl H4).
      destruct (s <? 0.6) eqn:H6.
      * rewrite (ltb_excludes_leb s 0.6 0.6 H6 eq_refl).
        repeat case_decide; try done; simpl in *; lia.
      * rewrite (number_split s 0.6 Hs eq_refl H6).
        repeat case_decide; try done; simpl in *; lia.
  - destruct (0.6 <=? s) eqn:H6; [by rewrite (leb_number _ _ H6) in Hs|].
    destruct (0.4 <=? s) eqn:H4; [by rewrite (leb_number _ _ H4) in Hs|].
    destruct (s <? 0.4) eqn:H4'; [by rewrite (ltb_number _ _ H4') in Hs|].
    repeat case_decide; try done; simpl in *; lia.
Qed.

End Alerts.

(** ** Runoff without precipitation; order of the classes *)

Section Dry.
Import FloatOrder.

(** Zero times a positive finite number is zero. *)
Lemma mul_zero_positive (a : float) :
  (a <=? 0) = false → is_finite a = true → 0 * a = 0.
Proof.
  intros Hle Hfin. apply Prim2SF_inj. rewrite mul_spec.
  unfold is_finite, is_nan, is_infinity in Hfin.
  rewrite FloatAxioms.leb_spec in Hle.
  rewrite !FloatAxioms.eqb_spec, abs_spec in Hfin.
  change (Prim2SF 0) with (S754_zero false) in *.
  change (Prim2SF infinity) with (S754_infinity false) in Hfin.
  destruct (Prim2SF a) as [s|s| |s m e]; simpl in *.
  - by destruct s.
  - by destruct s.
  - discriminate.
  - destruct s; [discriminate|reflexivity].
Qed.

Lemma runoff_of_dry (self : calculator) (g : grid) (climate : climate_row) :
  climate_record_of self (grid_id g) = Some climate →
  (0 <? precip_24h climate) = false →
  is_finite (unit_area_km2 self g) = true →
  ∃ r, runoff_of self g = Some (Some r) ∧ runoff_grid_id r = grid_id g ∧
       precip_intensity_mm_h r = 0 ∧ runoff_m3s r = 0.
Proof.
  intros Hc Hp Hfin. destruct (climate_record_select _ _ _ Hc) as [rest Hsel].
  unfold runoff_of. rewrite Hsel. cbn [mbind option_bind]. rewrite Hp.
  fold (unit_area_km2 self g).
  assert (0 * (if unit_area_km2 self g <=? 0 then 1.0 else unit_area_km2 self g) * 0.278
          = 0) as Hzero.
  { destruct (unit_area_km2 self g <=? 0) eqn:Hle; [reflexivity|].
    by rewrite mul_zero_positive. }
  destruct (topo_data self) as [[|t topo]|]; simpl.
  1,3: eexists; split; [reflexivity|]; simpl; by repeat split.
  destruct (filter _ (t :: topo)) as [|t' ts]; simpl.
  { eexists. split; [reflexivity|]. simpl. by repeat split. }
  destruct (slope_mean t' <? 5); [|destruct (slope_mean t' <? 10);
    [|destruct (slope_mean t' <? 20)]]; simpl;
    (eexists; split; [reflexivity|]; simpl; by repeat split).
Qed.

(** X21.  A unit for which no precipitation is forecast (its [precip_24h]
    is not above 0) gets the intensity 0 and a runoff of exactly 0,
    whatever its slope and its melt rate, as long as its area is finite:
    the runoff stage reads the melt table nowhere. *)
Theorem dry_unit_has_no_runoff (self : calculator) (melt_df : option (list melt_row))
    (runoff_df : list runoff_row) (g : grid) (climate : climate_row) :
  calculate_runoff self melt_df = Some runoff_df →
  g ∈ grid_rows (grids_gdf self) →
  climate_record_of self (grid_id g) = Some climate →
  (0 <? precip_24h climate) = false →
  is_finite (unit_area_km2 self g) = true →
  ∃ r, r ∈ runoff_df ∧ runoff_grid_id r = grid_id g ∧
       precip_intensity_mm_h r = 0 ∧ runoff_m3s r = 0.
Proof.
  intros Hrun Hg Hc Hp Hfin.
  destruct (runoff_of_dry self g climate Hc Hp Hfin) as (r & Hbody & Hspec).
  exists r. split; [|exact Hspec]. eapply for_append_elem; eauto.
Qed.

Lemma dry_unit_has_no_runoff_witness :
  ∃ r, r ∈ default [] (calculate_runoff
                         (example_state 10 (example_climate 7 12 0 0 0 NoColumn)
                                        (Some (example_topo 7 900 25)))
                         (example_melt_df 96)) ∧
       runoff_grid_id r = 7%Z ∧ precip_intensity_mm_h r = 0 ∧ runoff_m3s r = 0.
Proof.
  apply (dry_unit_has_no_runoff
           (example_state 10 (example_climate 7 12 0 0 0 NoColumn)
                          (Some (example_topo 7 900 25)))
           (example_melt_df 96) _ (example_grid 7 10)
           (example_climate 7 12 0 0 0 NoColumn)).
  - vm_compute. reflexivity.
  - left.
  - vm_compute. reflexivity.
  - reflexivity.
  - reflexivity.
Defined.

(** X22.  On non-negative scores the classifier is monotone: a higher
    score never gets a lower class (bajo < medio < alto < critico). *)
Theorem classify_risk_monotone (s1 s2 : float) :
  (0 <=? s1) = true → (s1 <=? s2) = true →
  (class_rank (_classify_risk s1) ≤ class_rank (_classify_risk s2))%nat.
Proof.
  intros H0 H12.
  pose proof (leb_trans 0 s1 s2 H0 H12) as H0'.
  destruct (s1 <? 0.25) eqn:E25.
  { rewrite (classify_bajo s1); [apply Nat.le_0_l|]. unfold in_range. by rewrite H0, E25. }
  pose proof (not_ltb_leb 0 s1 0.25 H0 eq_refl E25) as H25.
  pose proof (leb_trans 0.25 s1 s2 H25 H12) as H25'.
  assert (2 ≤ class_rank (_classify_risk s2) ∨ _classify_risk s2 = "medio")%nat as Hm.
  { destruct (s2 <? 0.5) eqn:E; [right|left].
    - apply classify_medio. unfold in_range. by rewrite H25', E.
    - pose proof (not_ltb_leb 0 s2 0.5 H0' eq_refl E) as H50.
      destruct (s2 <? 0.75) eqn:E'.
      + rewrite (classify_alto s2); [vm_compute; lia|]. unfold in_range. by rewrite H50, E'.
      + rewrite (classify_high s2); [vm_compute; lia|].
        exact (not_ltb_leb 0 s2 0.75 H0' eq_refl E'). }
  destruct (s1 <? 0.5) eqn:E50.
  { rewrite (classify_medio s1); [|unfold in_range; by rewrite H25, E50].
    destruct Hm as [Hm | ->]; [|vm_compute; lia].
    etrans; [|exact Hm]. vm_compute. lia. }
  pose proof (not_ltb_leb 0 s1 0.5 H0 eq_refl E50) as H50.
  pose proof (leb_trans 0.5 s1 s2 H50 H12) as H50'.
  destruct (s1 <? 0.75) eqn:E75.
  { rewrite (classify_alto s1); [|unfold in_range; by rewrite H50, E75].
    destruct (s2 <? 0.75) eqn:E'.
    - rewrite (classify_alto s2); [vm_compute; lia|]. unfold in_range. by rewrite H50', E'.
    - rewrite (classify_high s2); [vm_compute; lia|].
      exact (not_ltb_leb 0 s2 0.75 H0' eq_refl E'). }
  pose proof (not_ltb_leb 0 s1 0.75 H0 eq_refl E75) as H75.
  rewrite (classify_high s1 H75), (classify_high s2 (leb_trans 0.75 s1 s2 H75 H12)).
  vm_compute. lia.
Qed.

Lemma classify_risk_monotone_witness :
  (class_rank (_classify_risk 0.3) ≤ class_rank (_classify_risk 0.6))%nat.
Proof.
  apply (classify_risk_monotone 0.3 0.6); reflexivity.
Defined.

End Dry.

(** ** Glaciers of the units *)

Section AssignGlaciers.
Context {U G : Type} `{Geometry U G}.

Lemma omap_length_le {A B : Type} (f : A → option B) (l : list A) :
  (length (omap f l) ≤ length l)%nat.
Proof. induction l as [|x l IH]; csimpl; [done|]. destruct (f x); csimpl; lia. Qed.

(** The rows that the body of [assign_glaciers_to_hrus] computes. *)
Lemma assign_glaciers_body_bounds (hrus : list U) (glaciers : list G) :
  map Assigned.hru_row (assign_glaciers_to_hrus_body hrus glaciers) = hrus ∧
  Forall (λ r, (100 <? Assigned.glacier_pct r) = false ∧
               (Assigned.glacier_count r ≤ length glaciers)%nat ∧
               (Assigned.glacier_count r = 0%nat →
                  Assigned.glacier_area_km2 r = 0 ∧ Assigned.glacier_pct r = 0))
         (assign_glaciers_to_hrus_body hrus glaciers).
Proof.
  unfold assign_glaciers_to_hrus_body. split.
  - rewrite map_map. rewrite <- (map_id hrus) at 2. apply map_ext.
    intros hru. unfold assign_row. by case_decide.
  - apply Forall_forall. intros r Hr.
    apply list_elem_of_fmap in Hr as (hru & -> & _). unfold assign_row.
    assert (length (glaciers_within glaciers hru) ≤ length glaciers)%nat as Hlen.
    { unfold glaciers_within. apply omap_length_le. }
    case_decide as Hpos; simpl.
    + split; [|split; [done|lia]].
      destruct (0 <? projected_area_m2 hru / 1e6); [|reflexivity].
      unfold py_min.
      destruct (100 <? py_sum (glaciers_within glaciers hru)
                        / (projected_area_m2 hru / 1e6) * 100) eqn:E; [reflexivity|done].
    + repeat split; (reflexivity || lia).
Qed.

(** X23.  A call of [assign_glaciers_to_hrus] that finds no entry in the
    cache returns one row per unit, in order; in every row the glacier
    cover [glacier_pct] is never above 100, also when the summed
    intersections exceed the area of the unit; the number of glaciers is
    at most the number of glaciers of the layer, and a unit with no kept
    intersection has glacier area 0 and cover 0.  The table is stored
    under the one key that all calls share: until the entry is an hour
    old, every call returns this table, whatever unit and glacier tables
    it is given; afterwards the assignment runs again on the tables of
    the call. *)
Theorem assign_glaciers_bounds (now : float)
    (cache : cache_data () (list (Assigned.row U)))
    (hrus : list U) (glaciers : list G) :
  cache_read (λ _ _, true) now () cache = None →
  ∃ table,
    let cache' := cache_write (λ _ _, true) now () table cache in
    assign_glaciers_to_hrus now cache hrus glaciers = (Some table, cache') ∧
    map Assigned.hru_row table = hrus ∧
    Forall (λ r, (100 <? Assigned.glacier_pct r) = false ∧
                 (Assigned.glacier_count r ≤ length glaciers)%nat ∧
                 (Assigned.glacier_count r = 0%nat →
                    Assigned.glacier_area_km2 r = 0 ∧ Assigned.glacier_pct r = 0))
           table ∧
    ∀ (later : float) (hrus' : list U) (glaciers' : list G),
      ((later <? now + ttl) = true →
         assign_glaciers_to_hrus later cache' hrus' glaciers' = (Some table, cache')) ∧
      ((later <? now + ttl) = false →
         (assign_glaciers_to_hrus later cache' hrus' glaciers').1
         = Some (map (assign_row glaciers') hrus')).
Proof.
  intros Hmiss. exists (assign_glaciers_to_hrus_body hrus glaciers).
  destruct (assign_glaciers_body_bounds hrus glaciers) as [Hrows Hbounds].
  split; [|split; [done|split; [done|]]].
  - unfold assign_glaciers_to_hrus. by rewrite cache_data_call_miss.
  - intros later hrus' glaciers'. unfold assign_glaciers_to_hrus.
    by apply cache_data_call_after_write.
Qed.

End AssignGlaciers.

Lemma assign_glaciers_bounds_witness :
  ∃ table,
    let cache' := cache_write (λ _ _, true) 0 () table [] in
    assign_glaciers_to_hrus (H := example_geometry) 0 [] [10e6; 40e6] [8e6; 7e6]
    = (Some table, cache') ∧
    map Assigned.hru_row table = [10e6; 40e6] ∧
    Forall (λ r, (100 <? Assigned.glacier_pct r) = false ∧
                 (Assigned.glacier_count r ≤ 2)%nat ∧
                 (Assigned.glacier_count r = 0%nat →
                    Assigned.glacier_area_km2 r = 0 ∧ Assigned.glacier_pct r = 0))
           table ∧
    ∀ (later : float) (hrus' glaciers' : list float),
      ((later <? 0 + ttl) = true →
         assign_glaciers_to_hrus (H := example_geometry) later cache' hrus' glaciers'
         = (Some table, cache')) ∧
      ((later <? 0 + ttl) = false →
         (assign_glaciers_to_hrus (H := example_geometry) later cache' hrus' glaciers').1
         = Some (map (assign_row (H := example_geometry) glaciers') hrus')).
Proof.
  apply (assign_glaciers_bounds (H := example_geometry) 0 [] [10e6; 40e6] [8e6; 7e6]).
  reflexivity.
Defined.

(** ** Elevation requests *)

Section ElevationRequests.
Context `{ElevationService}.

Lemma concat_batches {A B : Type} (f : list A → list B) (g : A → B) (points : list A) :
  (∀ batch, f batch = map g batch) →
  concat (map (λ i, f (slice_from i 100 points)) (range_step (length points) 100))
  = map g points.
Proof.
  intros Hf.
  rewrite (map_ext _ (λ i, map g (slice_from i 100 points))) by (intros; apply Hf).
  rewrite <- (map_map (λ i, slice_from i 100 points) (map g)), <- concat_map.
  f_equal. unfold range_step. apply concat_slices; [lia|].
  pose proof (Nat.div_mod_eq (length points + (100 - 1)) 100) as Hd.
  pose proof (Nat.mod_upper_bound (length points + (100 - 1)) 100 ltac:(lia)) as Hm.
  lia.
Qed.

Lemma batch_try_no_null (batch : list (float * float)) (elevs : list pyval) :
  batch_try batch = Some elevs → Forall (λ e, e ≠ PNone) elevs.
Proof.
  unfold batch_try. intros Hrun.
  repeat match type of Hrun with
  | (mbind _ ?m) = Some _ =>
      let E := fresh "E" in destruct m eqn:E; simpl in Hrun; [|discriminate]
  | (if ?b then _ else _) = Some _ => destruct b
  end; injection Hrun as <-; apply Forall_fmap, Forall_forall; intros elev _; simpl;
    by destruct elev.
Qed.

(** X24.  [_fetch_elevation_batch_optimized] never returns a [None]
    elevation: a [null] of the answer is replaced by 0, and a batch whose
    request or parsing raises, or whose status is not 200 / [OK],
    contributes one 0 per point; when no request is answered with status
    200, the result is one 0 per requested point, in particular as many
    elevations as points. *)
Theorem fetch_elevation_defaults (points : list (float * float)) :
  Forall (λ e, e ≠ PNone) (_fetch_elevation_batch_optimized points) ∧
  ((∀ batch body, topo_api batch ≠ Some (200%Z, body)) →
   _fetch_elevation_batch_optimized points = map (λ _, PInt 0) points).
Proof.
  split.
  - unfold _fetch_elevation_batch_optimized.
    apply Forall_concat, Forall_fmap, Forall_forall. intros i _. simpl.
    unfold batch_elevations.
    destruct (batch_try _) as [elevs|] eqn:Hrun.
    + by eapply batch_try_no_null.
    + apply Forall_fmap, Forall_forall. by intros e _.
  - intros Hfail. unfold _fetch_elevation_batch_optimized.
    apply (concat_batches batch_elevations (λ _, PInt 0)).
    intros batch. unfold batch_elevations, batch_try.
    destruct (topo_api batch) as [[status body]|] eqn:Hanswer; simpl; [|reflexivity].
    case_decide as Hstatus; [|reflexivity].
    simpl in Hstatus. subst status. by destruct (Hfail batch body).
Qed.

End ElevationRequests.

Lemma fetch_elevation_defaults_witness :
  _fetch_elevation_batch_optimized (H := offline_elevations) [(-45.5, -72.0); (-46.0, -72.5)]
  = map (λ _, PInt 0) [(-45.5, -72.0); (-46.0, -72.5)].
Proof.
  apply (proj2 (fetch_elevation_defaults (H := offline_elevations)
                  [(-45.5, -72.0); (-46.0, -72.5)])).
  intros batch body. discriminate.
Defined.

(** An answer with [null] elevations gives zeros. *)
Lemma null_elevations_are_zero :
  _fetch_elevation_batch_optimized (H := null_elevations) [(-45.5, -72.0); (-46.0, -72.5)]
  = [PInt 0; PInt 0].
Proof. vm_compute. reflexivity. Qed.
